(** * Palm payment API

    A shallow embedding of the request handlers of the palm payment API
    ([src/index.js], the first revision, and the later revision of the same
    file) over a model of the relational store they query, followed by the
    properties of the handlers.

    Conventions.
    - A JavaScript string is a [string]; a JavaScript Number that takes part
      in arithmetic is a binary64 [float]; instants ([Date.now()],
      [new Date()]) are milliseconds in [Z].
    - A handler is a function from the store (and the values the runtime
      hands it: the clock, generated ids) and the request to the new store
      and the response.  [Json b] is [res.json(b)], status 200;
      [Fail c msg] is [res.status(c).json({ error: msg })].
    - The store behind the ORM is a record of tables, each a list of rows.
    - What the sources leave to their environment is a parameter: the
      runtime's reading of a decimal string as a Number
      ([parseFloat_string]), the store's order on names ([name_le]),
      whether the schema requires [Order.palmDeviceId]
      ([palmDeviceId_required]), what the column [Order.totalAmount] keeps
      of a Number ([totalAmount_column]), the order a query gives to the
      authentication logs of one instant ([tie_rank]) and what the ORM does
      with a [take] or [skip] beyond the 32-bit integers
      ([findMany_beyond_Int]).  A failure of the store itself (an
      unreachable database) is not modelled. *)

From Stdlib Require Import ZArith QArith Floats Ascii.
From stdpp Require Import gmap strings list sorting.

Local Open Scope Z_scope.

(** ** The JavaScript built-ins the handlers use *)

Module Js.

(** [ToBoolean] of a value that is a string or is absent
    ([undefined]/[null]): only a non-empty string is truthy. *)
Definition truthy (v : option string) : bool :=
  match v with
  | Some s => negb (String.eqb s "")
  | None => false
  end.

(** [s.startsWith(p)] *)
Definition startsWith (s p : string) : bool := String.prefix p s.

(** [s.substring(n)]: [s] without its first [n] characters. *)
Fixpoint substring (n : nat) (s : string) : string :=
  match n, s with
  | O, _ => s
  | S _, EmptyString => EmptyString
  | S k, String _ r => substring k r
  end.

(** [arr.reduce(f, init)] *)
Definition reduce {A B : Type} (f : B → A → B) (init : B) (arr : list A) : B :=
  fold_left f arr init.

(** White space skipped by [parseInt] (code units below 256): TAB, LF, VT,
    FF, CR, SP and NBSP. *)
Definition isWhiteSpace (c : ascii) : bool :=
  let n := Ascii.N_of_ascii c in
  ((9 <=? n) && (n <=? 13) || (n =? 32) || (n =? 160))%N.

Fixpoint trimStart (s : string) : string :=
  match s with
  | String c r => if isWhiteSpace c then trimStart r else s
  | EmptyString => s
  end.

(** The value of [c] as a digit of the given radix, if it is one. *)
Definition digitValue (radix : Z) (c : ascii) : option Z :=
  let n := Z.of_N (Ascii.N_of_ascii c) in
  let v := if (48 <=? n) && (n <=? 57) then Some (n - 48)
           else if (97 <=? n) && (n <=? 122) then Some (n - 87)
           else if (65 <=? n) && (n <=? 90) then Some (n - 55)
           else None in
  match v with
  | Some d => if d <? radix then Some d else None
  | None => None
  end.

(** The longest prefix of [s] made of digits, read in [radix]; [acc] is
    the value read so far, [None] when no digit has been read. *)
Fixpoint digits (radix : Z) (acc : option Z) (s : string) : option Z :=
  match s with
  | String c r =>
      match digitValue radix c with
      | Some d => digits radix (Some (default 0 acc * radix + d)) r
      | None => acc
      end
  | EmptyString => acc
  end.

(** The Number that stands for the integer [n]: [n] itself while its
    magnitude fits the 53 bits of a binary64 significand, otherwise the
    nearest integer with a 53-bit significand, a tie going to the even
    significand.  An integer whose nearest Number would reach 2^1024 has
    none: the result is [Infinity], written here as 2^1024 with the sign of
    [n], which is no Number. *)
Definition roundToNumber (n : Z) : Z :=
  let a := Z.abs n in
  let e := Z.log2 a - 52 in
  if e <=? 0 then n
  else
    let q := a / 2 ^ e in
    let r := a mod 2 ^ e in
    let half := 2 ^ (e - 1) in
    let q := if r <? half then q
             else if half <? r then q + 1
             else if Z.even q then q else q + 1 in
    let v := q * 2 ^ e in
    Z.sgn n * (if 2 ^ 1024 <=? v then 2 ^ 1024 else v).

(** [parseInt(s)] with no radix argument.  [None] is [NaN]; a Number is
    given by its integer value ([-0] is [0]), the digits read being rounded
    to a Number by [roundToNumber].  (Past twenty significant decimal
    digits the language lets a runtime read the later digits as zeros; the
    value is beyond the 32-bit integers either way.) *)
Definition parseInt (s : string) : option Z :=
  let s := trimStart s in
  let '(sign, s) :=
    match s with
    | String "-" r => (-1, r)
    | String "+" r => (1, r)
    | _ => (1, s)
    end in
  let '(radix, s) :=
    match s with
    | String "0" (String "x" r) => (16, r)
    | String "0" (String "X" r) => (16, r)
    | _ => (10, s)
    end in
  match digits radix None s with
  | Some n => Some (roundToNumber (sign * n))
  | None => None
  end.

(** A JSON value that is a number or a string, such as the [price] of a
    line item: [3.5] or "3.50". *)
Inductive numeric : Type :=
| Number (x : float)
| NumericString (s : string).

(** [parseFloat(v)].  [parseFloat] reads its argument as a string: a Number
    is read back as itself, except that [-0] prints as "0" and is read as
    [+0].  The reading of a string is the runtime's, [parseFloat_string]. *)
Definition parseFloat (parseFloat_string : string → float) (v : numeric) : float :=
  match v with
  | Number x => if PrimFloat.is_zero x then PrimFloat.zero else x
  | NumericString s => parseFloat_string s
  end.

(** [s?.startsWith(p)], as a condition: [undefined] when [s] is absent. *)
Definition optional_startsWith (s : option string) (p : string) : bool :=
  match s with
  | Some s => startsWith s p
  | None => false
  end.

(** [s || d] on a string that may be absent. *)
Definition or_string (s : option string) (d : string) : string :=
  match s with
  | Some v => if String.eqb v "" then d else v
  | None => d
  end.

(** [parseInt(q)] of a query parameter: an absent parameter is
    [undefined], which [parseInt] first turns into the string
    "undefined". *)
Definition parseInt_param (q : option string) : option Z :=
  match q with
  | Some s => parseInt s
  | None => parseInt "undefined"
  end.

(** [n || d] on a Number: [NaN] and [0] are falsy. *)
Definition or_default (n : option Z) (d : Z) : Z :=
  match n with
  | Some v => if v =? 0 then d else v
  | None => d
  end.

(** One hexadecimal digit, in lower case. *)
Definition hexDigit (n : N) : ascii :=
  if (n <? 10)%N then Ascii.ascii_of_N (48 + n) else Ascii.ascii_of_N (87 + n).

(** [buf.toString('hex')] on a buffer of bytes: two digits a byte, the
    high half first. *)
Fixpoint toString_hex (buf : list ascii) : string :=
  match buf with
  | [] => EmptyString
  | b :: rest =>
      let n := Ascii.N_of_ascii b in
      String (hexDigit (n / 16)) (String (hexDigit (n mod 16)) (toString_hex rest))
  end.

(** The characters [toString('hex')] writes: [0]-[9] and [a]-[f]. *)
Definition isHexDigit (c : ascii) : bool :=
  let n := Ascii.N_of_ascii c in
  ((48 <=? n) && (n <=? 57) || (97 <=? n) && (n <=? 102))%N.

End Js.

(** ** Responses *)

Inductive response (A : Type) : Type :=
| Json (body : A)
| Fail (status : Z) (error : string).
Arguments Json {A} body.
Arguments Fail {A} status error.

Definition status_code {A : Type} (r : response A) : Z :=
  match r with
  | Json _ => 200
  | Fail c _ => c
  end.


(** ** The data model

    One record per entity of the store, with the fields the handlers name.
    The schema file of the ORM is not part of the sources; a column's
    storage type is taken from the way the handlers use it. *)

Module Product.
Record t : Type := mk {
  id : string;
  name : string;
  description : option string;
  price : float;
  imageUrl : option string;
  stock : Z;
  active : bool
}.
End Product.

Module Customer.
Record t : Type := mk {
  id : string;
  name : string;
  email : option string;
  phone : option string;
  palmId : option string;
  createdAt : Z
}.
End Customer.

Module OrderItem.
Record t : Type := mk {
  productId : string;
  quantity : float;
  price : Js.numeric
}.
End OrderItem.

Module Order.
Record t : Type := mk {
  id : string;
  customerId : option string;
  customerName : option string;
  status : string;
  totalAmount : float;
  palmDeviceId : option string;
  createdAt : Z;
  completedAt : option Z;
  items : list OrderItem.t
}.
End Order.

Module PalmDevice.
Record t : Type := mk {
  id : string;
  name : option string;
  location : option string;
  apiToken : string;
  active : bool;
  lastSeenAt : option Z;
  createdAt : Z
}.
End PalmDevice.

Module User.
Record t : Type := mk {
  id : string;
  displayName : string;
  email : option string;
  createdAt : Z
}.
End User.

Module Card.
Record t : Type := mk {
  id : string;
  userId : string
}.
End Card.

Module PalmTemplate.
Record t : Type := mk {
  id : string;
  userId : string;
  sdkVendor : string;
  featureVersion : string;
  active : bool
}.
End PalmTemplate.

Module AuthenticationLog.
Record t : Type := mk {
  id : string;
  userId : string;
  authenticatedAt : Z
}.
End AuthenticationLog.

Module DeviceAuthenticationLog.
Record t : Type := mk {
  id : string;
  palmDeviceId : option string;
  deviceType : string;
  location : string;
  success : bool;
  reason : string;
  timestamp : Z
}.
End DeviceAuthenticationLog.

(** The store: one table per entity. *)
Record Db : Type := mkDb {
  products : list Product.t;
  customers : list Customer.t;
  orders : list Order.t;
  palmDevices : list PalmDevice.t;
  users : list User.t;
  cards : list Card.t;
  palmTemplates : list PalmTemplate.t;
  authenticationLogs : list AuthenticationLog.t;
  deviceAuthenticationLogs : list DeviceAuthenticationLog.t
}.

Definition set_orders (db : Db) (os : list Order.t) : Db :=
  mkDb (products db) (customers db) os (palmDevices db) (users db) (cards db)
       (palmTemplates db) (authenticationLogs db) (deviceAuthenticationLogs db).

Definition set_users (db : Db) (us : list User.t) : Db :=
  mkDb (products db) (customers db) (orders db) (palmDevices db) us (cards db)
       (palmTemplates db) (authenticationLogs db) (deviceAuthenticationLogs db).

Definition set_cards (db : Db) (cs : list Card.t) : Db :=
  mkDb (products db) (customers db) (orders db) (palmDevices db) (users db) cs
       (palmTemplates db) (authenticationLogs db) (deviceAuthenticationLogs db).

Definition set_palmTemplates (db : Db) (ts : list PalmTemplate.t) : Db :=
  mkDb (products db) (customers db) (orders db) (palmDevices db) (users db) (cards db)
       ts (authenticationLogs db) (deviceAuthenticationLogs db).

Definition set_authenticationLogs (db : Db) (ls : list AuthenticationLog.t) : Db :=
  mkDb (products db) (customers db) (orders db) (palmDevices db) (users db) (cards db)
       (palmTemplates db) ls (deviceAuthenticationLogs db).

Definition set_deviceAuthenticationLogs (db : Db) (ls : list DeviceAuthenticationLog.t) : Db :=
  mkDb (products db) (customers db) (orders db) (palmDevices db) (users db) (cards db)
       (palmTemplates db) (authenticationLogs db) ls.

(** ** The ORM calls the handlers make

    Each call of the handlers on [prisma.<model>] is a function on the
    store.  A call that throws (a missing row, a violated reference, a
    rejected argument) returns [None].  The relations the handlers join over
    ([include]) are foreign references, which the store enforces. *)

Module Prisma.

Definition product_find (db : Db) (id : string) : option Product.t :=
  find (λ p, bool_decide (Product.id p = id)) (products db).

Definition customer_find (db : Db) (id : string) : option Customer.t :=
  find (λ c, bool_decide (Customer.id c = id)) (customers db).

Definition order_find (db : Db) (id : string) : option Order.t :=
  find (λ o, bool_decide (Order.id o = id)) (orders db).

Definition palmDevice_find (db : Db) (id : string) : option PalmDevice.t :=
  find (λ d, bool_decide (PalmDevice.id d = id)) (palmDevices db).

Definition user_find (db : Db) (id : string) : option User.t :=
  find (λ u, bool_decide (User.id u = id)) (users db).

(** A nullable foreign reference holds when it is null or names a row. *)
Definition references {A : Type} (lookup : string → option A) (ref : option string) : bool :=
  match ref with
  | Some k => bool_decide (is_Some (lookup k))
  | None => true
  end.

(** *** Products *)

Section Collation.

(** The order of the store on names (its collation). *)
Context (name_le : relation string) `{!RelDecision name_le}.

Definition by_name_asc (p q : Product.t) : Prop :=
  name_le (Product.name p) (Product.name q).

#[global] Instance by_name_asc_dec : RelDecision by_name_asc.
Proof. intros p q. unfold by_name_asc. apply _. Defined.

(** [product.findMany({ where: { active: true }, orderBy: { name: 'asc' } })] *)
Definition product_findMany_active (db : Db) : list Product.t :=
  merge_sort by_name_asc (filter (λ p, Product.active p = true) (products db)).

End Collation.

(** *** Orders *)

Definition createdAt_asc (a b : Order.t) : Prop :=
  Order.createdAt a ≤ Order.createdAt b.

#[global] Instance createdAt_asc_dec : RelDecision createdAt_asc.
Proof. intros a b. unfold createdAt_asc. apply _. Defined.

(** [order.findFirst({ where, orderBy: { createdAt: 'asc' } })] *)
Definition order_findFirst (where_ : Order.t → Prop) `{!∀ o, Decision (where_ o)}
    (db : Db) : option Order.t :=
  head (merge_sort createdAt_asc (filter where_ (orders db))).

(** The [data] of [order.create]. *)
Record OrderCreateInput : Type := mkOrderCreateInput {
  create_customerId : option string;
  create_customerName : option string;
  create_totalAmount : float;
  create_palmDeviceId : option string;
  create_items : list OrderItem.t
}.

(** Modelled from the spec: the schema's default of [Order.status], which
    the handlers never write at creation; the spec's state model starts an
    order as pending. *)
Definition default_status : string := "pending".

Section Schema.

(** Whether the schema declares [Order.palmDeviceId] as a required column. *)
Variable palmDeviceId_required : bool.

(** What the column [Order.totalAmount] keeps of the Number it is handed,
    [None] when it takes no such Number.  The column's type is declared in
    the schema: a column of a decimal type rounds the Number to its scale
    and takes neither [NaN] nor an infinity; a column of a float type keeps
    every Number as it is.  The value kept is given as a Number, the
    nearest one when the column holds a decimal. *)
Variable totalAmount_column : float → option float.

(** [order.create({ data })]: the order and its items are inserted as one
    unit.  [newId] is the id generated for the row, [now] the default of
    [createdAt].  The call throws when the id is taken, when the customer,
    the device or a product named by the data is not in the store, when
    the schema requires a device and the data has none, and when the
    column of the total does not take the Number it is handed.  The row,
    which the call returns, has the total its column keeps. *)
Definition order_create (now : Z) (newId : string) (db : Db)
    (data : OrderCreateInput) : option (Db * Order.t) :=
  if bool_decide (is_Some (order_find db newId)) then None
  else if negb (references (customer_find db) (create_customerId data)) then None
  else if negb (references (palmDevice_find db) (create_palmDeviceId data)) then None
  else if palmDeviceId_required && bool_decide (create_palmDeviceId data = None) then None
  else if negb (forallb (λ it, bool_decide (is_Some (product_find db (OrderItem.productId it))))
                        (create_items data)) then None
  else
    match totalAmount_column (create_totalAmount data) with
    | None => None
    | Some kept =>
        let order :=
          Order.mk newId (create_customerId data) (create_customerName data)
            default_status kept (create_palmDeviceId data)
            now None (create_items data) in
        Some (set_orders db (orders db ++ [order]), order)
    end.

End Schema.

(** The [data] of [order.update]; a field that is [undefined] ([None]) is
    left as it is. *)
Record OrderUpdateInput : Type := mkOrderUpdateInput {
  update_status : option string;
  update_completedAt : option Z;
  update_customerId : option string;
  update_customerName : option string
}.

Definition apply_update (data : OrderUpdateInput) (o : Order.t) : Order.t :=
  Order.mk (Order.id o)
    (match update_customerId data with Some c => Some c | None => Order.customerId o end)
    (match update_customerName data with Some n => Some n | None => Order.customerName o end)
    (default (Order.status o) (update_status data))
    (Order.totalAmount o)
    (Order.palmDeviceId o)
    (Order.createdAt o)
    (match update_completedAt data with Some t => Some t | None => Order.completedAt o end)
    (Order.items o).

(** [order.update({ where: { id }, data })] *)
Definition order_update (db : Db) (id : string) (data : OrderUpdateInput)
    : option (Db * Order.t) :=
  match order_find db id with
  | None => None
  | Some o =>
      if negb (references (customer_find db) (update_customerId data)) then None
      else
        Some (set_orders db
                ((λ x, if bool_decide (Order.id x = id) then apply_update data x else x)
                   <$> orders db),
              apply_update data o)
  end.

(** *** Devices *)

(** [palmDevice.findUnique({ where: { apiToken } })] *)
Definition palmDevice_findUnique_apiToken (db : Db) (apiToken : string)
    : option PalmDevice.t :=
  find (λ d, bool_decide (PalmDevice.apiToken d = apiToken)) (palmDevices db).

(** [deviceAuthenticationLog.create({ data })] *)
Definition deviceAuthenticationLog_create (newId : string) (db : Db)
    (palmDeviceId : string) (deviceType location : string) (success : bool)
    (reason : string) (timestamp : Z) : option (Db * DeviceAuthenticationLog.t) :=
  if bool_decide (Exists (λ l, DeviceAuthenticationLog.id l = newId)
                         (deviceAuthenticationLogs db)) then None
  else if negb (bool_decide (is_Some (palmDevice_find db palmDeviceId))) then None
  else
    let log := DeviceAuthenticationLog.mk newId (Some palmDeviceId) deviceType
                 location success reason timestamp in
    Some (set_deviceAuthenticationLogs db (deviceAuthenticationLogs db ++ [log]), log).

(** *** Users and their dependent rows *)

(** [card.deleteMany({ where: { userId } })] *)
Definition card_deleteMany (db : Db) (userId : string) : Db :=
  set_cards db (filter (λ c, Card.userId c ≠ userId) (cards db)).

(** [palmTemplate.deleteMany({ where: { userId } })] *)
Definition palmTemplate_deleteMany (db : Db) (userId : string) : Db :=
  set_palmTemplates db (filter (λ t, PalmTemplate.userId t ≠ userId) (palmTemplates db)).

(** [authenticationLog.deleteMany({ where: { userId } })] *)
Definition authenticationLog_deleteMany (db : Db) (userId : string) : Db :=
  set_authenticationLogs db
    (filter (λ l, AuthenticationLog.userId l ≠ userId) (authenticationLogs db)).

(** A user is referenced while a card, a palm template or an authentication
    log names it. *)
Definition user_referenced (db : Db) (userId : string) : Prop :=
  Exists (λ c, Card.userId c = userId) (cards db)
  ∨ Exists (λ t, PalmTemplate.userId t = userId) (palmTemplates db)
  ∨ Exists (λ l, AuthenticationLog.userId l = userId) (authenticationLogs db).

#[global] Instance user_referenced_dec db userId : Decision (user_referenced db userId).
Proof. unfold user_referenced. apply _. Defined.

(** [user.delete({ where: { id } })]: throws when no such user exists, and
    when a dependent row still references the user (no cascade is set). *)
Definition user_delete (db : Db) (id : string) : option Db :=
  match user_find db id with
  | None => None
  | Some _ =>
      if bool_decide (user_referenced db id) then None
      else Some (set_users db (filter (λ u, User.id u ≠ id) (users db)))
  end.

(** *** Authentication logs *)

Definition authenticatedAt_desc (a b : AuthenticationLog.t) : Prop :=
  AuthenticationLog.authenticatedAt b ≤ AuthenticationLog.authenticatedAt a.

#[global] Instance authenticatedAt_desc_dec : RelDecision authenticatedAt_desc.
Proof. intros a b. unfold authenticatedAt_desc. apply _. Defined.

(** The 32-bit integers. *)
Definition is_Int (n : Z) : bool := (-2147483648 <=? n) && (n <? 2147483648).

Section Query.

(** Rows of one instant come in no order the query fixes: the store
    arranges them its own way, which may differ from one query to the
    next.  [tie_rank] is the arrangement of one query: of two rows of one
    instant, the one of the lower rank comes first. *)
Variable tie_rank : AuthenticationLog.t → Z.

(** What the ORM answers when [take] or [skip] is not a 32-bit integer,
    given the ordered rows of the user; the sources do not tell. *)
Variable findMany_beyond_Int :
  list AuthenticationLog.t → Z → Z → option (list AuthenticationLog.t).

Definition authenticatedAt_desc_ranked (a b : AuthenticationLog.t) : Prop :=
  AuthenticationLog.authenticatedAt b < AuthenticationLog.authenticatedAt a
  ∨ (AuthenticationLog.authenticatedAt b = AuthenticationLog.authenticatedAt a
     ∧ tie_rank a ≤ tie_rank b).

#[global] Instance authenticatedAt_desc_ranked_dec : RelDecision authenticatedAt_desc_ranked.
Proof. intros a b. unfold authenticatedAt_desc_ranked. apply _. Defined.

(** The rows of one user, newest first, as one query sees them. *)
Definition authenticationLog_ordered (db : Db) (userId : string) : list AuthenticationLog.t :=
  merge_sort authenticatedAt_desc_ranked
    (filter (λ l, AuthenticationLog.userId l = userId) (authenticationLogs db)).

(** [authenticationLog.findMany({ where: { userId },
      orderBy: { authenticatedAt: 'desc' }, take, skip })]
    with [take] and [skip] integers.  On 32-bit integers: a negative [skip]
    is rejected; a negative [take] counts from the end of the ordered rows:
    [skip] rows are dropped from the end and the last [-take] of the rest
    are returned, in the order of the query. *)
Definition authenticationLog_findMany (db : Db) (userId : string) (take_ skip : Z)
    : option (list AuthenticationLog.t) :=
  let rows := authenticationLog_ordered db userId in
  if negb (is_Int take_ && is_Int skip) then findMany_beyond_Int rows take_ skip
  else if skip <? 0 then None
  else if 0 <=? take_ then
    Some (take (Z.to_nat take_) (drop (Z.to_nat skip) rows))
  else
    Some (reverse (take (Z.to_nat (- take_)) (drop (Z.to_nat skip) (reverse rows)))).

End Query.

(** *** Further queries on orders *)

Definition createdAt_desc (a b : Order.t) : Prop :=
  Order.createdAt b ≤ Order.createdAt a.

#[global] Instance createdAt_desc_dec : RelDecision createdAt_desc.
Proof. intros a b. unfold createdAt_desc. apply _. Defined.

(** [order.findMany({ where, orderBy: { createdAt: 'desc' } })] *)
Definition order_findMany (where_ : Order.t → Prop) `{!∀ o, Decision (where_ o)}
    (db : Db) : list Order.t :=
  merge_sort createdAt_desc (filter where_ (orders db)).

(** The order of [orderBy: { completedAt: 'desc' }] on a nullable column;
    where the rows without a value go is the store's choice,
    [nulls_first]. *)
Definition completedAt_desc (nulls_first : bool) (a b : Order.t) : Prop :=
  match Order.completedAt a, Order.completedAt b with
  | Some x, Some y => y ≤ x
  | None, None => True
  | None, Some _ => nulls_first = true
  | Some _, None => nulls_first = false
  end.

#[global] Instance completedAt_desc_dec nulls_first : RelDecision (completedAt_desc nulls_first).
Proof.
  intros a b. unfold completedAt_desc.
  destruct (Order.completedAt a), (Order.completedAt b); apply _.
Defined.


(** *** Further calls on devices *)

Definition device_createdAt_desc (a b : PalmDevice.t) : Prop :=
  PalmDevice.createdAt b ≤ PalmDevice.createdAt a.

#[global] Instance device_createdAt_desc_dec : RelDecision device_createdAt_desc.
Proof. intros a b. unfold device_createdAt_desc. apply _. Defined.

(** [palmDevice.findMany({ orderBy: { createdAt: 'desc' } })] *)
Definition palmDevice_findMany (db : Db) : list PalmDevice.t :=
  merge_sort device_createdAt_desc (palmDevices db).

Definition set_palmDevices (db : Db) (ds : list PalmDevice.t) : Db :=
  mkDb (products db) (customers db) (orders db) ds (users db) (cards db)
       (palmTemplates db) (authenticationLogs db) (deviceAuthenticationLogs db).

(** [palmDevice.create({ data: { name, location, apiToken } })].  The id and
    the token are unique columns (the handlers look a device up by either
    with [findUnique]/[update]): the call throws when one of them is taken.
    [active] is the schema's default of the column. *)
Definition palmDevice_create (active_default : bool) (now : Z) (newId : string) (db : Db)
    (name location : option string) (apiToken : string) : option (Db * PalmDevice.t) :=
  if bool_decide (is_Some (palmDevice_find db newId)) then None
  else if bool_decide (is_Some (palmDevice_findUnique_apiToken db apiToken)) then None
  else
    let device := PalmDevice.mk newId name location apiToken active_default None now in
    Some (set_palmDevices db (palmDevices db ++ [device]), device).

(** The effect of [data: { name, location }] on a row; a field that is
    [undefined] is left as it is. *)
Definition apply_device_update (name location : option string) (d : PalmDevice.t)
    : PalmDevice.t :=
  PalmDevice.mk (PalmDevice.id d)
    (match name with Some n => Some n | None => PalmDevice.name d end)
    (match location with Some l => Some l | None => PalmDevice.location d end)
    (PalmDevice.apiToken d) (PalmDevice.active d) (PalmDevice.lastSeenAt d)
    (PalmDevice.createdAt d).

(** [palmDevice.update({ where: { id }, data: { name, location } })] *)
Definition palmDevice_update (db : Db) (id : string) (name location : option string)
    : option (Db * PalmDevice.t) :=
  match palmDevice_find db id with
  | None => None
  | Some d =>
      Some (set_palmDevices db
              ((λ x, if bool_decide (PalmDevice.id x = id)
                     then apply_device_update name location x else x)
                 <$> palmDevices db),
            apply_device_update name location d)
  end.

(** *** Device authentication logs *)

Definition timestamp_desc (a b : DeviceAuthenticationLog.t) : Prop :=
  DeviceAuthenticationLog.timestamp b ≤ DeviceAuthenticationLog.timestamp a.

#[global] Instance timestamp_desc_dec : RelDecision timestamp_desc.
Proof. intros a b. unfold timestamp_desc. apply _. Defined.

(** [deviceAuthenticationLog.findMany({ include: { palmDevice: ... },
      orderBy: { timestamp: 'desc' }, take: 1000 })]: each row with the
    device it names, if it names one. *)
Definition deviceAuthenticationLog_findMany (db : Db)
    : list (DeviceAuthenticationLog.t * option PalmDevice.t) :=
  (λ l, (l, DeviceAuthenticationLog.palmDeviceId l ≫= palmDevice_find db))
    <$> take 1000 (merge_sort timestamp_desc (deviceAuthenticationLogs db)).

(** *** Reads of a user's rows *)

(** [card.findMany({ where: { userId } })] *)
Definition card_findMany (db : Db) (userId : string) : list Card.t :=
  filter (λ c, Card.userId c = userId) (cards db).

(** [palmTemplate.findMany({ where: { userId } })], for [include]. *)
Definition palmTemplate_findMany (db : Db) (userId : string) : list PalmTemplate.t :=
  filter (λ t, PalmTemplate.userId t = userId) (palmTemplates db).

(** [palmTemplate.findFirst({ where: { userId } })]: no order is asked
    for; the first matching row of the table is taken. *)
Definition palmTemplate_findFirst (db : Db) (userId : string) : option PalmTemplate.t :=
  head (palmTemplate_findMany db userId).

End Prisma.

(** ** Request and response bodies *)

(** The body of [POST /api/orders].  [body_items] is [None] when the body
    carries no array under [items]. *)
Record CreateOrderBody : Type := mkCreateOrderBody {
  body_customerId : option string;
  body_customerName : option string;
  body_items : option (list OrderItem.t);
  body_palmDeviceId : option string
}.

(** The order returned by [order.create] with
    [include: { items: { include: { product: true } }, palmDevice: true }]. *)
Record OrderWithDevice : Type := mkOrderWithDevice {
  owd_order : Order.t;
  owd_products : list (option Product.t);
  owd_palmDevice : option PalmDevice.t
}.

(** The order returned by [order.findFirst] with
    [include: { items: { include: { product: true } }, customer: true }]. *)
Record OrderWithCustomer : Type := mkOrderWithCustomer {
  owc_order : Order.t;
  owc_products : list (option Product.t);
  owc_customer : option Customer.t
}.

Definition include_products (db : Db) (o : Order.t) : list (option Product.t) :=
  (λ it, Prisma.product_find db (OrderItem.productId it)) <$> Order.items o.

Definition include_palmDevice (db : Db) (o : Order.t) : OrderWithDevice :=
  mkOrderWithDevice o (include_products db o)
    (Order.palmDeviceId o ≫= Prisma.palmDevice_find db).

Definition include_customer (db : Db) (o : Order.t) : OrderWithCustomer :=
  mkOrderWithCustomer o (include_products db o)
    (Order.customerId o ≫= Prisma.customer_find db).

(** The body of [POST /api/palm/complete-order/:id]. *)
Record CompleteOrderBody : Type := mkCompleteOrderBody {
  complete_status : option string;
  complete_customerId : option string;
  complete_customerName : option string
}.

(** The body of [POST /api/palm-devices/auth-log]. *)
Record AuthLogBody : Type := mkAuthLogBody {
  log_deviceType : option string;
  log_location : option string;
  log_success : option bool;
  log_reason : option string
}.

(** The body of the reply of [GET /api/v1/users/:userId/auth-history]. *)
Record AuthHistory : Type := mkAuthHistory {
  history_logs : list AuthenticationLog.t;
  history_total : nat;
  history_limit : Z;
  history_offset : Z
}.

(** The body of [POST /api/palm/register] and of
    [PATCH /api/palm/devices/:id]. *)
Record DeviceBody : Type := mkDeviceBody {
  device_name : option string;
  device_location : option string
}.

(** A device as [GET /api/palm/devices] selects it: every column but the
    token. *)
Record DeviceSummary : Type := mkDeviceSummary {
  summary_id : string;
  summary_name : option string;
  summary_location : option string;
  summary_active : bool;
  summary_lastSeenAt : option Z;
  summary_createdAt : Z
}.

(** A row of the reply of [GET /api/v1/palm/device-logs]. *)
Record FormattedLog : Type := mkFormattedLog {
  formatted_id : string;
  formatted_deviceType : string;
  formatted_location : string;
  formatted_success : bool;
  formatted_reason : string;
  formatted_timestamp : Z;
  formatted_palmDeviceId : option string;
  formatted_deviceName : option string
}.

(** The user returned by [user.findUnique] with
    [include: { cards: true, palmTemplates: true }]. *)
Record UserWithRows : Type := mkUserWithRows {
  uwr_user : User.t;
  uwr_cards : list Card.t;
  uwr_palmTemplates : list PalmTemplate.t
}.

(** ** The handlers both revisions share *)

Module Shared.

Section Handlers.

Variable parseFloat_string : string → float.
Variable palmDeviceId_required : bool.
Variable totalAmount_column : float → option float.
Context (name_le : relation string) `{!RelDecision name_le}.

(** [GET /api/products] *)
Definition get_api_products (db : Db) : response (list Product.t) :=
  Json (Prisma.product_findMany_active name_le db).

(** The [totalAmount] of [POST /api/orders]:
    [items.reduce((sum, item) => sum + (parseFloat(item.price) * item.quantity), 0)] *)
Definition totalAmount (items : list OrderItem.t) : float :=
  Js.reduce
    (λ sum item,
       PrimFloat.add sum
         (PrimFloat.mul (Js.parseFloat parseFloat_string (OrderItem.price item))
                        (OrderItem.quantity item)))
    PrimFloat.zero items.

(** [items.map(item => ({ productId: item.productId, quantity: item.quantity,
                          price: item.price }))] *)
Definition items_create (items : list OrderItem.t) : list OrderItem.t :=
  (λ item, OrderItem.mk (OrderItem.productId item) (OrderItem.quantity item)
             (OrderItem.price item)) <$> items.

(** [POST /api/orders] from the computation of [totalAmount] on, the same
    text in both revisions.  A body without an item array makes
    [items.reduce] throw, which the handler's [catch] turns into 500, as it
    does a rejected [order.create]. *)
Definition create_order (now : Z) (newId : string) (db : Db) (body : CreateOrderBody)
    : Db * response OrderWithDevice :=
  match body_items body with
  | None => (db, Fail 500 "Failed to create order")
  | Some items =>
      let data :=
        Prisma.mkOrderCreateInput (body_customerId body) (body_customerName body)
          (totalAmount items) (body_palmDeviceId body) (items_create items) in
      match Prisma.order_create palmDeviceId_required totalAmount_column now newId db data with
      | Some (db', order) => (db', Json (include_palmDevice db' order))
      | None => (db, Fail 500 "Failed to create order")
      end
  end.

End Handlers.

(** [GET /api/palm/devices] *)
Definition get_api_palm_devices (db : Db) : response (list DeviceSummary) :=
  Json ((λ d, mkDeviceSummary (PalmDevice.id d) (PalmDevice.name d) (PalmDevice.location d)
                (PalmDevice.active d) (PalmDevice.lastSeenAt d) (PalmDevice.createdAt d))
          <$> Prisma.palmDevice_findMany db).

(** [GET /api/palm-devices] *)
Definition get_api_palm_devices_all (db : Db) : response (list PalmDevice.t) :=
  Json (Prisma.palmDevice_findMany db).

(** [POST /api/palm/register].  [randomBytes] is the buffer drawn by
    [require('crypto').randomBytes(32)]. *)
Definition post_api_palm_register (active_default : bool) (now : Z) (newId : string)
    (randomBytes : list ascii) (db : Db) (body : DeviceBody)
    : Db * response PalmDevice.t :=
  let apiToken := Js.toString_hex randomBytes in
  match Prisma.palmDevice_create active_default now newId db
          (device_name body) (device_location body) apiToken with
  | Some (db', device) => (db', Json device)
  | None => (db, Fail 500 "Failed to register device")
  end.


End Shared.

(** ** The first revision ([src/index.js]) *)

Module FirstRevision.

Section Handlers.

Variable parseFloat_string : string → float.
Variable palmDeviceId_required : bool.
Variable totalAmount_column : float → option float.

(** [POST /api/orders] *)
Definition post_api_orders (now : Z) (newId : string) (db : Db) (body : CreateOrderBody)
    : Db * response OrderWithDevice :=
  if negb (Js.truthy (body_palmDeviceId body)) then
    (db, Fail 400 "Device selection required")
  else
    Shared.create_order parseFloat_string palmDeviceId_required totalAmount_column
      now newId db body.

End Handlers.

(** [GET /api/palm/next-order] *)
Definition get_api_palm_next_order (db : Db) (authHeader : option string)
    : response (option OrderWithCustomer) :=
  if negb (Js.truthy authHeader) || negb (Js.optional_startsWith authHeader "Bearer ") then
    Fail 401 "Missing authorization token"
  else
    let token := Js.substring 7 (default "" authHeader) in
    match Prisma.palmDevice_findUnique_apiToken db token with
    | None => Fail 401 "Invalid device token"
    | Some device =>
        let order :=
          Prisma.order_findFirst
            (λ o, Order.status o = "pending"
                  ∧ Order.palmDeviceId o = Some (PalmDevice.id device)) db in
        Json (include_customer db <$> order)
    end.

(** [POST /api/palm/complete-order/:id] *)
Definition post_api_palm_complete_order (now : Z) (db : Db) (id : string)
    (body : CompleteOrderBody) : Db * response (Order.t * string) :=
  let data :=
    Prisma.mkOrderUpdateInput (complete_status body) (Some now)
      (complete_customerId body) (complete_customerName body) in
  match Prisma.order_update db id data with
  | Some (db', order) => (db', Json (order, "Order completed"))
  | None => (db, Fail 500 "Failed to complete order")
  end.

(** [const where = status ? { status } : {}] *)
Definition orders_where (status : option string) (o : Order.t) : Prop :=
  if Js.truthy status then Some (Order.status o) = status else True.

#[global] Instance orders_where_status_dec status o : Decision (orders_where status o).
Proof. unfold orders_where. destruct (Js.truthy status); apply _. Defined.

(** [GET /api/orders] *)
Definition get_api_orders (db : Db) (status : option string)
    : response (list OrderWithCustomer) :=
  let orders := Prisma.order_findMany (orders_where status) db in
  Json (include_customer db <$> orders).

End FirstRevision.

(** ** The later revision *)

Module LaterRevision.

Section Handlers.

Variable parseFloat_string : string → float.
Variable palmDeviceId_required : bool.
Variable totalAmount_column : float → option float.

(** [POST /api/orders] *)
Definition post_api_orders (now : Z) (newId : string) (db : Db) (body : CreateOrderBody)
    : Db * response OrderWithDevice :=
  Shared.create_order parseFloat_string palmDeviceId_required totalAmount_column
      now newId db body.

End Handlers.

(** [GET /api/palm/next-order]; the request is not looked at. *)
Definition get_api_palm_next_order (db : Db) (authHeader : option string)
    : response (option OrderWithCustomer) :=
  let order := Prisma.order_findFirst (λ o, Order.status o = "pending") db in
  Json (include_customer db <$> order).

(** [POST /api/palm/complete-order/:id]:
    [data: { status, completedAt: new Date(), ...(customerName && { customerName }) }] *)
Definition post_api_palm_complete_order (now : Z) (db : Db) (id : string)
    (body : CompleteOrderBody) : Db * response (Order.t * string) :=
  let data :=
    Prisma.mkOrderUpdateInput (complete_status body) (Some now) None
      (if Js.truthy (complete_customerName body) then complete_customerName body
       else None) in
  match Prisma.order_update db id data with
  | Some (db', order) => (db', Json (order, "Order completed"))
  | None => (db, Fail 500 "Failed to complete order")
  end.

(** [POST /api/palm-devices/auth-log] *)
Definition post_api_palm_devices_auth_log (now : Z) (newId : string) (db : Db)
    (authHeader : option string) (body : AuthLogBody)
    : Db * response (bool * DeviceAuthenticationLog.t) :=
  if negb (Js.optional_startsWith authHeader "Bearer ") then
    (db, Fail 401 "Unauthorized")
  else
    let apiToken := Js.substring 7 (default "" authHeader) in
    match Prisma.palmDevice_findUnique_apiToken db apiToken with
    | None => (db, Fail 401 "Invalid token")
    | Some device =>
        match Prisma.deviceAuthenticationLog_create newId db (PalmDevice.id device)
                (Js.or_string (log_deviceType body) "palm")
                (Js.or_string (log_location body) "Unknown")
                (default false (log_success body))
                (Js.or_string (log_reason body) "Authentication failed")
                now with
        | Some (db', authLog) => (db', Json (true, authLog))
        | None => (db, Fail 500 "Failed to log authentication attempt")
        end
    end.

(** [DELETE /api/v1/users/:userId].  The four calls are not one transaction:
    when the last one throws, the rows already deleted stay deleted. *)
Definition delete_api_v1_users (db : Db) (userId : string) : Db * response (bool * string) :=
  let db1 := Prisma.card_deleteMany db userId in
  let db2 := Prisma.palmTemplate_deleteMany db1 userId in
  let db3 := Prisma.authenticationLog_deleteMany db2 userId in
  match Prisma.user_delete db3 userId with
  | Some db4 => (db4, Json (true, "User deleted successfully"))
  | None => (db3, Fail 500 "Failed to delete user")
  end.

(** [const limit = parseInt(req.query.limit) || 50] *)
Definition limit_of (q : option string) : Z := Js.or_default (Js.parseInt_param q) 50.

(** [const offset = parseInt(req.query.offset) || 0] *)
Definition offset_of (q : option string) : Z := Js.or_default (Js.parseInt_param q) 0.

Section AuthenticationLogs.

Variable tie_rank : AuthenticationLog.t → Z.
Variable findMany_beyond_Int :
  list AuthenticationLog.t → Z → Z → option (list AuthenticationLog.t).

(** [GET /api/v1/users/:userId/auth-logs] *)
Definition get_api_v1_users_auth_logs (db : Db) (userId : string)
    (query_limit query_offset : option string) : response (list AuthenticationLog.t) :=
  let limit := limit_of query_limit in
  let offset := offset_of query_offset in
  match Prisma.authenticationLog_findMany tie_rank findMany_beyond_Int db userId limit offset with
  | Some logs => Json logs
  | None => Fail 500 "Failed to fetch authentication logs"
  end.

(** [GET /api/v1/users/:userId/auth-history] *)
Definition get_api_v1_users_auth_history (db : Db) (userId : string)
    (query_limit query_offset : option string) : response AuthHistory :=
  let limit := limit_of query_limit in
  let offset := offset_of query_offset in
  match Prisma.authenticationLog_findMany tie_rank findMany_beyond_Int db userId limit offset with
  | Some logs => Json (mkAuthHistory logs (length logs) limit offset)
  | None => Fail 500 "Failed to fetch authentication history"
  end.

End AuthenticationLogs.

(** The [where] of [GET /api/orders]: [status] when the query has one,
    and [customerName: { contains, mode: 'insensitive' }] when the query
    has one.  [contains_insensitive needle name] is the store's match of
    [needle] inside [name] without regard to case. *)
Definition orders_where (contains_insensitive : string → string → bool)
    (status customerName : option string) (o : Order.t) : Prop :=
  (if Js.truthy status then Some (Order.status o) = status else True)
  ∧ (if Js.truthy customerName then
       match customerName, Order.customerName o with
       | Some needle, Some name => contains_insensitive needle name = true
       | _, _ => False
       end
     else True).

#[global] Instance orders_where_dec contains_insensitive status customerName o :
  Decision (orders_where contains_insensitive status customerName o).
Proof.
  unfold orders_where.
  destruct (Js.truthy status), (Js.truthy customerName), customerName,
    (Order.customerName o); apply _.
Defined.

(** [GET /api/orders] *)
Definition get_api_orders (contains_insensitive : string → string → bool) (db : Db)
    (status customerName : option string) : response (list OrderWithCustomer) :=
  let orders :=
    Prisma.order_findMany (orders_where contains_insensitive status customerName) db in
  Json (include_customer db <$> orders).

(** [PATCH /api/palm/devices/:id] *)
Definition patch_api_palm_devices (db : Db) (id : string) (body : DeviceBody)
    : Db * response PalmDevice.t :=
  match Prisma.palmDevice_update db id (device_name body) (device_location body) with
  | Some (db', device) => (db', Json device)
  | None => (db, Fail 500 "Failed to update device")
  end.

(** One row of [formattedLogs]:
    [location: log.palmDevice?.location || log.location],
    [deviceName: log.palmDevice?.name]. *)
Definition formatLog (row : DeviceAuthenticationLog.t * option PalmDevice.t) : FormattedLog :=
  let '(log, palmDevice) := row in
  mkFormattedLog (DeviceAuthenticationLog.id log)
    (DeviceAuthenticationLog.deviceType log)
    (Js.or_string (palmDevice ≫= PalmDevice.location) (DeviceAuthenticationLog.location log))
    (DeviceAuthenticationLog.success log)
    (DeviceAuthenticationLog.reason log)
    (DeviceAuthenticationLog.timestamp log)
    (DeviceAuthenticationLog.palmDeviceId log)
    (palmDevice ≫= PalmDevice.name).

(** [GET /api/v1/palm/device-logs] *)
Definition get_api_v1_palm_device_logs (db : Db) : response (list FormattedLog) :=
  Json (formatLog <$> Prisma.deviceAuthenticationLog_findMany db).

(** [GET /api/v1/users/:userId] *)
Definition get_api_v1_users_by_id (db : Db) (userId : string) : response UserWithRows :=
  match Prisma.user_find db userId with
  | None => Fail 404 "User not found"
  | Some user =>
      Json (mkUserWithRows user (Prisma.card_findMany db userId)
              (Prisma.palmTemplate_findMany db userId))
  end.

(** [GET /api/v1/palm/template/:userId] *)
Definition get_api_v1_palm_template (db : Db) (userId : string) : response PalmTemplate.t :=
  match Prisma.palmTemplate_findFirst db userId with
  | None => Fail 404 "Palm template not found"
  | Some template => Json template
  end.

(** [GET /api/v1/users/:userId/cards] *)
Definition get_api_v1_users_cards (db : Db) (userId : string) : response (list Card.t) :=
  Json (Prisma.card_findMany db userId).

End LaterRevision.

(** ** The enrollment tokens of the later revision

    [const enrollmentTokens = new Map()]: the process-wide map from a token
    to the enrollment stored under it.  The handlers and the timer callback
    take the map and return the map they leave. *)

Module Enrollment.

Record t (Features : Type) : Type := mk {
  palmFeatures : Features;
  createdAt : Z;
  expiresAt : Z
}.
Arguments mk {Features} palmFeatures createdAt expiresAt.
Arguments palmFeatures {Features} _.
Arguments createdAt {Features} _.
Arguments expiresAt {Features} _.

Section Handlers.

Context {Features : Type}.

(** [POST /api/v1/palm/generate-enrollment-qr].  [enrollmentToken] is the
    token drawn by [randomBytes(16).toString('hex')]; [now1] and [now2] are
    the two readings of [Date.now()]. *)
Definition post_api_v1_palm_generate_enrollment_qr (enrollmentToken : string)
    (now1 now2 : Z) (enrollmentTokens : gmap string (t Features))
    (palmFeatures : Features)
    : gmap string (t Features) * response (bool * string * Z) :=
  (<[enrollmentToken := mk palmFeatures now1 (now2 + 10 * 60 * 1000)]> enrollmentTokens,
   Json (true, enrollmentToken, 600)).

(** The callback handed to [setTimeout] at generation:
    [enrollmentTokens.delete(enrollmentToken)]. *)
Definition cleanup (enrollmentToken : string) (enrollmentTokens : gmap string (t Features))
    : gmap string (t Features) :=
  delete enrollmentToken enrollmentTokens.

(** [GET /api/v1/palm/enrollment/:token]; [now] is [Date.now()]. *)
Definition get_api_v1_palm_enrollment (now : Z) (enrollmentTokens : gmap string (t Features))
    (token : string) : gmap string (t Features) * response (bool * Features * Z) :=
  match enrollmentTokens !! token with
  | None => (enrollmentTokens, Fail 404 "Enrollment token not found or expired")
  | Some enrollment =>
      if expiresAt enrollment <? now then
        (delete token enrollmentTokens, Fail 410 "Enrollment token expired")
      else
        (enrollmentTokens,
         Json (true, palmFeatures enrollment, createdAt enrollment))
  end.

(** What can happen to the map: a generation, a firing timer, a read. *)
Inductive event : Type :=
| Generate (enrollmentToken : string) (palmFeatures : Features) (now1 now2 : Z)
| TimerFires (enrollmentToken : string)
| Read (token : string) (now : Z).

Definition step (enrollmentTokens : gmap string (t Features)) (e : event)
    : gmap string (t Features) :=
  match e with
  | Generate enrollmentToken palmFeatures now1 now2 =>
      fst (post_api_v1_palm_generate_enrollment_qr enrollmentToken now1 now2
             enrollmentTokens palmFeatures)
  | TimerFires enrollmentToken => cleanup enrollmentToken enrollmentTokens
  | Read token now => fst (get_api_v1_palm_enrollment now enrollmentTokens token)
  end.

Definition run (enrollmentTokens : gmap string (t Features)) (es : list event)
    : gmap string (t Features) :=
  fold_left step es enrollmentTokens.

(** An event that stores an enrollment under [token]. *)
Definition generates (token : string) (e : event) : Prop :=
  match e with
  | Generate enrollmentToken _ _ _ => enrollmentToken = token
  | _ => False
  end.

End Handlers.

End Enrollment.

(** ** Requests on orders, in sequence

    The requests of either revision that write the order table, and the
    store they leave when they are served one after the other. *)

Inductive order_request : Type :=
| CreateOrder (later : bool) (now : Z) (newId : string) (body : CreateOrderBody)
| CompleteOrder (later : bool) (now : Z) (id : string) (body : CompleteOrderBody).

Definition serve_order_request (parseFloat_string : string → float)
    (palmDeviceId_required : bool) (totalAmount_column : float → option float)
    (db : Db) (r : order_request) : Db :=
  match r with
  | CreateOrder false now newId body =>
      fst (FirstRevision.post_api_orders parseFloat_string palmDeviceId_required
             totalAmount_column now newId db body)
  | CreateOrder true now newId body =>
      fst (LaterRevision.post_api_orders parseFloat_string palmDeviceId_required
             totalAmount_column now newId db body)
  | CompleteOrder false now id body =>
      fst (FirstRevision.post_api_palm_complete_order now db id body)
  | CompleteOrder true now id body =>
      fst (LaterRevision.post_api_palm_complete_order now db id body)
  end.

Definition serve_order_requests (parseFloat_string : string → float)
    (palmDeviceId_required : bool) (totalAmount_column : float → option float)
    (db : Db) (rs : list order_request) : Db :=
  fold_left (serve_order_request parseFloat_string palmDeviceId_required totalAmount_column)
    rs db.

(** The columns of an order that are written at creation only: [x'] has
    them as [x] has them. *)
Definition same_frozen_columns (x x' : Order.t) : Prop :=
  Order.id x' = Order.id x
  ∧ Order.totalAmount x' = Order.totalAmount x
  ∧ Order.items x' = Order.items x
  ∧ Order.palmDeviceId x' = Order.palmDeviceId x
  ∧ Order.createdAt x' = Order.createdAt x.

(** The token an event on the enrollment map is about. *)
Definition event_token {Features : Type} (e : @Enrollment.event Features) : string :=
  match e with
  | Enrollment.Generate enrollmentToken _ _ _ => enrollmentToken
  | Enrollment.TimerFires enrollmentToken => enrollmentToken
  | Enrollment.Read token _ => token
  end.

(** No two logs of the user in the store share a timestamp. *)
Definition instants_distinct (db : Db) (userId : string) : Prop :=
  ∀ a b,
    a ∈ authenticationLogs db → b ∈ authenticationLogs db →
    AuthenticationLog.userId a = userId → AuthenticationLog.userId b = userId →
    AuthenticationLog.authenticatedAt a = AuthenticationLog.authenticatedAt b →
    a = b.

(** No two devices of the store share a token, or an id. *)
Definition devices_distinct (db : Db) : Prop :=
  NoDup (PalmDevice.apiToken <$> palmDevices db)
  ∧ NoDup (PalmDevice.id <$> palmDevices db).

(** ** Page parameters, in the words of the specification

    The value of a [limit] or [offset] query parameter as the
    specification describes it: the default when the parameter is absent,
    when it is not numeric ([parseInt] reads no number from it) and when
    it parses to zero; the number it parses to otherwise.  It is compared
    with [LaterRevision.limit_of] and [LaterRevision.offset_of] below. *)
Definition page_parameter (default_ : Z) (q : option string) : Z :=
  match q with
  | None => default_
  | Some s =>
      match Js.parseInt s with
      | None => default_
      | Some n => if n =? 0 then default_ else n
      end
  end.

(** ** Bearer authentication, in the words of the specification

    The requests the specification has refused with 401: the
    [Authorization] header is missing, it does not start with the scheme
    [Bearer] and a space, or what follows the scheme is the [apiToken] of
    no device. *)
Definition bearer_refused (db : Db) (authHeader : option string) : Prop :=
  match authHeader with
  | None => True
  | Some h =>
      Js.startsWith h "Bearer " = false
      ∨ ∀ d, d ∈ palmDevices db → PalmDevice.apiToken d ≠ Js.substring 7 h
  end.

(** ** Orphaned rows

    A dependent row (a card, a palm template, an authentication log) is
    orphaned when the user it names is not in the store. *)
Definition user_exists (db : Db) (userId : string) : Prop :=
  ∃ u, u ∈ users db ∧ User.id u = userId.

Definition no_orphans (db : Db) : Prop :=
  (∀ c, c ∈ cards db → user_exists db (Card.userId c))
  ∧ (∀ t, t ∈ palmTemplates db → user_exists db (PalmTemplate.userId t))
  ∧ (∀ l, l ∈ authenticationLogs db → user_exists db (AuthenticationLog.userId l)).

(** ** Completion, in the words of the specification

    The order [o] once completed at [now] with [body], as the
    specification of the later revision has it: [status] and [completedAt]
    are set, [customerName] is overwritten when the body supplies one, and
    every other field is the field of [o]. *)
Definition completed (now : Z) (body : CompleteOrderBody) (o : Order.t) : Order.t :=
  Order.mk (Order.id o)
    (Order.customerId o)
    (if Js.truthy (complete_customerName body) then complete_customerName body
     else Order.customerName o)
    (default (Order.status o) (complete_status body))
    (Order.totalAmount o)
    (Order.palmDeviceId o)
    (Order.createdAt o)
    (Some now)
    (Order.items o).

(** ** The total of an order, in the words of the specification

    The sum over the supplied items of price times quantity: the partial
    sums [s 0 = 0], [s (k+1) = s k + price k * quantity k], each price the
    one the caller submitted.  Nothing of the store takes part.

    [sum_of_lines] takes the sum in the arithmetic of Numbers: a price that
    is a Number is that Number ([0] and [-0] being one price), a price that
    is a string is the Number the runtime reads from it.  [exact_sum] takes
    the sum in the rationals: a price that is a Number is the rational the
    Number is, a price that is a string the rational its decimal numeral
    writes. *)
Fixpoint partial_sum (term : nat → float) (n : nat) : float :=
  match n with
  | O => PrimFloat.zero
  | S k => PrimFloat.add (partial_sum term k) (term k)
  end.

Definition submitted_price (parseFloat_string : string → float) (price : Js.numeric)
    : float :=
  match price with
  | Js.Number x => if (x =? 0)%float then 0%float else x
  | Js.NumericString s => parseFloat_string s
  end.

Definition line_amount (parseFloat_string : string → float) (item : OrderItem.t) : float :=
  PrimFloat.mul (submitted_price parseFloat_string (OrderItem.price item))
                (OrderItem.quantity item).

Definition sum_of_lines (parseFloat_string : string → float) (items : list OrderItem.t)
    : float :=
  partial_sum
    (λ k, match items !! k with
          | Some item => line_amount parseFloat_string item
          | None => PrimFloat.zero
          end)
    (length items).

(** The rational a Number is; [NaN] and the infinities are none. *)
Definition exact_value (x : float) : option Q :=
  match Prim2SF x with
  | S754_zero _ => Some 0%Q
  | S754_finite s m e =>
      Some (inject_Z (if s then Z.neg m else Z.pos m) * Qpower (2 # 1) e)%Q
  | S754_infinity _ => None
  | S754_nan => None
  end.

(** The value of a string of decimal digits, read after [acc]. *)
Fixpoint decimal_digits (acc : Z) (s : string) : option Z :=
  match s with
  | EmptyString => Some acc
  | String c r =>
      let n := Z.of_N (Ascii.N_of_ascii c) in
      if (48 <=? n) && (n <=? 57) then decimal_digits (acc * 10 + (n - 48)) r else None
  end.

(** [s] up to its first point, and what follows the point. *)
Fixpoint split_at_point (s : string) : string * string :=
  match s with
  | EmptyString => (EmptyString, EmptyString)
  | String "." r => (EmptyString, r)
  | String c r => let '(whole, fraction) := split_at_point r in (String c whole, fraction)
  end.

(** The rational a decimal numeral writes: an optional minus sign, digits,
    and optionally a point and digits, with a digit at least. *)
Definition decimal_value (s : string) : option Q :=
  let '(negative, s) :=
    match s with
    | String "-" r => (true, r)
    | _ => (false, s)
    end in
  let '(whole, fraction) := split_at_point s in
  if (String.length whole + String.length fraction =? 0)%nat then None
  else
    match decimal_digits 0 (whole +:+ fraction) with
    | Some n =>
        Some ((if negative then - n else n)
              # Z.to_pos (10 ^ Z.of_nat (String.length fraction)))%Q
    | None => None
    end.

Definition exact_price (price : Js.numeric) : option Q :=
  match price with
  | Js.Number x => exact_value x
  | Js.NumericString s => decimal_value s
  end.

Fixpoint exact_sum (items : list OrderItem.t) : option Q :=
  match items with
  | [] => Some 0%Q
  | item :: rest =>
      match exact_price (OrderItem.price item), exact_value (OrderItem.quantity item),
            exact_sum rest with
      | Some price, Some quantity, Some sum => Some (price * quantity + sum)%Q
      | _, _, _ => None
      end
  end.

(** Whether the Number [total] is the exact sum of [items]. *)
Definition is_exact_sum (total : float) (items : list OrderItem.t) : bool :=
  match exact_value total, exact_sum items with
  | Some t, Some sum => Qeq_bool t sum
  | _, _ => false
  end.

(** ** Concrete stores used by the examples below *)

Definition enrollment_example : gmap string (Enrollment.t string) :=
  {[ "a1b2" := Enrollment.mk "features" 0 600000 ]}.

Definition apple : Product.t :=
  Product.mk "p1" "Apple" None 3.5%float None 10 true.

Definition bread : Product.t :=
  Product.mk "p2" "Bread" None 5%float None 4 true.

Definition absinthe : Product.t :=
  Product.mk "p3" "Absinthe" None 40%float None 0 false.

Definition kiosk_north : PalmDevice.t :=
  PalmDevice.mk "d1" (Some "North") None "tok-north" true None 10.

Definition kiosk_south : PalmDevice.t :=
  PalmDevice.mk "d2" (Some "South") None "tok-south" true None 20.

Definition order_south : Order.t :=
  Order.mk "o1" None (Some "Ana") "pending" 7%float (Some "d2") 100 None
    [OrderItem.mk "p1" 2%float (Js.NumericString "3.50")].

Definition order_north : Order.t :=
  Order.mk "o2" (Some "c1") (Some "Ben") "pending" 5%float (Some "d1") 200 None
    [OrderItem.mk "p2" 1%float (Js.Number 5%float)].

Definition order_done : Order.t :=
  Order.mk "o0" None (Some "Cy") "completed" 5%float (Some "d1") 50 (Some 60)
    [OrderItem.mk "p2" 1%float (Js.Number 5%float)].

Definition shop_example : Db :=
  mkDb [bread; absinthe; apple]
       [Customer.mk "c1" "Ben" None None None 5]
       [order_done; order_north; order_south]
       [kiosk_north; kiosk_south]
       [User.mk "u1" "Ana" None 1; User.mk "u2" "Ben" None 2]
       [Card.mk "k1" "u1"; Card.mk "k2" "u2"]
       [PalmTemplate.mk "t1" "u1" "veinshine" "1.0" true]
       [AuthenticationLog.mk "l1" "u1" 300; AuthenticationLog.mk "l2" "u2" 310;
        AuthenticationLog.mk "l3" "u1" 320]
       [].

(** The reading of the price strings of the examples; every other string
    is read as [NaN] there. *)
Definition parseFloat_of_examples (s : string) : float :=
  if String.eqb s "3.50" then 3.5%float
  else if String.eqb s "5.00" then 5%float
  else PrimFloat.nan.

Definition two_lines : list OrderItem.t :=
  [OrderItem.mk "p1" 2%float (Js.NumericString "3.50");
   OrderItem.mk "p2" 1%float (Js.NumericString "5.00")].

(** The column of the examples, of two decimals: it takes the Numbers below
    10^8 in magnitude and keeps the multiple of 0.01 that is nearest, as a
    Number (the nearest integer to the hundredfold of the Number, a tie
    going to the even one, divided by 100). *)
Definition two_decimals (x : float) : option float :=
  if (PrimFloat.abs x <? 100000000)%float then
    let y := (PrimFloat.abs x * 100)%float in
    let cents := ((y + 0x1p52) - 0x1p52)%float in
    let kept := (cents / 100)%float in
    Some (if (x <? 0)%float then (- kept)%float else kept)
  else None.

(** Three items at 0.1, and one item at 0.30000000000000004. *)
Definition three_tenths : list OrderItem.t :=
  [OrderItem.mk "p1" 3%float (Js.Number 0x1.999999999999ap-4%float)].

Definition one_line : list OrderItem.t :=
  [OrderItem.mk "p1" 1%float (Js.Number 0x1.3333333333334p-2%float)].

(** Two rows of one user at one instant, and a row before them. *)
Definition tied_logs : Db :=
  mkDb [] [] [] [] [User.mk "u1" "Ana" None 1] [] []
       [AuthenticationLog.mk "l1" "u1" 300; AuthenticationLog.mk "l2" "u1" 300;
        AuthenticationLog.mk "l0" "u1" 100]
       [].

(** An arrangement of rows of one instant that puts no row first, and one
    that puts the row "l2" first. *)
Definition no_rank (l : AuthenticationLog.t) : Z := 0.

Definition l2_first (l : AuthenticationLog.t) : Z :=
  if String.eqb (AuthenticationLog.id l) "l2" then 0 else 1.

(** An ORM that answers a [take] or [skip] beyond the 32-bit integers with
    an empty page, and one that refuses it. *)
Definition beyond_Int_empty (rows : list AuthenticationLog.t) (take_ skip : Z)
    : option (list AuthenticationLog.t) := Some [].

Definition beyond_Int_refused (rows : list AuthenticationLog.t) (take_ skip : Z)
    : option (list AuthenticationLog.t) := None.

Definition kiosk_west : PalmDevice.t :=
  PalmDevice.mk "d3" (Some "West") None
    "abababababababababababababababababababababababababababababababab" true None 800.

(** * Properties *)

(** [H : x ∈ l] for a literal list [l] none of whose rows can be [x]. *)
Ltac no_such_row H :=
  vm_compute in H;
  repeat (apply elem_of_cons in H as [->|H]; [done|]);
  by apply elem_of_nil in H.

(** ** Enrollment tokens *)

Section EnrollmentFacts.

Context {Features : Type}.
Implicit Types (m : gmap string (Enrollment.t Features)) (token : string).

Lemma read_absent m token now :
  m !! token = None →
  Enrollment.get_api_v1_palm_enrollment now m token
  = (m, Fail 404 "Enrollment token not found or expired").
Proof. intros Hm. unfold Enrollment.get_api_v1_palm_enrollment. by rewrite Hm. Qed.

Lemma read_live m token now e :
  m !! token = Some e → now ≤ Enrollment.expiresAt e →
  Enrollment.get_api_v1_palm_enrollment now m token
  = (m, Json (true, Enrollment.palmFeatures e, Enrollment.createdAt e)).
Proof.
  intros Hm Hle. unfold Enrollment.get_api_v1_palm_enrollment. rewrite Hm.
  destruct (Z.ltb_spec (Enrollment.expiresAt e) now); [lia | done].
Qed.

Lemma read_expired m token now e :
  m !! token = Some e → Enrollment.expiresAt e < now →
  Enrollment.get_api_v1_palm_enrollment now m token
  = (delete token m, Fail 410 "Enrollment token expired").
Proof.
  intros Hm Hlt. unfold Enrollment.get_api_v1_palm_enrollment. rewrite Hm.
  destruct (Z.ltb_spec (Enrollment.expiresAt e) now); [done | lia].
Qed.

(** A token that is not in the map stays out of it as long as no
    generation draws it again. *)
Lemma step_keeps_absent m token ev :
  m !! token = None → ¬ Enrollment.generates token ev →
  Enrollment.step m ev !! token = None.
Proof.
  intros Hm Hgen. destruct ev as [tok pf n1 n2 | tok | tok now]; simpl in *.
  - rewrite lookup_insert_ne; [done | congruence].
  - unfold Enrollment.cleanup. rewrite lookup_delete. by case_decide.
  - unfold Enrollment.get_api_v1_palm_enrollment.
    destruct (m !! tok) as [e|]; [|done].
    destruct (Enrollment.expiresAt e <? now); simpl; [|done].
    rewrite lookup_delete. by case_decide.
Qed.

Lemma run_keeps_absent es : ∀ m token,
  m !! token = None → Forall (λ ev, ¬ Enrollment.generates token ev) es →
  Enrollment.run m es !! token = None.
Proof.
  induction es as [|ev es IH]; intros m token Hm Hes; [done|].
  inversion_clear Hes as [|? ? Hev Hrest]. unfold Enrollment.run. simpl.
  apply IH; [by apply step_keeps_absent | done].
Qed.

(** What a generation stores is what a read before the expiry returns. *)
Lemma read_after_generate m token (palmFeatures : Features) now1 now2 now :
  now ≤ now2 + 600000 →
  Enrollment.get_api_v1_palm_enrollment now
    (fst (Enrollment.post_api_v1_palm_generate_enrollment_qr token now1 now2 m palmFeatures))
    token
  = (fst (Enrollment.post_api_v1_palm_generate_enrollment_qr token now1 now2 m palmFeatures),
     Json (true, palmFeatures, now1)).
Proof.
  intros Hnow. simpl.
  apply (read_live _ _ _ (Enrollment.mk palmFeatures now1 (now2 + 10 * 60 * 1000)));
    [apply lookup_insert_eq | simpl; lia].
Qed.

End EnrollmentFacts.

(** C2 (as amended).  A read of [GET /api/v1/palm/enrollment/:token] on a
    token that is in the map returns the stored [palmFeatures] (status 200)
    and leaves the map alone at every instant up to and including the
    token's expiry instant; at an instant strictly after the expiry it
    returns 410 and deletes the token, after which every read of that
    token returns 404, whatever timers fire and whatever other tokens are
    generated or read in between; a read of a token that is not in the map
    returns 404. *)
Theorem C2_enrollment_read_by_expiry {Features : Type}
    (enrollmentTokens : gmap string (Enrollment.t Features)) (token : string) (now : Z) :
  (∀ e, enrollmentTokens !! token = Some e → now ≤ Enrollment.expiresAt e →
     Enrollment.get_api_v1_palm_enrollment now enrollmentTokens token
     = (enrollmentTokens, Json (true, Enrollment.palmFeatures e, Enrollment.createdAt e)))
  ∧ (∀ e, enrollmentTokens !! token = Some e → Enrollment.expiresAt e < now →
     Enrollment.get_api_v1_palm_enrollment now enrollmentTokens token
     = (delete token enrollmentTokens, Fail 410 "Enrollment token expired")
     ∧ ∀ es later,
         Forall (λ ev, ¬ Enrollment.generates token ev) es →
         Enrollment.get_api_v1_palm_enrollment later
           (Enrollment.run (delete token enrollmentTokens) es) token
         = (Enrollment.run (delete token enrollmentTokens) es,
            Fail 404 "Enrollment token not found or expired"))
  ∧ (enrollmentTokens !! token = None →
     Enrollment.get_api_v1_palm_enrollment now enrollmentTokens token
     = (enrollmentTokens, Fail 404 "Enrollment token not found or expired")).
Proof.
  split; [|split].
  - intros e He Hle. by apply read_live.
  - intros e He Hlt. split; [by apply (read_expired _ _ _ e)|].
    intros es later Hes. apply read_absent, run_keeps_absent; [|done].
    apply lookup_delete_eq.
  - apply read_absent.
Qed.

(** C2, the three cases met on a concrete map: a read at the expiry
    instant, a read one millisecond later, and a read after that. *)
Lemma C2_enrollment_read_by_expiry_witness :
  Enrollment.get_api_v1_palm_enrollment 600000 enrollment_example "a1b2"
  = (enrollment_example, Json (true, "features", 0))
  ∧ Enrollment.get_api_v1_palm_enrollment 600001 enrollment_example "a1b2"
    = (delete "a1b2" enrollment_example, Fail 410 "Enrollment token expired")
  ∧ Enrollment.get_api_v1_palm_enrollment 600002
      (Enrollment.run (delete "a1b2" enrollment_example) [Enrollment.TimerFires "a1b2"])
      "a1b2"
    = (Enrollment.run (delete "a1b2" enrollment_example) [Enrollment.TimerFires "a1b2"],
       Fail 404 "Enrollment token not found or expired").
Proof.
  pose proof (C2_enrollment_read_by_expiry enrollment_example "a1b2" 600000) as (Hlive & _ & _).
  pose proof (C2_enrollment_read_by_expiry enrollment_example "a1b2" 600001) as (_ & Hgone & _).
  specialize (Hlive (Enrollment.mk "features" 0 600000) eq_refl ltac:(simpl; lia)).
  specialize (Hgone (Enrollment.mk "features" 0 600000) eq_refl ltac:(simpl; lia)).
  destruct Hgone as [Hgone Hafter].
  split; [exact Hlive|]. split; [exact Hgone|].
  apply Hafter. repeat constructor. simpl. tauto.
Defined.

(** C2 as stated fails at the expiry instant itself: the token expires at
    600000, the read happens at 600000 (at expiry, not before it), and the
    handler answers 200 with the payload and keeps the token, where the
    claim has 410 and a deletion. *)
Lemma C2_read_at_expiry_instant_is_served :
  enrollment_example !! "a1b2" = Some (Enrollment.mk "features" 0 600000)
  ∧ Enrollment.expiresAt (Enrollment.mk "features" 0 600000) ≤ 600000
  ∧ snd (Enrollment.get_api_v1_palm_enrollment 600000 enrollment_example "a1b2")
    = Json (true, "features", 0)
  ∧ status_code (snd (Enrollment.get_api_v1_palm_enrollment 600000 enrollment_example "a1b2"))
    ≠ 410
  ∧ fst (Enrollment.get_api_v1_palm_enrollment 600000 enrollment_example "a1b2") !! "a1b2"
    = Some (Enrollment.mk "features" 0 600000).
Proof.
  assert (Hl : enrollment_example !! "a1b2" = Some (Enrollment.mk "features" 0 600000))
    by apply lookup_singleton_eq.
  rewrite (read_live _ _ 600000 _ Hl); [|simpl; lia].
  simpl. split; [done|]. split; [lia|]. split; [done|]. split; [lia|done].
Qed.

(** ** Ordered queries *)

Section SortFacts.

Context {A : Type} (R : relation A) `{!RelDecision R} `{!Total R} `{!Transitive R}.

(** The first row of an ordered query is a row of the table that is below
    every row of the table. *)
Lemma head_merge_sort_least (l : list A) (x : A) :
  head (merge_sort R l) = Some x → x ∈ l ∧ ∀ y, y ∈ l → R x y.
Proof.
  intros Hh. apply head_Some in Hh as [k Hk].
  pose proof (StronglySorted_merge_sort R l) as Hs.
  pose proof (merge_sort_Permutation R l) as Hp.
  rewrite Hk in Hs, Hp. split.
  - rewrite <- Hp. apply list_elem_of_here.
  - intros y Hy. rewrite <- Hp in Hy. apply elem_of_cons in Hy as [->|Hy].
    + by destruct (total R x x).
    + inversion_clear Hs as [|? ? _ Hall]. rewrite Forall_forall in Hall. by apply Hall.
Qed.

Lemma head_merge_sort_None (l : list A) :
  head (merge_sort R l) = None ↔ l = [].
Proof.
  rewrite head_None. split.
  - intros Hnil. apply Permutation_nil_r. by rewrite <- Hnil, merge_sort_Permutation.
  - by intros ->.
Qed.

Lemma StronglySorted_sublist (k l : list A) :
  k `sublist_of` l → StronglySorted R l → StronglySorted R k.
Proof.
  induction 1 as [|x k l Hkl IH|x k l Hkl IH]; intros Hs; [done| |].
  - inversion_clear Hs as [|? ? Hs' Hall]. constructor; [by apply IH|].
    rewrite Forall_forall in Hall |- *. intros y Hy. apply Hall.
    by eapply elem_of_sublist.
  - inversion_clear Hs. by apply IH.
Qed.

End SortFacts.

#[global] Instance createdAt_asc_total : Total Prisma.createdAt_asc.
Proof. intros a b. unfold Prisma.createdAt_asc. lia. Qed.

#[global] Instance createdAt_asc_trans : Transitive Prisma.createdAt_asc.
Proof. intros a b c. unfold Prisma.createdAt_asc. lia. Qed.

#[global] Instance authenticatedAt_desc_total : Total Prisma.authenticatedAt_desc.
Proof. intros a b. unfold Prisma.authenticatedAt_desc. lia. Qed.

#[global] Instance authenticatedAt_desc_trans : Transitive Prisma.authenticatedAt_desc.
Proof. intros a b c. unfold Prisma.authenticatedAt_desc. lia. Qed.

#[global] Instance by_name_asc_total (name_le : relation string) `{!Total name_le} :
  Total (Prisma.by_name_asc name_le).
Proof. intros p q. unfold Prisma.by_name_asc. apply (total name_le). Qed.

#[global] Instance by_name_asc_trans (name_le : relation string) `{!Transitive name_le} :
  Transitive (Prisma.by_name_asc name_le).
Proof. intros p q r. unfold Prisma.by_name_asc. apply transitivity. Qed.

(** [order.findFirst] returns the oldest row that satisfies [where], and
    nothing exactly when no row satisfies it. *)
Lemma order_findFirst_oldest (where_ : Order.t → Prop) `{!∀ o, Decision (where_ o)}
    (db : Db) (o : Order.t) :
  Prisma.order_findFirst where_ db = Some o →
  o ∈ orders db ∧ where_ o
  ∧ ∀ o', o' ∈ orders db → where_ o' → Order.createdAt o ≤ Order.createdAt o'.
Proof.
  intros Hf. apply head_merge_sort_least in Hf as [Hin Hleast]; [|apply _..].
  apply list_elem_of_filter in Hin as [Hw Hin]. split; [done|]. split; [done|].
  intros o' Hin' Hw'. apply Hleast. by apply list_elem_of_filter.
Qed.

Lemma order_findFirst_none (where_ : Order.t → Prop) `{!∀ o, Decision (where_ o)}
    (db : Db) :
  Prisma.order_findFirst where_ db = None ↔ ∀ o, o ∈ orders db → ¬ where_ o.
Proof.
  unfold Prisma.order_findFirst. rewrite head_merge_sort_None. split.
  - intros Hnil o Hin Hw. by eapply filter_nil_not_elem_of.
  - intros Hno. destruct (filter where_ (orders db)) as [|o k] eqn:Hf; [done|].
    assert (Ho : o ∈ filter where_ (orders db)) by (rewrite Hf; apply list_elem_of_here).
    apply list_elem_of_filter in Ho as [Hw Hin]. by destruct (Hno o Hin).
Qed.

(** ** Products *)



Example products_of_shop_example :
  Shared.get_api_products String.le shop_example = Json [apple; bread].
Proof. vm_compute. reflexivity. Qed.

(** ** The next pending order *)

(** C5.  In the later revision [GET /api/palm/next-order] answers 200 on
    every store and for every caller, whatever the [Authorization] header
    is or whether there is one: the order it returns is a pending order of
    the store whose [createdAt] is the earliest among all pending orders,
    of whichever device, and it returns [order: null] exactly when the
    store has no pending order. *)
Theorem C5_next_order_is_globally_oldest_pending (db : Db) (authHeader : option string) :
  ∃ next,
    LaterRevision.get_api_palm_next_order db authHeader = Json next
    ∧ (next = None ↔ ∀ o, o ∈ orders db → Order.status o ≠ "pending")
    ∧ (∀ found, next = Some found →
         owc_order found ∈ orders db
         ∧ Order.status (owc_order found) = "pending"
         ∧ ∀ o, o ∈ orders db → Order.status o = "pending" →
             Order.createdAt (owc_order found) ≤ Order.createdAt o)
    ∧ (∀ other : option string,
         LaterRevision.get_api_palm_next_order db other = Json next).
Proof.
  unfold LaterRevision.get_api_palm_next_order.
  eexists. split; [reflexivity|]. split; [|split].
  - rewrite fmap_None. apply order_findFirst_none.
  - intros found Hfound. apply fmap_Some in Hfound as (o & Ho & ->). simpl.
    by apply order_findFirst_oldest in Ho.
  - done.
Qed.

(** C5 on the example store, for a caller that sends no header. *)
Lemma C5_next_order_is_globally_oldest_pending_witness :
  ∃ next,
    LaterRevision.get_api_palm_next_order shop_example None = Json next
    ∧ (next = None ↔ ∀ o, o ∈ orders shop_example → Order.status o ≠ "pending")
    ∧ (∀ found, next = Some found →
         owc_order found ∈ orders shop_example
         ∧ Order.status (owc_order found) = "pending"
         ∧ ∀ o, o ∈ orders shop_example → Order.status o = "pending" →
             Order.createdAt (owc_order found) ≤ Order.createdAt o)
    ∧ (∀ other : option string,
         LaterRevision.get_api_palm_next_order shop_example other = Json next).
Proof. apply (C5_next_order_is_globally_oldest_pending shop_example None). Defined.

(** On the example store the oldest pending order was created for the
    device "d2"; the later revision hands it to a caller that sends no
    header and to one that sends the token of "d1", while the first
    revision hands the holder of that token the pending order of "d1" and
    refuses a caller without a header. *)
Example next_order_of_shop_example :
  LaterRevision.get_api_palm_next_order shop_example None
  = Json (Some (include_customer shop_example order_south))
  ∧ LaterRevision.get_api_palm_next_order shop_example (Some "Bearer tok-north")
    = Json (Some (include_customer shop_example order_south))
  ∧ FirstRevision.get_api_palm_next_order shop_example (Some "Bearer tok-north")
    = Json (Some (include_customer shop_example order_north))
  ∧ FirstRevision.get_api_palm_next_order shop_example None
    = Fail 401 "Missing authorization token".
Proof. vm_compute. done. Qed.

(** ** Authentication logs *)

Example parseInt_samples :
  Js.parseInt "25" = Some 25 ∧ Js.parseInt "  12abc" = Some 12
  ∧ Js.parseInt "-3" = Some (-3) ∧ Js.parseInt "0x1F" = Some 31
  ∧ Js.parseInt "0" = Some 0 ∧ Js.parseInt "-0" = Some 0
  ∧ Js.parseInt "abc" = None ∧ Js.parseInt "" = None ∧ Js.parseInt "0x" = None
  ∧ Js.parseInt_param None = None.
Proof. vm_compute. done. Qed.

Example parseInt_rounds_to_Number :
  Js.parseInt "9007199254740992" = Some 9007199254740992
  ∧ Js.parseInt "9007199254740993" = Some 9007199254740992
  ∧ Js.parseInt "9007199254740995" = Some 9007199254740996
  ∧ Js.parseInt "-18014398509481985" = Some (-18014398509481984)
  ∧ Js.parseInt "2147483648" = Some 2147483648.
Proof. vm_compute. done. Qed.

Lemma limit_of_page_parameter (q : option string) :
  LaterRevision.limit_of q = page_parameter 50 q.
Proof. by destruct q. Qed.

Lemma offset_of_page_parameter (q : option string) :
  LaterRevision.offset_of q = page_parameter 0 q.
Proof. by destruct q. Qed.

#[global] Instance authenticatedAt_desc_ranked_total (tie_rank : AuthenticationLog.t → Z) :
  Total (Prisma.authenticatedAt_desc_ranked tie_rank).
Proof. intros a b. unfold Prisma.authenticatedAt_desc_ranked. lia. Qed.

#[global] Instance authenticatedAt_desc_ranked_trans (tie_rank : AuthenticationLog.t → Z) :
  Transitive (Prisma.authenticatedAt_desc_ranked tie_rank).
Proof. intros a b c. unfold Prisma.authenticatedAt_desc_ranked. lia. Qed.

Lemma StronglySorted_weaken {A : Type} (R S : relation A) (l : list A) :
  (∀ x y, R x y → S x y) → StronglySorted R l → StronglySorted S l.
Proof.
  intros HRS. induction 1 as [|x l _ IH Hall]; constructor; [done|].
  eapply Forall_impl; [done|]. intros y. apply HRS.
Qed.

Section OrderedRows.

Variable tie_rank : AuthenticationLog.t → Z.
Variable findMany_beyond_Int :
  list AuthenticationLog.t → Z → Z → option (list AuthenticationLog.t).

(** Whatever the arrangement of the rows of one instant, the ordered rows
    are the rows of the user, each as often as the table has it, in
    descending order of their timestamp. *)
Lemma ordered_rows_Permutation (db : Db) (userId : string) :
  Prisma.authenticationLog_ordered tie_rank db userId
  ≡ₚ filter (λ l, AuthenticationLog.userId l = userId) (authenticationLogs db).
Proof. apply merge_sort_Permutation. Qed.

Lemma ordered_rows_of_user (db : Db) (userId : string) (l : AuthenticationLog.t) :
  l ∈ Prisma.authenticationLog_ordered tie_rank db userId
  ↔ l ∈ authenticationLogs db ∧ AuthenticationLog.userId l = userId.
Proof. rewrite ordered_rows_Permutation, list_elem_of_filter. tauto. Qed.

Lemma ordered_rows_sorted (db : Db) (userId : string) :
  StronglySorted Prisma.authenticatedAt_desc
    (Prisma.authenticationLog_ordered tie_rank db userId).
Proof.
  apply (StronglySorted_weaken (Prisma.authenticatedAt_desc_ranked tie_rank)).
  - unfold Prisma.authenticatedAt_desc_ranked, Prisma.authenticatedAt_desc. lia.
  - apply StronglySorted_merge_sort; apply _.
Qed.

(** A page counted from the end is a stretch of the ordered rows too. *)
Lemma page_from_end {A : Type} (rows : list A) (n k : nat) :
  reverse (take n (drop k (reverse rows)))
  = drop (length (take (length rows - k) rows) - n) (take (length rows - k) rows).
Proof. by rewrite drop_reverse, take_reverse, reverse_involutive. Qed.

(** On 32-bit integers [authenticationLog.findMany] is the page of the
    ordered rows. *)
Lemma findMany_Int (db : Db) (userId : string) (take_ skip : Z) :
  Prisma.is_Int take_ = true → Prisma.is_Int skip = true →
  Prisma.authenticationLog_findMany tie_rank findMany_beyond_Int db userId take_ skip
  = let rows := Prisma.authenticationLog_ordered tie_rank db userId in
    if skip <? 0 then None
    else if 0 <=? take_ then Some (take (Z.to_nat take_) (drop (Z.to_nat skip) rows))
    else Some (reverse (take (Z.to_nat (- take_)) (drop (Z.to_nat skip) (reverse rows)))).
Proof.
  intros Htake Hskip. unfold Prisma.authenticationLog_findMany. by rewrite Htake, Hskip.
Qed.

(** What it returns there is a stretch of the ordered rows of the user, no
    longer than the magnitude of [take]. *)
Lemma findMany_page (db : Db) (userId : string) (take_ skip : Z)
    (logs : list AuthenticationLog.t) :
  Prisma.is_Int take_ = true → Prisma.is_Int skip = true →
  Prisma.authenticationLog_findMany tie_rank findMany_beyond_Int db userId take_ skip
  = Some logs →
  0 ≤ skip
  ∧ logs `sublist_of` Prisma.authenticationLog_ordered tie_rank db userId
  ∧ Z.of_nat (length logs) ≤ Z.abs take_.
Proof.
  intros Htake Hskip. rewrite findMany_Int by done. cbv zeta.
  destruct (Z.ltb_spec skip 0) as [|Hpos]; [done|].
  destruct (Z.leb_spec 0 take_) as [Hfwd|Hback]; intros [= <-]; (split; [done|]).
  - split.
    + etrans; [apply sublist_take | apply sublist_drop].
    + rewrite length_take. lia.
  - split.
    + rewrite page_from_end. etrans; [apply sublist_drop | apply sublist_take].
    + rewrite length_reverse, length_take. lia.
Qed.

End OrderedRows.

(** C10.  On both paginated endpoints ([/auth-logs] and [/auth-history])
    the [limit] handed to the query is 50 when the query parameter is
    absent, when it is not numeric and when it parses to 0, and the number
    it parses to otherwise; likewise [offset] with 0.  In particular
    [?limit=0] is answered with the first 50 of the user's rows, newest
    first (all of them when there are fewer), not with an empty page. *)
Theorem C10_page_parameters_fall_back_to_defaults
    (tie_rank : AuthenticationLog.t → Z)
    (findMany_beyond_Int :
       list AuthenticationLog.t → Z → Z → option (list AuthenticationLog.t))
    (db : Db) (userId : string) (query_limit query_offset : option string) :
  LaterRevision.get_api_v1_users_auth_logs tie_rank findMany_beyond_Int db userId
    query_limit query_offset
  = match Prisma.authenticationLog_findMany tie_rank findMany_beyond_Int db userId
            (page_parameter 50 query_limit) (page_parameter 0 query_offset) with
    | Some logs => Json logs
    | None => Fail 500 "Failed to fetch authentication logs"
    end
  ∧ LaterRevision.get_api_v1_users_auth_history tie_rank findMany_beyond_Int db userId
      query_limit query_offset
    = match Prisma.authenticationLog_findMany tie_rank findMany_beyond_Int db userId
              (page_parameter 50 query_limit) (page_parameter 0 query_offset) with
      | Some logs =>
          Json (mkAuthHistory logs (length logs)
                  (page_parameter 50 query_limit) (page_parameter 0 query_offset))
      | None => Fail 500 "Failed to fetch authentication history"
      end
  ∧ page_parameter 50 None = 50 ∧ page_parameter 50 (Some "abc") = 50
  ∧ page_parameter 50 (Some "0") = 50 ∧ page_parameter 50 (Some "20") = 20
  ∧ page_parameter 0 None = 0 ∧ page_parameter 0 (Some "abc") = 0
  ∧ page_parameter 0 (Some "0") = 0 ∧ page_parameter 0 (Some "20") = 20
  ∧ LaterRevision.get_api_v1_users_auth_logs tie_rank findMany_beyond_Int db userId
      (Some "0") query_offset
    = LaterRevision.get_api_v1_users_auth_logs tie_rank findMany_beyond_Int db userId
        None query_offset
  ∧ LaterRevision.get_api_v1_users_auth_logs tie_rank findMany_beyond_Int db userId
      (Some "0") None
    = Json (take 50 (Prisma.authenticationLog_ordered tie_rank db userId))
  ∧ LaterRevision.get_api_v1_users_auth_history tie_rank findMany_beyond_Int db userId
      (Some "0") None
    = Json (mkAuthHistory (take 50 (Prisma.authenticationLog_ordered tie_rank db userId))
              (length (take 50 (Prisma.authenticationLog_ordered tie_rank db userId)))
              50 0).
Proof.
  unfold LaterRevision.get_api_v1_users_auth_logs,
    LaterRevision.get_api_v1_users_auth_history.
  rewrite !limit_of_page_parameter, !offset_of_page_parameter.
  repeat split.
Qed.

(** C10 on the example store: [?limit=0] and no [offset]. *)
Lemma C10_page_parameters_fall_back_to_defaults_witness :
  LaterRevision.get_api_v1_users_auth_logs no_rank beyond_Int_refused shop_example "u1"
    (Some "0") None
  = Json (take 50 (Prisma.authenticationLog_ordered no_rank shop_example "u1"))
  ∧ LaterRevision.get_api_v1_users_auth_history no_rank beyond_Int_refused shop_example
      "u1" (Some "0") None
    = Json (mkAuthHistory
              (take 50 (Prisma.authenticationLog_ordered no_rank shop_example "u1"))
              (length (take 50 (Prisma.authenticationLog_ordered no_rank shop_example
                                  "u1")))
              50 0).
Proof.
  pose proof (C10_page_parameters_fall_back_to_defaults no_rank beyond_Int_refused
                shop_example "u1" (Some "0") None) as H.
  split; apply H.
Defined.

Example limit_zero_on_shop_example :
  LaterRevision.get_api_v1_users_auth_logs no_rank beyond_Int_refused shop_example "u1"
    (Some "0") None
  = Json [AuthenticationLog.mk "l3" "u1" 320; AuthenticationLog.mk "l1" "u1" 300].
Proof. vm_compute. reflexivity. Qed.

(** A [limit] of more than 53 bits reaches the query rounded to a Number,
    and is no 32-bit integer. *)
Example limit_beyond_Int :
  LaterRevision.limit_of (Some "9007199254740993") = 9007199254740992
  ∧ Prisma.is_Int (LaterRevision.limit_of (Some "9007199254740993")) = false
  ∧ LaterRevision.get_api_v1_users_auth_history no_rank beyond_Int_empty shop_example "u1"
      (Some "9007199254740993") None
    = Json (mkAuthHistory [] 0 9007199254740992 0).
Proof. vm_compute. done. Qed.

(** C8 (as amended).  Whenever [GET /api/v1/users/:userId/auth-history]
    answers 200, [total] is the number of logs in the returned page, and
    [limit] and [offset] are echoed as read from the query (defaults 50
    and 0).  Where [limit] and [offset] are 32-bit integers: a negative
    [offset] is answered with 500; otherwise the answer is 200, and its
    [logs] are one stretch of the user's rows in some descending order of
    their timestamp (rows of one instant in the order the query happens
    to give them): for a [limit] that is not negative, the rows from
    position [offset] on, at most [limit] of them; for a negative
    [limit], the last [-limit] rows that remain once [offset] rows are
    dropped from the end.  So [total] is at most the magnitude of [limit]
    (at most [limit] when [limit] is not negative) and at most the number
    of the user's rows, which it need not reach. *)
Theorem C8_auth_history_total_is_page_length (tie_rank : AuthenticationLog.t → Z)
    (findMany_beyond_Int :
       list AuthenticationLog.t → Z → Z → option (list AuthenticationLog.t))
    (db : Db) (userId : string) (query_limit query_offset : option string) :
  let limit := LaterRevision.limit_of query_limit in
  let offset := LaterRevision.offset_of query_offset in
  let reply :=
    LaterRevision.get_api_v1_users_auth_history tie_rank findMany_beyond_Int db userId
      query_limit query_offset in
  let user_rows :=
    filter (λ l, AuthenticationLog.userId l = userId) (authenticationLogs db) in
  (∀ history,
     reply = Json history →
     history_total history = length (history_logs history)
     ∧ history_limit history = limit
     ∧ history_offset history = offset)
  ∧ (Prisma.is_Int limit = true → Prisma.is_Int offset = true →
     (offset < 0 → reply = Fail 500 "Failed to fetch authentication history")
     ∧ (0 ≤ offset →
        ∃ logs rows,
          reply = Json (mkAuthHistory logs (length logs) limit offset)
          ∧ rows ≡ₚ user_rows
          ∧ StronglySorted Prisma.authenticatedAt_desc rows
          ∧ (0 ≤ limit →
               logs = take (Z.to_nat limit) (drop (Z.to_nat offset) rows)
               ∧ Z.of_nat (length logs) ≤ limit)
          ∧ (limit < 0 →
               logs = reverse (take (Z.to_nat (- limit))
                                 (drop (Z.to_nat offset) (reverse rows))))
          ∧ (∀ l, l ∈ logs →
               l ∈ authenticationLogs db ∧ AuthenticationLog.userId l = userId)
          ∧ StronglySorted Prisma.authenticatedAt_desc logs
          ∧ Z.of_nat (length logs) ≤ Z.abs limit
          ∧ (length logs ≤ length user_rows)%nat)).
Proof.
  intros limit offset reply user_rows. subst reply.
  unfold LaterRevision.get_api_v1_users_auth_history. fold limit offset. split.
  - intros history.
    destruct (Prisma.authenticationLog_findMany _ _ _ _ _ _) as [logs|]; [|done].
    by intros [= <-].
  - intros Hlimit Hoffset. split.
    + intros Hneg. rewrite findMany_Int by done. cbv zeta.
      destruct (Z.ltb_spec offset 0); [done | lia].
    + intros Hoff.
      destruct (Prisma.authenticationLog_findMany tie_rank findMany_beyond_Int db userId
                  limit offset) as [logs|] eqn:Hq.
      * exists logs, (Prisma.authenticationLog_ordered tie_rank db userId).
        destruct (findMany_page _ _ _ _ _ _ _ Hlimit Hoffset Hq) as (_ & Hsub & Hlen).
        split; [done|]. split; [apply ordered_rows_Permutation|].
        split; [apply ordered_rows_sorted|].
        rewrite findMany_Int in Hq by done. cbv zeta in Hq.
        destruct (Z.ltb_spec offset 0); [done|].
        assert (Hrest :
          (∀ l, l ∈ logs →
             l ∈ authenticationLogs db ∧ AuthenticationLog.userId l = userId)
          ∧ StronglySorted Prisma.authenticatedAt_desc logs
          ∧ Z.of_nat (length logs) ≤ Z.abs limit
          ∧ (length logs ≤ length user_rows)%nat).
        { split; [|split; [|split; [done|]]].
          - intros l Hl. eapply ordered_rows_of_user. by eapply elem_of_sublist.
          - eapply StronglySorted_sublist; [done | apply ordered_rows_sorted].
          - subst user_rows. rewrite <- (ordered_rows_Permutation tie_rank).
            by apply sublist_length. }
        destruct (Z.leb_spec 0 limit); injection Hq as <-.
        -- split; [|split; [intros; lia | done]].
           intros _. split; [done | lia].
        -- split; [intros; lia|]. split; [done | done].
      * rewrite findMany_Int in Hq by done. cbv zeta in Hq.
        destruct (Z.ltb_spec offset 0); [lia|]. by destruct (0 <=? limit).
Qed.

(** C8 on the example store: the user "u1" has two rows; [?limit=1] is
    answered with the newest one and [total] 1. *)
Lemma C8_auth_history_total_is_page_length_witness :
  LaterRevision.get_api_v1_users_auth_history no_rank beyond_Int_refused shop_example "u1"
    (Some "1") None
  = Json (mkAuthHistory [AuthenticationLog.mk "l3" "u1" 320] 1 1 0)
  ∧ ∃ logs rows,
      LaterRevision.get_api_v1_users_auth_history no_rank beyond_Int_refused shop_example
        "u1" (Some "1") None
      = Json (mkAuthHistory logs (length logs) 1 0)
      ∧ rows ≡ₚ filter (λ l, AuthenticationLog.userId l = "u1")
                  (authenticationLogs shop_example)
      ∧ StronglySorted Prisma.authenticatedAt_desc rows
      ∧ logs = take 1 (drop 0 rows)
      ∧ (length logs ≤ 1)%nat.
Proof.
  split; [vm_compute; reflexivity|].
  destruct (C8_auth_history_total_is_page_length no_rank beyond_Int_refused shop_example
              "u1" (Some "1") None) as [_ Hpage].
  destruct (Hpage eq_refl eq_refl) as [_ Hfrom].
  destruct Hfrom as (logs & rows & Hreply & Hrows & Hsorted & Hforward & _);
    [vm_compute; discriminate|].
  destruct Hforward as [Hlogs Hlen]; [vm_compute; discriminate|].
  exists logs, rows. repeat (split; [assumption|]).
  change (Z.of_nat (length logs) ≤ 1) in Hlen. lia.
Defined.

Example auth_history_page_of_shop_example :
  LaterRevision.get_api_v1_users_auth_history no_rank beyond_Int_refused shop_example "u1"
    (Some "1") None
  = Json (mkAuthHistory [AuthenticationLog.mk "l3" "u1" 320] 1 1 0)
  ∧ length (Prisma.authenticationLog_ordered no_rank shop_example "u1") = 2%nat.
Proof. vm_compute. done. Qed.

(** C8 as stated fails for a negative [limit]: [?limit=-1] is answered with
    one row, and [total] is 1, which is not at most the limit -1. *)
Lemma C8_negative_limit_total_exceeds_limit :
  (∀ (tie_rank : AuthenticationLog.t → Z)
     (findMany_beyond_Int :
        list AuthenticationLog.t → Z → Z → option (list AuthenticationLog.t)),
     LaterRevision.get_api_v1_users_auth_history tie_rank findMany_beyond_Int shop_example
       "u1" (Some "-1") None
     = Json (mkAuthHistory [AuthenticationLog.mk "l1" "u1" 300] 1 (-1) 0))
  ∧ ¬ (Z.of_nat 1 ≤ -1).
Proof. split; [intros; vm_compute; reflexivity | lia]. Qed.

(** ** Bearer authentication *)

Lemma findUnique_apiToken_Some (db : Db) (token : string) (d : PalmDevice.t) :
  Prisma.palmDevice_findUnique_apiToken db token = Some d →
  d ∈ palmDevices db ∧ PalmDevice.apiToken d = token.
Proof.
  intros Hf. apply find_some in Hf as [Hin Heq].
  split; [by apply list_elem_of_In | by apply bool_decide_eq_true in Heq].
Qed.

Lemma findUnique_apiToken_None (db : Db) (token : string) :
  Prisma.palmDevice_findUnique_apiToken db token = None ↔
  ∀ d, d ∈ palmDevices db → PalmDevice.apiToken d ≠ token.
Proof.
  split.
  - intros Hf d Hin. eapply find_none in Hf; [|by apply list_elem_of_In].
    by apply bool_decide_eq_false in Hf.
  - intros Hno.
    destruct (Prisma.palmDevice_findUnique_apiToken db token) as [d|] eqn:Hf; [|done].
    apply findUnique_apiToken_Some in Hf as [Hin Heq]. by destruct (Hno d Hin).
Qed.

(** A header that starts with the scheme is not the empty string, so the
    two guards of the two revisions refuse the same headers. *)
Lemma guard_first_revision (authHeader : option string) :
  negb (Js.truthy authHeader) || negb (Js.optional_startsWith authHeader "Bearer ")
  = negb (Js.optional_startsWith authHeader "Bearer ").
Proof. destruct authHeader as [[|c h]|]; reflexivity. Qed.

Lemma bearer_refused_iff (db : Db) (authHeader : option string) :
  bearer_refused db authHeader ↔
  Js.optional_startsWith authHeader "Bearer " = false
  ∨ Prisma.palmDevice_findUnique_apiToken db (Js.substring 7 (default "" authHeader)) = None.
Proof.
  destruct authHeader as [h|]; simpl; [|tauto].
  by rewrite findUnique_apiToken_None.
Qed.

(** C6.  Both bearer-authenticated handlers ([GET /api/palm/next-order] of
    the first revision, [POST /api/palm-devices/auth-log] of the later one)
    answer 401 exactly when the [Authorization] header is missing, does not
    start with [Bearer] and a space, or carries a token that is the
    [apiToken] of no device.  On 401 the operation is not performed: no
    order is looked up, the store is left as it was.  Otherwise the request
    is resolved to a device of the store whose [apiToken] equals the token
    character for character, and the operation is performed for that
    device. *)
Theorem C6_bearer_token_decides_401 (db : Db) (authHeader : option string)
    (now : Z) (newId : string) (body : AuthLogBody) :
  (status_code (FirstRevision.get_api_palm_next_order db authHeader) = 401
   ↔ bearer_refused db authHeader)
  ∧ (status_code (snd (LaterRevision.post_api_palm_devices_auth_log
                         now newId db authHeader body)) = 401
     ↔ bearer_refused db authHeader)
  ∧ (bearer_refused db authHeader →
     (∃ msg, FirstRevision.get_api_palm_next_order db authHeader = Fail 401 msg)
     ∧ ∃ msg, LaterRevision.post_api_palm_devices_auth_log now newId db authHeader body
              = (db, Fail 401 msg))
  ∧ (¬ bearer_refused db authHeader →
     ∃ h device,
       authHeader = Some h
       ∧ device ∈ palmDevices db
       ∧ PalmDevice.apiToken device = Js.substring 7 h
       ∧ FirstRevision.get_api_palm_next_order db authHeader
         = Json (include_customer db <$>
                   Prisma.order_findFirst
                     (λ o, Order.status o = "pending"
                           ∧ Order.palmDeviceId o = Some (PalmDevice.id device)) db)
       ∧ LaterRevision.post_api_palm_devices_auth_log now newId db authHeader body
         = match Prisma.deviceAuthenticationLog_create newId db (PalmDevice.id device)
                   (Js.or_string (log_deviceType body) "palm")
                   (Js.or_string (log_location body) "Unknown")
                   (default false (log_success body))
                   (Js.or_string (log_reason body) "Authentication failed") now with
           | Some (db', authLog) => (db', Json (true, authLog))
           | None => (db, Fail 500 "Failed to log authentication attempt")
           end).
Proof.
  rewrite !bearer_refused_iff.
  unfold FirstRevision.get_api_palm_next_order, LaterRevision.post_api_palm_devices_auth_log.
  rewrite guard_first_revision.
  remember (Js.substring 7 (default "" authHeader)) as token eqn:Htoken.
  destruct (Js.optional_startsWith authHeader "Bearer ") eqn:Hscheme; simpl.
  - destruct (Prisma.palmDevice_findUnique_apiToken db token) as [device|] eqn:Hfind; simpl.
    + split; [split; [done | by intros [|]]|].
      split.
      { destruct (Prisma.deviceAuthenticationLog_create _ _ _ _ _ _ _ _) as [[??]|];
          simpl; (split; [done | by intros [|]]). }
      split; [by intros [|]|]. intros _.
      destruct authHeader as [h|]; [|done]. simpl in Htoken.
      apply findUnique_apiToken_Some in Hfind as [Hin Htok].
      exists h, device. by rewrite <- Htoken.
    + split; [split; [by right | done]|]. split; [split; [by right | done]|].
      split; [eauto | intros []; by right].
  - split; [split; [by left | done]|]. split; [split; [by left | done]|].
    split; [eauto | intros []; by left].
Qed.

(** C6 on the example store: the token of the north kiosk is accepted, a
    token of no device, a header of another scheme and a missing header are
    answered with 401 and leave the store as it was. *)
Lemma C6_bearer_token_decides_401_witness :
  (∃ h device,
     Some "Bearer tok-north" = Some h
     ∧ device ∈ palmDevices shop_example
     ∧ PalmDevice.apiToken device = Js.substring 7 h
     ∧ FirstRevision.get_api_palm_next_order shop_example (Some "Bearer tok-north")
       = Json (include_customer shop_example <$>
                 Prisma.order_findFirst
                   (λ o, Order.status o = "pending"
                         ∧ Order.palmDeviceId o = Some (PalmDevice.id device)) shop_example)
     ∧ LaterRevision.post_api_palm_devices_auth_log 500 "a1" shop_example
         (Some "Bearer tok-north") (mkAuthLogBody None None (Some true) None)
       = match Prisma.deviceAuthenticationLog_create "a1" shop_example (PalmDevice.id device)
                 "palm" "Unknown" true "Authentication failed" 500 with
         | Some (db', authLog) => (db', Json (true, authLog))
         | None => (shop_example, Fail 500 "Failed to log authentication attempt")
         end)
  ∧ (∃ msg, LaterRevision.post_api_palm_devices_auth_log 500 "a1" shop_example
              (Some "Bearer tok-west") (mkAuthLogBody None None (Some true) None)
            = (shop_example, Fail 401 msg)).
Proof.
  split.
  - apply (C6_bearer_token_decides_401 shop_example (Some "Bearer tok-north") 500 "a1"
             (mkAuthLogBody None None (Some true) None)).
    intros [Hscheme | Hnone]; [done|].
    apply (Hnone kiosk_north); [apply list_elem_of_here | reflexivity].
  - apply (C6_bearer_token_decides_401 shop_example (Some "Bearer tok-west") 500 "a1"
             (mkAuthLogBody None None (Some true) None)).
    right. intros d Hd. no_such_row Hd.
Defined.

Example auth_log_on_shop_example :
  LaterRevision.post_api_palm_devices_auth_log 500 "a1" shop_example
    (Some "Bearer tok-north") (mkAuthLogBody None None (Some true) None)
  = (set_deviceAuthenticationLogs shop_example
       [DeviceAuthenticationLog.mk "a1" (Some "d1") "palm" "Unknown" true
          "Authentication failed" 500],
     Json (true, DeviceAuthenticationLog.mk "a1" (Some "d1") "palm" "Unknown" true
                   "Authentication failed" 500))
  ∧ snd (LaterRevision.post_api_palm_devices_auth_log 500 "a1" shop_example
           (Some "bearer tok-north") (mkAuthLogBody None None (Some true) None))
    = Fail 401 "Unauthorized"
  ∧ snd (LaterRevision.post_api_palm_devices_auth_log 500 "a1" shop_example
           None (mkAuthLogBody None None (Some true) None))
    = Fail 401 "Unauthorized".
Proof. vm_compute. done. Qed.

(** ** Deleting a user *)

Lemma user_find_Some (db : Db) (userId : string) (u : User.t) :
  Prisma.user_find db userId = Some u → u ∈ users db ∧ User.id u = userId.
Proof.
  intros Hf. apply find_some in Hf as [Hin Heq].
  split; [by apply list_elem_of_In | by apply bool_decide_eq_true in Heq].
Qed.

Lemma user_find_None (db : Db) (userId : string) :
  Prisma.user_find db userId = None ↔ ¬ user_exists db userId.
Proof.
  split.
  - intros Hf (u & Hin & Heq). eapply find_none in Hf; [|by apply list_elem_of_In].
    by apply bool_decide_eq_false in Hf.
  - intros Hno. destruct (Prisma.user_find db userId) as [u|] eqn:Hf; [|done].
    apply user_find_Some in Hf. destruct Hno. by exists u.
Qed.

(** Once the three [deleteMany] calls have run, nothing references the
    user any more. *)
Lemma dependents_deleted (db : Db) (userId : string) :
  ¬ Prisma.user_referenced
      (Prisma.authenticationLog_deleteMany
         (Prisma.palmTemplate_deleteMany (Prisma.card_deleteMany db userId) userId) userId)
      userId.
Proof.
  intros [H|[H|H]]; apply Exists_exists in H as (x & Hin & Heq); simpl in Hin;
    apply list_elem_of_filter in Hin as [Hne _]; done.
Qed.

(** C7.  [DELETE /api/v1/users/:userId] deletes the cards, the palm
    templates and the authentication logs of the user, in that order, and
    then the user row.  For a user that exists the answer is the success
    reply, whatever dependent rows the user had: afterwards the store has
    neither the user nor any card, template or log that names it, the rows
    of the other users and the other tables are as before, and a store
    without orphaned rows is still without them.  Deleting the user row
    first would be refused while a dependent row names the user.  For a
    user id that is not in the store the answer is the error reply 500, not
    the success reply. *)
Theorem C7_delete_user_cascades (db : Db) (userId : string) :
  (user_exists db userId →
     ∃ db',
       LaterRevision.delete_api_v1_users db userId
       = (db', Json (true, "User deleted successfully"))
       ∧ db' = set_users
                 (Prisma.authenticationLog_deleteMany
                    (Prisma.palmTemplate_deleteMany
                       (Prisma.card_deleteMany db userId) userId) userId)
                 (filter (λ u, User.id u ≠ userId) (users db))
       ∧ ¬ user_exists db' userId
       ∧ (∀ u, u ∈ users db' ↔ u ∈ users db ∧ User.id u ≠ userId)
       ∧ (∀ c, c ∈ cards db' ↔ c ∈ cards db ∧ Card.userId c ≠ userId)
       ∧ (∀ t, t ∈ palmTemplates db' ↔ t ∈ palmTemplates db ∧ PalmTemplate.userId t ≠ userId)
       ∧ (∀ l, l ∈ authenticationLogs db'
               ↔ l ∈ authenticationLogs db ∧ AuthenticationLog.userId l ≠ userId)
       ∧ (products db', customers db', orders db', palmDevices db',
          deviceAuthenticationLogs db')
         = (products db, customers db, orders db, palmDevices db,
            deviceAuthenticationLogs db)
       ∧ (no_orphans db → no_orphans db'))
  ∧ (Prisma.user_referenced db userId → Prisma.user_delete db userId = None)
  ∧ (¬ user_exists db userId →
     snd (LaterRevision.delete_api_v1_users db userId) = Fail 500 "Failed to delete user"
     ∧ users (fst (LaterRevision.delete_api_v1_users db userId)) = users db).
Proof.
  unfold LaterRevision.delete_api_v1_users. split; [|split].
  - intros Hex. unfold Prisma.user_delete at 1.
    change (Prisma.user_find _ userId) with (Prisma.user_find db userId).
    destruct (Prisma.user_find db userId) as [u|] eqn:Hfound;
      [|by apply user_find_None in Hfound].
    rewrite (bool_decide_eq_false_2 _ (dependents_deleted db userId)).
    eexists. split; [reflexivity|]. split; [reflexivity|]. simpl.
    assert (Hu : ∀ u0, u0 ∈ filter (λ u1, User.id u1 ≠ userId) (users db)
                       ↔ u0 ∈ users db ∧ User.id u0 ≠ userId).
    { intros u0. rewrite list_elem_of_filter. tauto. }
    split; [|split; [exact Hu|]].
    { intros (u0 & Hin & Heq). simpl in Hin. apply Hu in Hin. tauto. }
    split; [intros c; rewrite list_elem_of_filter; tauto|].
    split; [intros t; rewrite list_elem_of_filter; tauto|].
    split; [intros l; rewrite list_elem_of_filter; tauto|].
    split; [reflexivity|].
    intros (Hc & Ht & Hl). unfold no_orphans, user_exists. simpl.
    split; [|split]; intros x Hx; apply list_elem_of_filter in Hx as [Hne Hx].
    + destruct (Hc x Hx) as (u0 & Hin & Heq). exists u0.
      split; [apply Hu; split; [done | congruence] | done].
    + destruct (Ht x Hx) as (u0 & Hin & Heq). exists u0.
      split; [apply Hu; split; [done | congruence] | done].
    + destruct (Hl x Hx) as (u0 & Hin & Heq). exists u0.
      split; [apply Hu; split; [done | congruence] | done].
  - intros Href. unfold Prisma.user_delete.
    destruct (Prisma.user_find db userId); [|done].
    by rewrite bool_decide_eq_true_2.
  - intros Hno. apply user_find_None in Hno. unfold Prisma.user_delete.
    change (Prisma.user_find _ userId) with (Prisma.user_find db userId).
    by rewrite Hno.
Qed.

(** C7 on the example store: "u1" has a card, a template and two logs and
    is deleted with them; "u9" is no user and the answer is an error. *)
Lemma C7_delete_user_cascades_witness :
  (∃ db',
     LaterRevision.delete_api_v1_users shop_example "u1"
     = (db', Json (true, "User deleted successfully"))
     ∧ users db' = [User.mk "u2" "Ben" None 2]
     ∧ cards db' = [Card.mk "k2" "u2"]
     ∧ palmTemplates db' = []
     ∧ authenticationLogs db' = [AuthenticationLog.mk "l2" "u2" 310])
  ∧ Prisma.user_delete shop_example "u1" = None
  ∧ snd (LaterRevision.delete_api_v1_users shop_example "u9")
    = Fail 500 "Failed to delete user".
Proof.
  destruct (C7_delete_user_cascades shop_example "u1") as (Hdel & Hfirst & _).
  destruct (C7_delete_user_cascades shop_example "u9") as (_ & _ & Hmiss).
  split; [|split].
  - destruct Hdel as (db' & Hrun & -> & _).
    + exists (User.mk "u1" "Ana" None 1). split; [apply list_elem_of_here | reflexivity].
    + eexists. split; [exact Hrun|]. vm_compute. done.
  - apply Hfirst. left. apply Exists_cons_hd. reflexivity.
  - apply Hmiss. intros (u & Hin & Heq). no_such_row Hin.
Defined.

(** ** Completing an order *)

Lemma order_find_Some (db : Db) (id : string) (o : Order.t) :
  Prisma.order_find db id = Some o → o ∈ orders db ∧ Order.id o = id.
Proof.
  intros Hf. apply find_some in Hf as [Hin Heq].
  split; [by apply list_elem_of_In | by apply bool_decide_eq_true in Heq].
Qed.

Lemma order_find_None (db : Db) (id : string) :
  Prisma.order_find db id = None ↔ ∀ o, o ∈ orders db → Order.id o ≠ id.
Proof.
  split.
  - intros Hf o Hin. eapply find_none in Hf; [|by apply list_elem_of_In].
    by apply bool_decide_eq_false in Hf.
  - intros Hno. destruct (Prisma.order_find db id) as [o|] eqn:Hf; [|done].
    apply order_find_Some in Hf as [Hin Heq]. by destruct (Hno o Hin).
Qed.

(** The update the later revision asks for is the completion of the
    specification. *)
Lemma later_update_is_completed (now : Z) (body : CompleteOrderBody) (o : Order.t) :
  Prisma.apply_update
    (Prisma.mkOrderUpdateInput (complete_status body) (Some now) None
       (if Js.truthy (complete_customerName body) then complete_customerName body
        else None)) o
  = completed now body o.
Proof.
  unfold Prisma.apply_update, completed. simpl.
  destruct (complete_customerName body) as [n|]; simpl; [|done].
  by destruct (String.eqb n "").
Qed.

Lemma later_complete_order_run (now : Z) (db : Db) (id : string) (body : CompleteOrderBody) :
  LaterRevision.post_api_palm_complete_order now db id body
  = match Prisma.order_find db id with
    | Some o =>
        (set_orders db
           ((λ x, if bool_decide (Order.id x = id) then completed now body x else x)
              <$> orders db),
         Json (completed now body o, "Order completed"))
    | None => (db, Fail 500 "Failed to complete order")
    end.
Proof.
  unfold LaterRevision.post_api_palm_complete_order, Prisma.order_update.
  destruct (Prisma.order_find db id) as [o|]; [|done]. simpl.
  rewrite later_update_is_completed. do 2 f_equal.
  apply list_fmap_ext. intros i x _. simpl. by rewrite later_update_is_completed.
Qed.

(** C4.  In the later revision [POST /api/palm/complete-order/:id] on an
    order of the store answers with that order, completed: its [status] is
    the one of the body (the old one when the body has none), its
    [completedAt] is the current time, its [customerName] is the one of
    the body when the body supplies a non-empty one and the old one
    otherwise, and [id], [customerId], [totalAmount], [palmDeviceId],
    [createdAt] and the items are the old ones.  In the store, the rows
    with that id are replaced by their completion, every other order and
    every other table are as before.  When no order has the id, the answer
    is 500 and the store is as before. *)
Theorem C4_complete_order_sets_status_completedAt_customerName (now : Z) (db : Db)
    (id : string) (body : CompleteOrderBody) :
  (∀ o, Prisma.order_find db id = Some o →
     ∃ o' db',
       LaterRevision.post_api_palm_complete_order now db id body
       = (db', Json (o', "Order completed"))
       ∧ o' = completed now body o
       ∧ Order.status o' = default (Order.status o) (complete_status body)
       ∧ Order.completedAt o' = Some now
       ∧ (Order.customerName o' ≠ Order.customerName o →
            Js.truthy (complete_customerName body) = true
            ∧ Order.customerName o' = complete_customerName body)
       ∧ (Order.id o', Order.customerId o', Order.totalAmount o', Order.palmDeviceId o',
          Order.createdAt o', Order.items o')
         = (Order.id o, Order.customerId o, Order.totalAmount o, Order.palmDeviceId o,
            Order.createdAt o, Order.items o)
       ∧ length (orders db') = length (orders db)
       ∧ (∀ i x, orders db !! i = Some x →
            orders db' !! i
            = Some (if bool_decide (Order.id x = id) then completed now body x else x))
       ∧ (∀ i x x', orders db !! i = Some x → orders db' !! i = Some x' →
            (Order.id x ≠ id → x' = x)
            ∧ Order.id x' = Order.id x
            ∧ Order.customerId x' = Order.customerId x
            ∧ Order.totalAmount x' = Order.totalAmount x
            ∧ Order.palmDeviceId x' = Order.palmDeviceId x
            ∧ Order.createdAt x' = Order.createdAt x
            ∧ Order.items x' = Order.items x)
       ∧ (products db', customers db', palmDevices db', users db', cards db',
          palmTemplates db', authenticationLogs db', deviceAuthenticationLogs db')
         = (products db, customers db, palmDevices db, users db, cards db,
            palmTemplates db, authenticationLogs db, deviceAuthenticationLogs db))
  ∧ (Prisma.order_find db id = None →
     LaterRevision.post_api_palm_complete_order now db id body
     = (db, Fail 500 "Failed to complete order")).
Proof.
  rewrite later_complete_order_run. split.
  - intros o ->. eexists _, _. split; [reflexivity|]. split; [reflexivity|].
    split; [reflexivity|]. split; [reflexivity|]. split.
    { simpl. destruct (Js.truthy (complete_customerName body)); [done|]. by intros []. }
    split; [reflexivity|]. simpl. split; [apply length_fmap|].
    assert (Hrow : ∀ i x, orders db !! i = Some x →
              ((λ x0, if bool_decide (Order.id x0 = id) then completed now body x0 else x0)
                 <$> orders db) !! i
              = Some (if bool_decide (Order.id x = id) then completed now body x else x)).
    { intros i x Hx. by rewrite list_lookup_fmap, Hx. }
    split; [exact Hrow|]. split; [|reflexivity].
    intros i x x' Hx Hx'. rewrite (Hrow i x Hx) in Hx'. injection Hx' as <-.
    case_bool_decide; [|done]. split; [done|]. done.
  - by intros ->.
Qed.

(** C4 on the example store: completing "o2" with a customer name. *)
Lemma C4_complete_order_witness :
  ∃ o' db',
    LaterRevision.post_api_palm_complete_order 900 shop_example "o2"
      (mkCompleteOrderBody (Some "completed") (Some "c9") (Some "Benedict"))
    = (db', Json (o', "Order completed"))
    ∧ o' = Order.mk "o2" (Some "c1") (Some "Benedict") "completed" 5%float (Some "d1")
             200 (Some 900) [OrderItem.mk "p2" 1%float (Js.Number 5%float)]
    ∧ orders db' = [order_done; o'; order_south].
Proof.
  destruct (C4_complete_order_sets_status_completedAt_customerName 900 shop_example "o2"
              (mkCompleteOrderBody (Some "completed") (Some "c9") (Some "Benedict")))
    as [Hdone _].
  destruct (Hdone order_north eq_refl) as (o' & db' & Hrun & -> & _).
  exists (completed 900 (mkCompleteOrderBody (Some "completed") (Some "c9") (Some "Benedict"))
            order_north), db'.
  split; [exact Hrun|]. split; [reflexivity|].
  rewrite later_complete_order_run in Hrun. injection Hrun as <-. reflexivity.
Defined.

(** The first revision also writes [customerId], and is refused by the
    store when the body names a customer that does not exist; the later
    revision ignores the [customerId] of the body. *)
Example first_revision_complete_order_writes_customerId :
  FirstRevision.post_api_palm_complete_order 900 shop_example "o1"
    (mkCompleteOrderBody (Some "completed") (Some "c9") None)
  = (shop_example, Fail 500 "Failed to complete order")
  ∧ (Order.customerId ∘ fst <$>
       match snd (FirstRevision.post_api_palm_complete_order 900 shop_example "o1"
                    (mkCompleteOrderBody (Some "completed") (Some "c1") None)) with
       | Json r => Some r
       | Fail _ _ => None
       end) = Some (Some "c1")
  ∧ (Order.customerId ∘ fst <$>
       match snd (LaterRevision.post_api_palm_complete_order 900 shop_example "o1"
                    (mkCompleteOrderBody (Some "completed") (Some "c9") None)) with
       | Json r => Some r
       | Fail _ _ => None
       end) = Some None.
Proof. vm_compute. done. Qed.

(** ** Creating an order *)

Lemma partial_sum_ext (f g : nat → float) (n : nat) :
  (∀ k, (k < n)%nat → f k = g k) → partial_sum f n = partial_sum g n.
Proof.
  induction n as [|n IH]; intros Hfg; [done|]. simpl.
  rewrite IH, (Hfg n); [done | lia | intros k Hk; apply Hfg; lia].
Qed.

Lemma sum_of_lines_snoc (parseFloat_string : string → float) (items : list OrderItem.t)
    (item : OrderItem.t) :
  sum_of_lines parseFloat_string (items ++ [item])
  = PrimFloat.add (sum_of_lines parseFloat_string items)
                  (line_amount parseFloat_string item).
Proof.
  unfold sum_of_lines. rewrite length_app, Nat.add_1_r. simpl.
  rewrite list_lookup_middle by done. f_equal.
  apply partial_sum_ext. intros k Hk. by rewrite lookup_app_l.
Qed.

(** [parseFloat] reads the price that was submitted. *)
Lemma parseFloat_submitted_price (parseFloat_string : string → float) (price : Js.numeric) :
  Js.parseFloat parseFloat_string price = submitted_price parseFloat_string price.
Proof. by destruct price. Qed.

(** The [reduce] of the handler computes the sum of the specification. *)
Lemma totalAmount_is_sum_of_lines (parseFloat_string : string → float)
    (items : list OrderItem.t) :
  Shared.totalAmount parseFloat_string items = sum_of_lines parseFloat_string items.
Proof.
  induction items as [|item items IH] using rev_ind; [done|].
  rewrite sum_of_lines_snoc, <- IH.
  unfold Shared.totalAmount, Js.reduce. rewrite fold_left_app. simpl.
  unfold line_amount. by rewrite parseFloat_submitted_price.
Qed.

(** The items handed to [order.create] are the items of the body. *)
Lemma items_create_id (items : list OrderItem.t) : Shared.items_create items = items.
Proof.
  unfold Shared.items_create. rewrite <- (list_fmap_id items) at 2.
  apply list_fmap_ext. by intros i [] _.
Qed.

Lemma order_create_Some (required : bool) (column : float → option float) (now : Z)
    (newId : string) (db db' : Db) (data : Prisma.OrderCreateInput) (order : Order.t) :
  Prisma.order_create required column now newId db data = Some (db', order) →
  ∃ kept,
    column (Prisma.create_totalAmount data) = Some kept
    ∧ order = Order.mk newId (Prisma.create_customerId data)
                (Prisma.create_customerName data) Prisma.default_status kept
                (Prisma.create_palmDeviceId data) now None (Prisma.create_items data)
    ∧ db' = set_orders db (orders db ++ [order]).
Proof.
  unfold Prisma.order_create. intros Hc.
  repeat match type of Hc with (if ?c then _ else _) = _ => destruct c; [done|] end.
  destruct (column _) as [kept|]; [|done].
  exists kept. by injection Hc as <- <-.
Qed.

Lemma create_order_Json (parseFloat_string : string → float) (required : bool)
    (column : float → option float) (now : Z) (newId : string) (db db' : Db)
    (body : CreateOrderBody) (created : OrderWithDevice) :
  Shared.create_order parseFloat_string required column now newId db body
  = (db', Json created) →
  ∃ items kept,
    body_items body = Some items
    ∧ column (sum_of_lines parseFloat_string items) = Some kept
    ∧ owd_order created
      = Order.mk newId (body_customerId body) (body_customerName body) "pending"
          kept (body_palmDeviceId body) now None items
    ∧ db' = set_orders db (orders db ++ [owd_order created]).
Proof.
  unfold Shared.create_order. destruct (body_items body) as [items|]; [|done].
  destruct (Prisma.order_create _ _ _ _ _ _) as [[db1 order]|] eqn:Hc; [|done].
  intros [= <- <-]. apply order_create_Some in Hc as (kept & Hkept & -> & ->). simpl in *.
  exists items, kept. by rewrite <- totalAmount_is_sum_of_lines, items_create_id.
Qed.

(** Either revision creates an order through the text they share. *)
Lemma post_api_orders_Json (parseFloat_string : string → float) (required : bool)
    (column : float → option float) (now : Z) (newId : string) (db db' : Db)
    (body : CreateOrderBody) (created : OrderWithDevice) :
  FirstRevision.post_api_orders parseFloat_string required column now newId db body
  = (db', Json created)
  ∨ LaterRevision.post_api_orders parseFloat_string required column now newId db body
    = (db', Json created) →
  Shared.create_order parseFloat_string required column now newId db body
  = (db', Json created).
Proof.
  intros [Hrun|Hrun]; [|done].
  unfold FirstRevision.post_api_orders in Hrun.
  by destruct (negb (Js.truthy (body_palmDeviceId body))).
Qed.

(** C1 (as amended).  Whenever [POST /api/orders], in either revision,
    creates and returns an order, the request carried an item list, and
    the [totalAmount] of the returned order, which is the row added to the
    store, is what the column of the total keeps of the Number the handler
    hands it; that Number is the sum over the supplied items of the
    submitted price times the quantity, added up in the order of the list
    from 0 in the arithmetic of Numbers.  Where the column keeps that
    Number as it is, the [totalAmount] is the sum.  No product of the
    store takes part: the same body, sent to any store under the same
    schema, is given the same [totalAmount] whenever it creates an
    order. *)
Theorem C1_totalAmount_is_kept_sum_of_submitted_lines
    (parseFloat_string : string → float) (palmDeviceId_required : bool)
    (totalAmount_column : float → option float) (now : Z) (newId : string) (db db' : Db)
    (body : CreateOrderBody) (created : OrderWithDevice) :
  FirstRevision.post_api_orders parseFloat_string palmDeviceId_required totalAmount_column
    now newId db body
  = (db', Json created)
  ∨ LaterRevision.post_api_orders parseFloat_string palmDeviceId_required
      totalAmount_column now newId db body
    = (db', Json created) →
  ∃ items,
    body_items body = Some items
    ∧ totalAmount_column (sum_of_lines parseFloat_string items)
      = Some (Order.totalAmount (owd_order created))
    ∧ (totalAmount_column (sum_of_lines parseFloat_string items)
       = Some (sum_of_lines parseFloat_string items) →
       Order.totalAmount (owd_order created) = sum_of_lines parseFloat_string items)
    ∧ orders db' = orders db ++ [owd_order created]
    ∧ ∀ (required2 : bool) (now2 : Z) (id2 : string) (db2 db2' : Db)
        (created2 : OrderWithDevice),
        FirstRevision.post_api_orders parseFloat_string required2 totalAmount_column
          now2 id2 db2 body
        = (db2', Json created2)
        ∨ LaterRevision.post_api_orders parseFloat_string required2 totalAmount_column
            now2 id2 db2 body
          = (db2', Json created2) →
        Order.totalAmount (owd_order created2) = Order.totalAmount (owd_order created).
Proof.
  intros Hrun. apply post_api_orders_Json in Hrun.
  apply create_order_Json in Hrun as (items & kept & Hitems & Hkept & Ho & ->).
  exists items. rewrite Ho. simpl. split; [done|]. split; [done|].
  split; [congruence|]. split; [done|].
  intros required2 now2 id2 db2 db2' created2 Hrun2. apply post_api_orders_Json in Hrun2.
  apply create_order_Json in Hrun2 as (items2 & kept2 & Hitems2 & Hkept2 & -> & _).
  simpl. congruence.
Qed.

(** C1 on the example store: two apples at "3.50" and one bread at "5.00"
    make 12, which a column of two decimals keeps, in both revisions. *)
Lemma C1_totalAmount_is_kept_sum_of_submitted_lines_witness :
  ∃ created db',
    FirstRevision.post_api_orders parseFloat_of_examples true two_decimals 700 "o3"
      shop_example (mkCreateOrderBody None (Some "Dee") (Some two_lines) (Some "d1"))
    = (db', Json created)
    ∧ LaterRevision.post_api_orders parseFloat_of_examples true two_decimals 700 "o3"
        shop_example (mkCreateOrderBody None (Some "Dee") (Some two_lines) (Some "d1"))
      = (db', Json created)
    ∧ Order.totalAmount (owd_order created) = 12%float
    ∧ ∃ items,
        Some two_lines = Some items
        ∧ two_decimals (sum_of_lines parseFloat_of_examples items)
          = Some (Order.totalAmount (owd_order created))
        ∧ orders db' = orders shop_example ++ [owd_order created].
Proof.
  eexists _, _. split; [vm_compute; reflexivity|]. split; [vm_compute; reflexivity|].
  split; [vm_compute; reflexivity|].
  destruct (C1_totalAmount_is_kept_sum_of_submitted_lines parseFloat_of_examples true
              two_decimals 700 "o3" shop_example _
              (mkCreateOrderBody None (Some "Dee") (Some two_lines) (Some "d1")) _
              (or_introl eq_refl))
    as (items & Hitems & Hkept & _ & Hrows & _).
  exists items. split; [exact Hitems|]. split; [exact Hkept | exact Hrows].
Defined.

(** Numbers are binary64: three items at 0.1 come to 0.30000000000000004,
    the sum the handler computes and the specification's partial sums
    give alike; a column of two decimals keeps 0.3 of it. *)
Example total_of_three_tenths :
  Shared.totalAmount parseFloat_of_examples three_tenths = 0x1.3333333333334p-2%float
  ∧ sum_of_lines parseFloat_of_examples three_tenths = 0x1.3333333333334p-2%float
  ∧ two_decimals 0x1.3333333333334p-2%float = Some 0x1.3333333333333p-2%float.
Proof. vm_compute. done. Qed.

(** Neither [NaN] nor an infinity is kept by the column of two decimals:
    a total that is one of them creates no order. *)
Example total_not_a_number_is_refused :
  two_decimals PrimFloat.nan = None ∧ two_decimals PrimFloat.infinity = None
  ∧ LaterRevision.post_api_orders parseFloat_of_examples false two_decimals 700 "o3"
      shop_example
      (mkCreateOrderBody None None
         (Some [OrderItem.mk "p1" 1%float (Js.NumericString "abc")]) (Some "d1"))
    = (shop_example, Fail 500 "Failed to create order").
Proof. vm_compute. done. Qed.

Lemma is_exact_sum_true (total : float) (items : list OrderItem.t) :
  is_exact_sum total items = true →
  ∃ t sum, exact_value total = Some t ∧ exact_sum items = Some sum ∧ (t == sum)%Q.
Proof.
  unfold is_exact_sum.
  destruct (exact_value total) as [t|], (exact_sum items) as [sum|]; try done.
  intros Heq%Qeq_bool_iff. by exists t, sum.
Qed.

(** C1 as stated fails.  The body with three items at 0.1 and the body
    with one item at 0.30000000000000004 have different sums, and hand the
    store the same Number; so whatever the column keeps, the orders they
    create have the same [totalAmount], which is not the sum of both.
    Under a column of two decimals the second body creates an order whose
    [totalAmount] is 0.3, not the 0.30000000000000004 submitted. *)
Lemma C1_two_sums_one_totalAmount :
  (∃ sum sum', exact_sum three_tenths = Some sum ∧ exact_sum one_line = Some sum'
               ∧ Qeq_bool sum sum' = false)
  ∧ (∀ (parseFloat_string : string → float) (required : bool)
       (column : float → option float) (now now' : Z) (newId newId' : string)
       (db db1 db' db1' : Db) (created created' : OrderWithDevice),
       LaterRevision.post_api_orders parseFloat_string required column now newId db
         (mkCreateOrderBody None None (Some three_tenths) (Some "d1"))
       = (db1, Json created) →
       LaterRevision.post_api_orders parseFloat_string required column now' newId' db'
         (mkCreateOrderBody None None (Some one_line) (Some "d1"))
       = (db1', Json created') →
       Order.totalAmount (owd_order created) = Order.totalAmount (owd_order created')
       ∧ ¬ (is_exact_sum (Order.totalAmount (owd_order created)) three_tenths = true
            ∧ is_exact_sum (Order.totalAmount (owd_order created')) one_line = true))
  ∧ (∃ created db',
       LaterRevision.post_api_orders parseFloat_of_examples true two_decimals 700 "o3"
         shop_example (mkCreateOrderBody None None (Some one_line) (Some "d1"))
       = (db', Json created)
       ∧ Order.totalAmount (owd_order created) = 0x1.3333333333333p-2%float
       ∧ is_exact_sum (Order.totalAmount (owd_order created)) one_line = false).
Proof.
  assert (Hsums : ∃ sum sum', exact_sum three_tenths = Some sum
                              ∧ exact_sum one_line = Some sum'
                              ∧ Qeq_bool sum sum' = false).
  { eexists _, _. split; [reflexivity|]. split; [reflexivity|]. vm_compute. reflexivity. }
  split; [exact Hsums|]. split.
  - intros parseFloat_string required column now now' newId newId' db db1 db' db1'
      created created' Hrun Hrun'.
    apply create_order_Json in Hrun as (items & kept & [= <-] & Hkept & -> & _).
    apply create_order_Json in Hrun' as (items' & kept' & [= <-] & Hkept' & -> & _).
    simpl.
    assert (Hsame : sum_of_lines parseFloat_string three_tenths
                    = sum_of_lines parseFloat_string one_line) by (vm_compute; reflexivity).
    rewrite Hsame in Hkept. assert (kept = kept') as <- by congruence.
    split; [done|]. intros [Ha Hb].
    apply is_exact_sum_true in Ha as (t & sum & Ht & Hsum & Heq).
    apply is_exact_sum_true in Hb as (t' & sum' & Ht' & Hsum' & Heq').
    destruct Hsums as (s & s' & Hs & Hs' & Hdiff).
    assert (t = t') as <- by congruence.
    assert (s = sum) as -> by congruence. assert (s' = sum') as -> by congruence.
    assert (Qeq_bool sum sum' = true); [|congruence].
    apply Qeq_bool_iff. by rewrite <- Heq, <- Heq'.
  - eexists _, _. split; [vm_compute; reflexivity|]. split; vm_compute; reflexivity.
Qed.

(** The exact sum of the specification's scenario is 12, read from the
    decimal numerals as submitted. *)
Example exact_sum_of_two_lines :
  (∃ sum, exact_sum two_lines = Some sum ∧ Qeq_bool sum 12 = true)
  ∧ is_exact_sum 12%float two_lines = true.
Proof. split; [eexists; split; [reflexivity|]|]; vm_compute; reflexivity. Qed.






(** The device check of the handler sits in the first revision.  Without
    a [palmDeviceId] the first revision answers 400; the later revision
    creates the order when the schema leaves the column optional, and
    passes on the store's refusal as 500 when the schema requires it. *)
Example later_revision_has_no_device_check :
  FirstRevision.post_api_orders parseFloat_of_examples false two_decimals 700 "o3"
    shop_example (mkCreateOrderBody None (Some "Dee") (Some two_lines) None)
  = (shop_example, Fail 400 "Device selection required")
  ∧ status_code (snd (LaterRevision.post_api_orders parseFloat_of_examples false
                        two_decimals 700 "o3" shop_example
                        (mkCreateOrderBody None (Some "Dee") (Some two_lines) None)))
    = 200
  ∧ LaterRevision.post_api_orders parseFloat_of_examples true two_decimals 700 "o3"
      shop_example (mkCreateOrderBody None (Some "Dee") (Some two_lines) None)
    = (shop_example, Fail 500 "Failed to create order").
Proof. vm_compute. done. Qed.

(** * Further properties of the handlers *)

(** ** The next pending order and the life of an order *)

Lemma bearer_header (token : string) :
  Js.truthy (Some ("Bearer " +:+ token)) = true
  ∧ Js.optional_startsWith (Some ("Bearer " +:+ token)) "Bearer " = true
  ∧ Js.substring 7 ("Bearer " +:+ token) = token.
Proof. split; [done|]. split; [|done]. by destruct token. Qed.

(** X1.  In the first revision a device that presents its token is handed
    only its own orders: the order returned is a pending order of the
    store created for that device, the oldest of them, and [null] is
    returned exactly when no pending order was created for that device,
    whatever is pending for other devices. *)
Theorem X1_first_next_order_is_device_scoped (db : Db) (token : string)
    (device : PalmDevice.t) :
  Prisma.palmDevice_findUnique_apiToken db token = Some device →
  ∃ next,
    FirstRevision.get_api_palm_next_order db (Some ("Bearer " +:+ token)) = Json next
    ∧ (next = None ↔
       ∀ o, o ∈ orders db → Order.status o = "pending" →
            Order.palmDeviceId o ≠ Some (PalmDevice.id device))
    ∧ (∀ found, next = Some found →
         owc_order found ∈ orders db
         ∧ Order.status (owc_order found) = "pending"
         ∧ Order.palmDeviceId (owc_order found) = Some (PalmDevice.id device)
         ∧ ∀ o, o ∈ orders db → Order.status o = "pending" →
             Order.palmDeviceId o = Some (PalmDevice.id device) →
             Order.createdAt (owc_order found) ≤ Order.createdAt o).
Proof.
  intros Hdev. unfold FirstRevision.get_api_palm_next_order.
  destruct (bearer_header token) as (Ht & Hs & Hsub).
  rewrite Ht, Hs. simpl negb. simpl orb. cbv iota.
  change (default "" (Some ("Bearer " +:+ token))) with ("Bearer " +:+ token).
  rewrite Hsub, Hdev. eexists. split; [reflexivity|]. split.
  - rewrite fmap_None, order_findFirst_none. split.
    + intros Hno o Hin Hp Hd. by apply (Hno o Hin).
    + intros Hno o Hin [Hp Hd]. by apply (Hno o Hin).
  - intros found Hfound. apply fmap_Some in Hfound as (o & Ho & ->). simpl.
    apply order_findFirst_oldest in Ho as (Hin & [Hp Hd] & Hleast).
    split; [done|]. split; [done|]. split; [done|].
    intros o' Hin' Hp' Hd'. by apply Hleast.
Qed.

Lemma X1_first_next_order_is_device_scoped_witness :
  ∃ next,
    FirstRevision.get_api_palm_next_order shop_example (Some ("Bearer " +:+ "tok-north"))
    = Json next
    ∧ (next = None ↔
       ∀ o, o ∈ orders shop_example → Order.status o = "pending" →
            Order.palmDeviceId o ≠ Some (PalmDevice.id kiosk_north))
    ∧ (∀ found, next = Some found →
         owc_order found ∈ orders shop_example
         ∧ Order.status (owc_order found) = "pending"
         ∧ Order.palmDeviceId (owc_order found) = Some (PalmDevice.id kiosk_north)
         ∧ ∀ o, o ∈ orders shop_example → Order.status o = "pending" →
             Order.palmDeviceId o = Some (PalmDevice.id kiosk_north) →
             Order.createdAt (owc_order found) ≤ Order.createdAt o).
Proof.
  apply (X1_first_next_order_is_device_scoped shop_example "tok-north" kiosk_north).
  reflexivity.
Defined.

(** What the later completion leaves in the order table. *)
Lemma later_complete_order_rows (now : Z) (db : Db) (id : string) (body : CompleteOrderBody) :
  orders (fst (LaterRevision.post_api_palm_complete_order now db id body))
  = (λ x, if bool_decide (Order.id x = id) then completed now body x else x) <$> orders db.
Proof.
  rewrite later_complete_order_run.
  destruct (Prisma.order_find db id) as [o|] eqn:Hf; [done|]. simpl.
  rewrite <- (list_fmap_id (orders db)) at 1. apply list_fmap_ext.
  intros i x Hx. simpl. rewrite bool_decide_eq_false_2; [done|].
  eapply order_find_None; [done|]. by eapply list_elem_of_lookup_2.
Qed.

(** X3.  In the later revision, once an order is completed with a status
    other than "pending", [GET /api/palm/next-order] does not return an
    order of that id any more, to any caller. *)
Theorem X3_completed_order_is_not_handed_out_again (now : Z) (db : Db) (id : string)
    (body : CompleteOrderBody) (status : string) (authHeader : option string)
    (found : OrderWithCustomer) :
  complete_status body = Some status →
  status ≠ "pending" →
  LaterRevision.get_api_palm_next_order
    (fst (LaterRevision.post_api_palm_complete_order now db id body)) authHeader
  = Json (Some found) →
  Order.id (owc_order found) ≠ id.
Proof.
  intros Hstatus Hne Hnext Hid.
  unfold LaterRevision.get_api_palm_next_order in Hnext.
  injection Hnext as Hnext. apply fmap_Some in Hnext as (o & Ho & ->). simpl in Hid.
  apply order_findFirst_oldest in Ho as (Hin & Hp & _).
  rewrite later_complete_order_rows in Hin.
  apply list_elem_of_fmap in Hin as (x & -> & Hx).
  case_bool_decide as Hx_id; [|done].
  simpl in Hp. rewrite Hstatus in Hp. simpl in Hp. congruence.
Qed.

Lemma X3_completed_order_is_not_handed_out_again_witness :
  LaterRevision.get_api_palm_next_order shop_example None
  = Json (Some (include_customer shop_example order_south))
  ∧ LaterRevision.get_api_palm_next_order
      (fst (LaterRevision.post_api_palm_complete_order 900 shop_example "o1"
              (mkCompleteOrderBody (Some "completed") None None))) None
    = Json (Some (include_customer
                    (fst (LaterRevision.post_api_palm_complete_order 900 shop_example "o1"
                            (mkCompleteOrderBody (Some "completed") None None)))
                    order_north))
  ∧ Order.id (owc_order (include_customer
                (fst (LaterRevision.post_api_palm_complete_order 900 shop_example "o1"
                        (mkCompleteOrderBody (Some "completed") None None)))
                order_north)) ≠ "o1".
Proof.
  split; [vm_compute; reflexivity|]. split; [vm_compute; reflexivity|].
  apply (X3_completed_order_is_not_handed_out_again 900 shop_example "o1"
           (mkCompleteOrderBody (Some "completed") None None) "completed" None);
    [reflexivity | done | vm_compute; reflexivity].
Defined.

(** X4.  In the later revision a completion whose body carries no status
    stamps [completedAt] but leaves the status as it was: an order that was
    pending is still pending afterwards, and [GET /api/palm/next-order]
    still has an order to return. *)
Theorem X4_completion_without_status_keeps_order_pending (now : Z) (db : Db)
    (id : string) (body : CompleteOrderBody) (o : Order.t) (authHeader : option string) :
  complete_status body = None →
  o ∈ orders db → Order.id o = id → Order.status o = "pending" →
  completed now body o
  ∈ orders (fst (LaterRevision.post_api_palm_complete_order now db id body))
  ∧ Order.status (completed now body o) = "pending"
  ∧ Order.completedAt (completed now body o) = Some now
  ∧ LaterRevision.get_api_palm_next_order
      (fst (LaterRevision.post_api_palm_complete_order now db id body)) authHeader
    ≠ Json None.
Proof.
  intros Hstatus Hin Hid Hp.
  assert (Hin' : completed now body o
                 ∈ orders (fst (LaterRevision.post_api_palm_complete_order now db id body))).
  { rewrite later_complete_order_rows. apply list_elem_of_fmap. exists o.
    by rewrite bool_decide_eq_true_2. }
  assert (Hp' : Order.status (completed now body o) = "pending").
  { simpl. by rewrite Hstatus. }
  split; [done|]. split; [done|]. split; [done|].
  unfold LaterRevision.get_api_palm_next_order. intros [= Hnone].
  apply fmap_None in Hnone. rewrite order_findFirst_none in Hnone.
  by apply (Hnone _ Hin').
Qed.

Lemma X4_completion_without_status_keeps_order_pending_witness :
  completed 900 (mkCompleteOrderBody None None (Some "Ana B.")) order_south
  ∈ orders (fst (LaterRevision.post_api_palm_complete_order 900 shop_example "o1"
                   (mkCompleteOrderBody None None (Some "Ana B."))))
  ∧ Order.status (completed 900 (mkCompleteOrderBody None None (Some "Ana B.")) order_south)
    = "pending"
  ∧ Order.completedAt (completed 900 (mkCompleteOrderBody None None (Some "Ana B."))
                         order_south) = Some 900
  ∧ LaterRevision.get_api_palm_next_order
      (fst (LaterRevision.post_api_palm_complete_order 900 shop_example "o1"
              (mkCompleteOrderBody None None (Some "Ana B.")))) None
    ≠ Json None.
Proof.
  apply (X4_completion_without_status_keeps_order_pending 900 shop_example "o1"
           (mkCompleteOrderBody None None (Some "Ana B.")) order_south None);
    [reflexivity | | reflexivity | reflexivity].
  do 2 apply list_elem_of_further. apply list_elem_of_here.
Defined.

Lemma createdAt_desc_total : Total Prisma.createdAt_desc.
Proof. intros a b. unfold Prisma.createdAt_desc. lia. Qed.

Lemma createdAt_desc_trans : Transitive Prisma.createdAt_desc.
Proof. intros a b c. unfold Prisma.createdAt_desc. lia. Qed.

#[global] Existing Instances createdAt_desc_total createdAt_desc_trans.

(** The rows of [order.findMany] are the rows that satisfy [where]. *)
Lemma order_findMany_rows (where_ : Order.t → Prop) `{!∀ o, Decision (where_ o)}
    (db : Db) (o : Order.t) :
  o ∈ Prisma.order_findMany where_ db ↔ o ∈ orders db ∧ where_ o.
Proof.
  unfold Prisma.order_findMany. rewrite merge_sort_Permutation, list_elem_of_filter. tauto.
Qed.

(** X5.  In the later revision an order that [POST /api/orders] has
    created is pending and waits in the queue: right afterwards
    [GET /api/palm/next-order] returns an order, created no later than the
    new one, and [GET /api/orders?status=pending] lists the new order. *)
Theorem X5_created_order_is_pending_and_listed (parseFloat_string : string → float)
    (palmDeviceId_required : bool) (totalAmount_column : float → option float)
    (contains_insensitive : string → string → bool)
    (now : Z) (newId : string) (db db' : Db) (body : CreateOrderBody)
    (created : OrderWithDevice) (authHeader : option string) :
  LaterRevision.post_api_orders parseFloat_string palmDeviceId_required totalAmount_column
    now newId db body
  = (db', Json created) →
  Order.status (owd_order created) = "pending"
  ∧ Order.createdAt (owd_order created) = now
  ∧ Order.completedAt (owd_order created) = None
  ∧ (∃ found,
       LaterRevision.get_api_palm_next_order db' authHeader = Json (Some found)
       ∧ Order.createdAt (owc_order found) ≤ now)
  ∧ ∃ listed,
      LaterRevision.get_api_orders contains_insensitive db' (Some "pending") None
      = Json listed
      ∧ include_customer db' (owd_order created) ∈ listed.
Proof.
  intros Hrun. unfold LaterRevision.post_api_orders in Hrun.
  apply create_order_Json in Hrun as (items & kept & Hitems & Hkept & Ho & ->).
  set (o := owd_order created) in *.
  assert (Hin : o ∈ orders (set_orders db (orders db ++ [o]))).
  { simpl. apply elem_of_app. right. apply list_elem_of_here. }
  assert (Hp : Order.status o = "pending") by (by rewrite Ho).
  assert (Hc : Order.createdAt o = now) by (by rewrite Ho).
  split; [done|]. split; [done|]. split; [by rewrite Ho|]. split.
  - unfold LaterRevision.get_api_palm_next_order.
    destruct (Prisma.order_findFirst (λ o0, Order.status o0 = "pending")
                (set_orders db (orders db ++ [o]))) as [first|] eqn:Hfirst.
    + eexists. split; [reflexivity|]. simpl.
      apply order_findFirst_oldest in Hfirst as (_ & _ & Hleast).
      rewrite <- Hc. by apply Hleast.
    + rewrite order_findFirst_none in Hfirst. by destruct (Hfirst o Hin).
  - eexists. split; [reflexivity|]. apply list_elem_of_fmap_2.
    apply order_findMany_rows. split; [done|]. split; [|done].
    simpl. by rewrite Hp.
Qed.

Lemma X5_created_order_is_pending_and_listed_witness :
  ∃ created db',
    LaterRevision.post_api_orders parseFloat_of_examples true two_decimals 700 "o3"
      shop_example (mkCreateOrderBody None (Some "Dee") (Some two_lines) (Some "d1"))
    = (db', Json created)
    ∧ Order.status (owd_order created) = "pending"
    ∧ Order.createdAt (owd_order created) = 700
    ∧ Order.completedAt (owd_order created) = None
    ∧ (∃ found,
         LaterRevision.get_api_palm_next_order db' None = Json (Some found)
         ∧ Order.createdAt (owc_order found) ≤ 700)
    ∧ ∃ listed,
        LaterRevision.get_api_orders (λ _ _, true) db' (Some "pending") None = Json listed
        ∧ include_customer db' (owd_order created) ∈ listed.
Proof.
  eexists _, _. split; [vm_compute; reflexivity|].
  apply (X5_created_order_is_pending_and_listed parseFloat_of_examples true two_decimals
           (λ _ _, true) 700 "o3" shop_example _
           (mkCreateOrderBody None (Some "Dee") (Some two_lines) (Some "d1"))).
  vm_compute. reflexivity.
Defined.

(** ** What no request changes in an order *)

Lemma apply_update_frozen (data : Prisma.OrderUpdateInput) (x : Order.t) :
  same_frozen_columns x (Prisma.apply_update data x).
Proof. by repeat split. Qed.

Lemma order_update_rows (db : Db) (id : string) (data : Prisma.OrderUpdateInput) :
  orders (match Prisma.order_update db id data with
          | Some (db', _) => db'
          | None => db
          end) = orders db
  ∨ orders (match Prisma.order_update db id data with
            | Some (db', _) => db'
            | None => db
            end)
    = (λ x, if bool_decide (Order.id x = id) then Prisma.apply_update data x else x)
        <$> orders db.
Proof.
  unfold Prisma.order_update. destruct (Prisma.order_find db id); [|by left].
  destruct (negb _); [by left | by right].
Qed.

Lemma create_order_rows (parseFloat_string : string → float) (required : bool)
    (column : float → option float) (now : Z) (newId : string) (db : Db)
    (body : CreateOrderBody) :
  ∃ new,
    orders (fst (Shared.create_order parseFloat_string required column now newId db body))
    = orders db ++ new.
Proof.
  destruct (Shared.create_order parseFloat_string required column now newId db body)
    as [db' [created|c msg]] eqn:Hrun.
  - apply create_order_Json in Hrun as (items & kept & _ & _ & _ & ->). by eexists.
  - exists []. rewrite app_nil_r. unfold Shared.create_order in Hrun.
    destruct (body_items body); [|by injection Hrun as <-].
    destruct (Prisma.order_create _ _ _ _ _ _) as [[??]|];
      [done | by injection Hrun as <-].
Qed.

Lemma serve_order_request_frozen (parseFloat_string : string → float) (required : bool)
    (column : float → option float) (db : Db) (r : order_request) (i : nat) (x : Order.t) :
  orders db !! i = Some x →
  ∃ x', orders (serve_order_request parseFloat_string required column db r) !! i = Some x'
        ∧ same_frozen_columns x x'.
Proof.
  intros Hx.
  assert (Hkeep : ∀ new, ∃ x', (orders db ++ new) !! i = Some x' ∧ same_frozen_columns x x').
  { intros new. exists x. split; [by apply lookup_app_l_Some | done]. }
  assert (Hmap : ∀ id data,
            ∃ x', ((λ y, if bool_decide (Order.id y = id)
                         then Prisma.apply_update data y else y) <$> orders db) !! i = Some x'
                  ∧ same_frozen_columns x x').
  { intros id data. rewrite list_lookup_fmap, Hx. simpl. eexists. split; [done|].
    case_bool_decide; [apply apply_update_frozen | done]. }
  destruct r as [[|] now newId body | [|] now id body]; cbn [serve_order_request].
  - unfold LaterRevision.post_api_orders.
    destruct (create_order_rows parseFloat_string required column now newId db body)
      as [new ->].
    apply Hkeep.
  - unfold FirstRevision.post_api_orders.
    destruct (negb (Js.truthy (body_palmDeviceId body))); [by exists x|].
    destruct (create_order_rows parseFloat_string required column now newId db body)
      as [new ->].
    apply Hkeep.
  - rewrite later_complete_order_rows, list_lookup_fmap, Hx. simpl. eexists. split; [done|].
    case_bool_decide; [by repeat split | done].
  - unfold FirstRevision.post_api_palm_complete_order.
    pose proof (order_update_rows db id
                  (Prisma.mkOrderUpdateInput (complete_status body) (Some now)
                     (complete_customerId body) (complete_customerName body))) as Hr.
    destruct (Prisma.order_update _ _ _) as [[db' o]|]; cbn [fst]; [|by exists x].
    destruct Hr as [-> | ->]; [by exists x | apply Hmap].
Qed.

(** X6.  The columns written at creation stay as they were created: after
    any sequence of order creations and completions, served by either
    revision in any mix, failed or not, every order that was in the store
    is still at its place in the table with the same [id], [totalAmount],
    items, [palmDeviceId] and [createdAt]. *)
Theorem X6_requests_keep_frozen_columns (parseFloat_string : string → float)
    (palmDeviceId_required : bool) (totalAmount_column : float → option float)
    (rs : list order_request) (db : Db) (i : nat) (x : Order.t) :
  orders db !! i = Some x →
  ∃ x',
    orders (serve_order_requests parseFloat_string palmDeviceId_required
              totalAmount_column db rs) !! i
    = Some x'
    ∧ same_frozen_columns x x'.
Proof.
  revert db x. induction rs as [|r rs IH]; intros db x Hx; [by exists x|].
  destruct (serve_order_request_frozen parseFloat_string palmDeviceId_required
              totalAmount_column db r i x Hx)
    as (x1 & Hx1 & Hf1).
  destruct (IH _ _ Hx1) as (x' & Hx' & Hf').
  exists x'. split; [exact Hx'|].
  destruct Hf1 as (?&?&?&?&?), Hf' as (?&?&?&?&?). repeat split; congruence.
Qed.

Lemma X6_requests_keep_frozen_columns_witness :
  orders shop_example !! 2%nat = Some order_south
  ∧ ∃ x',
      orders (serve_order_requests parseFloat_of_examples true two_decimals shop_example
                [CompleteOrder true 900 "o1" (mkCompleteOrderBody (Some "completed") None None);
                 CreateOrder false 910 "o3"
                   (mkCreateOrderBody None None (Some two_lines) (Some "d1"));
                 CompleteOrder false 920 "o1"
                   (mkCompleteOrderBody (Some "paid") (Some "c1") (Some ""))]) !! 2%nat
      = Some x'
      ∧ same_frozen_columns order_south x'.
Proof.
  split; [reflexivity|].
  apply (X6_requests_keep_frozen_columns parseFloat_of_examples true two_decimals _
           shop_example 2 order_south).
  reflexivity.
Defined.

(** X2.  The two revisions complete an order alike whenever the body
    carries no [customerId] and its [customerName] is absent or not empty:
    same reply, same store.  They part only on a [customerId], which the
    first revision writes, and on an empty [customerName], which the first
    revision writes and the later one skips. *)
Theorem X2_revisions_agree_on_completion (now : Z) (db : Db) (id : string)
    (body : CompleteOrderBody) :
  complete_customerId body = None →
  complete_customerName body ≠ Some "" →
  FirstRevision.post_api_palm_complete_order now db id body
  = LaterRevision.post_api_palm_complete_order now db id body.
Proof.
  intros Hid Hname.
  unfold FirstRevision.post_api_palm_complete_order,
    LaterRevision.post_api_palm_complete_order.
  rewrite Hid. do 2 f_equal.
  destruct (complete_customerName body) as [n|]; [|done]. simpl.
  destruct (String.eqb_spec n ""); [congruence | done].
Qed.

Lemma X2_revisions_agree_on_completion_witness :
  complete_customerName (mkCompleteOrderBody (Some "completed") None (Some "Ana B."))
  ≠ Some ""
  ∧ FirstRevision.post_api_palm_complete_order 900 shop_example "o1"
      (mkCompleteOrderBody (Some "completed") None (Some "Ana B."))
    = LaterRevision.post_api_palm_complete_order 900 shop_example "o1"
        (mkCompleteOrderBody (Some "completed") None (Some "Ana B.")).
Proof.
  split; [done|].
  apply (X2_revisions_agree_on_completion 900 shop_example "o1"
           (mkCompleteOrderBody (Some "completed") None (Some "Ana B."))); done.
Defined.

(** ** Listings of orders *)

Lemma completedAt_desc_total (nulls_first : bool) : Total (Prisma.completedAt_desc nulls_first).
Proof.
  intros a b. unfold Prisma.completedAt_desc.
  destruct (Order.completedAt a), (Order.completedAt b), nulls_first; auto; lia.
Qed.

Lemma completedAt_desc_trans (nulls_first : bool) :
  Transitive (Prisma.completedAt_desc nulls_first).
Proof.
  intros a b c. unfold Prisma.completedAt_desc.
  destruct (Order.completedAt a), (Order.completedAt b), (Order.completedAt c), nulls_first;
    auto; try done; lia.
Qed.

#[global] Existing Instances completedAt_desc_total completedAt_desc_trans.








(** ** Devices and their tokens *)

Lemma toString_hex_length (buf : list ascii) :
  String.length (Js.toString_hex buf) = (2 * length buf)%nat.
Proof. induction buf as [|b buf IH]; simpl; [done|]. rewrite IH. lia. Qed.

Lemma toString_hex_digits (buf : list ascii) :
  Forall (λ c, Js.isHexDigit c = true) (String.list_ascii_of_string (Js.toString_hex buf)).
Proof.
  induction buf as [|b buf IH]; [constructor|].
  cbn [Js.toString_hex String.list_ascii_of_string].
  constructor; [|constructor; [|exact IH]];
    destruct b as [[|] [|] [|] [|] [|] [|] [|] [|]]; reflexivity.
Qed.

Lemma find_snoc {A : Type} (p : A → bool) (l : list A) (x : A) :
  find p l = None → p x = true → find p (l ++ [x]) = Some x.
Proof.
  induction l as [|y l IH]; simpl; intros Hl Hx; [by rewrite Hx|].
  destruct (p y); [done | by apply IH].
Qed.

(** A lookup through rows rewritten by a function that keeps the key. *)
Lemma find_fmap_keeping {A : Type} (p : A → bool) (g : A → A) (l : list A) :
  (∀ x, p (g x) = p x) → find p (g <$> l) = g <$> find p l.
Proof.
  intros Hg. induction l as [|y l IH]; [done|]. simpl. rewrite Hg.
  by destruct (p y).
Qed.

Lemma palmDevice_create_Some (active_default : bool) (now : Z) (newId : string)
    (db db' : Db) (name location : option string) (apiToken : string)
    (device : PalmDevice.t) :
  Prisma.palmDevice_create active_default now newId db name location apiToken
  = Some (db', device) →
  Prisma.palmDevice_find db newId = None
  ∧ Prisma.palmDevice_findUnique_apiToken db apiToken = None
  ∧ device = PalmDevice.mk newId name location apiToken active_default None now
  ∧ db' = Prisma.set_palmDevices db (palmDevices db ++ [device]).
Proof.
  unfold Prisma.palmDevice_create. intros Hc.
  destruct (Prisma.palmDevice_find db newId) eqn:Hid;
    [by rewrite bool_decide_eq_true_2 in Hc|].
  destruct (Prisma.palmDevice_findUnique_apiToken db apiToken) eqn:Htok;
    [by rewrite bool_decide_eq_true_2 in Hc|].
  rewrite !bool_decide_eq_false_2 in Hc by (by intros [??]).
  by injection Hc as <- <-.
Qed.

(** A request that carries the token of a device behind [Bearer] is not
    answered with 401 by either authenticated handler. *)
Lemma bearer_accepted (db : Db) (token : string) (device : PalmDevice.t) :
  Prisma.palmDevice_findUnique_apiToken db token = Some device →
  (∃ next, FirstRevision.get_api_palm_next_order db (Some ("Bearer " +:+ token)) = Json next)
  ∧ ∀ now newId body,
      status_code (snd (LaterRevision.post_api_palm_devices_auth_log now newId db
                          (Some ("Bearer " +:+ token)) body)) ≠ 401.
Proof.
  intros Hdev. destruct (bearer_header token) as (Ht & Hs & Hsub). split.
  - unfold FirstRevision.get_api_palm_next_order. rewrite Ht, Hs.
    change (default "" (Some ("Bearer " +:+ token))) with ("Bearer " +:+ token).
    cbn [negb orb]. rewrite Hsub, Hdev. by eexists.
  - intros now newId body. unfold LaterRevision.post_api_palm_devices_auth_log.
    rewrite Hs. change (default "" (Some ("Bearer " +:+ token))) with ("Bearer " +:+ token).
    cbn [negb]. rewrite Hsub, Hdev.
    by destruct (Prisma.deviceAuthenticationLog_create _ _ _ _ _ _ _ _) as [[??]|].
Qed.

(** X9.  A device that [POST /api/palm/register] has registered carries a
    token of 64 characters, all of them hexadecimal digits in lower case;
    it is the last row of the device table, a lookup by its token finds
    it and no other device, and a request that presents the token behind
    [Bearer] passes the authentication of both authenticated handlers. *)
Theorem X9_registered_token_is_hex_and_accepted (active_default : bool) (now : Z)
    (newId : string) (randomBytes : list ascii) (db db' : Db) (body : DeviceBody)
    (device : PalmDevice.t) :
  length randomBytes = 32%nat →
  Shared.post_api_palm_register active_default now newId randomBytes db body
  = (db', Json device) →
  String.length (PalmDevice.apiToken device) = 64%nat
  ∧ Forall (λ c, Js.isHexDigit c = true)
      (String.list_ascii_of_string (PalmDevice.apiToken device))
  ∧ (PalmDevice.name device, PalmDevice.location device)
    = (device_name body, device_location body)
  ∧ palmDevices db' = palmDevices db ++ [device]
  ∧ (∀ d, d ∈ palmDevices db → PalmDevice.apiToken d ≠ PalmDevice.apiToken device)
  ∧ Prisma.palmDevice_findUnique_apiToken db' (PalmDevice.apiToken device) = Some device
  ∧ (∃ next, FirstRevision.get_api_palm_next_order db'
               (Some ("Bearer " +:+ PalmDevice.apiToken device)) = Json next)
  ∧ ∀ now' newId' body',
      status_code (snd (LaterRevision.post_api_palm_devices_auth_log now' newId' db'
                          (Some ("Bearer " +:+ PalmDevice.apiToken device)) body')) ≠ 401.
Proof.
  intros Hlen Hrun. unfold Shared.post_api_palm_register in Hrun.
  destruct (Prisma.palmDevice_create _ _ _ _ _ _ _) as [[db1 d1]|] eqn:Hc; [|done].
  injection Hrun as -> ->.
  apply palmDevice_create_Some in Hc as (Hid & Htok & Hd & ->).
  assert (Hfind : Prisma.palmDevice_findUnique_apiToken
                    (Prisma.set_palmDevices db (palmDevices db ++ [device]))
                    (PalmDevice.apiToken device) = Some device).
  { unfold Prisma.palmDevice_findUnique_apiToken. simpl. apply find_snoc.
    - rewrite Hd. exact Htok.
    - by apply bool_decide_eq_true. }
  split; [rewrite Hd; simpl; rewrite toString_hex_length; lia|].
  split; [rewrite Hd; apply toString_hex_digits|].
  split; [by rewrite Hd|]. split; [done|].
  split; [rewrite Hd; simpl; by apply findUnique_apiToken_None|].
  split; [done|]. exact (bearer_accepted _ _ device Hfind).
Qed.

Lemma X9_registered_token_is_hex_and_accepted_witness :
  Shared.post_api_palm_register true 800 "d3" (replicate 32 "171"%char) shop_example
    (mkDeviceBody (Some "West") None)
  = (Prisma.set_palmDevices shop_example (palmDevices shop_example ++ [kiosk_west]),
     Json kiosk_west)
  ∧ String.length (PalmDevice.apiToken kiosk_west) = 64%nat
  ∧ Prisma.palmDevice_findUnique_apiToken
      (Prisma.set_palmDevices shop_example (palmDevices shop_example ++ [kiosk_west]))
      (PalmDevice.apiToken kiosk_west) = Some kiosk_west.
Proof.
  assert (Hrun : Shared.post_api_palm_register true 800 "d3" (replicate 32 "171"%char)
                   shop_example (mkDeviceBody (Some "West") None)
                 = (Prisma.set_palmDevices shop_example
                      (palmDevices shop_example ++ [kiosk_west]), Json kiosk_west))
    by (vm_compute; reflexivity).
  split; [exact Hrun|].
  destruct (X9_registered_token_is_hex_and_accepted true 800 "d3"
              (replicate 32 "171"%char) shop_example _ (mkDeviceBody (Some "West") None)
              kiosk_west eq_refl Hrun) as (Hlen & _ & _ & _ & _ & Hfind & _).
  split; [exact Hlen | exact Hfind].
Defined.

Lemma patch_device_rows (db : Db) (id : string) (body : DeviceBody) :
  fst (LaterRevision.patch_api_palm_devices db id body)
  = Prisma.set_palmDevices db
      ((λ x, if bool_decide (PalmDevice.id x = id)
             then Prisma.apply_device_update (device_name body) (device_location body) x
             else x) <$> palmDevices db)
  ∨ (Prisma.palmDevice_find db id = None
     ∧ LaterRevision.patch_api_palm_devices db id body
       = (db, Fail 500 "Failed to update device")).
Proof.
  unfold LaterRevision.patch_api_palm_devices, Prisma.palmDevice_update.
  destruct (Prisma.palmDevice_find db id); [by left | by right].
Qed.

Lemma patched_row_keeps_keys (id : string) (body : DeviceBody) (x : PalmDevice.t) :
  let x' := if bool_decide (PalmDevice.id x = id)
            then Prisma.apply_device_update (device_name body) (device_location body) x
            else x in
  PalmDevice.id x' = PalmDevice.id x ∧ PalmDevice.apiToken x' = PalmDevice.apiToken x.
Proof. simpl. by case_bool_decide. Qed.

(** X10.  No request makes two devices share a token or an id: a store
    whose devices are pairwise distinct in both stays so under
    [POST /api/palm/register], accepted or refused, and under
    [PATCH /api/palm/devices/:id]; and in such a store the lookup of a
    device's token finds that very device. *)
Theorem X10_device_tokens_stay_distinct (active_default : bool) (now : Z)
    (newId id : string) (randomBytes : list ascii) (db : Db) (body : DeviceBody) :
  devices_distinct db →
  devices_distinct
    (fst (Shared.post_api_palm_register active_default now newId randomBytes db body))
  ∧ devices_distinct (fst (LaterRevision.patch_api_palm_devices db id body))
  ∧ ∀ d, d ∈ palmDevices db →
         Prisma.palmDevice_findUnique_apiToken db (PalmDevice.apiToken d) = Some d.
Proof.
  intros [Htok Hid]. split; [|split].
  - unfold Shared.post_api_palm_register.
    destruct (Prisma.palmDevice_create _ _ _ _ _ _ _) as [[db1 d1]|] eqn:Hc; [|done].
    apply palmDevice_create_Some in Hc as (Hnew & Hfree & -> & ->).
    unfold devices_distinct. simpl. rewrite !fmap_app. simpl. split.
    + apply NoDup_app. split; [done|]. split; [|apply NoDup_singleton].
      intros t Ht Ht'. apply list_elem_of_singleton in Ht'.
      apply list_elem_of_fmap in Ht as (d & -> & Hd).
      by eapply findUnique_apiToken_None in Hfree.
    + apply NoDup_app. split; [done|]. split; [|apply NoDup_singleton].
      intros i Hi Hi'. apply list_elem_of_singleton in Hi'.
      apply list_elem_of_fmap in Hi as (d & -> & Hd).
      unfold Prisma.palmDevice_find in Hnew.
      eapply find_none in Hnew; [|by apply list_elem_of_In].
      by apply bool_decide_eq_false in Hnew.
  - destruct (patch_device_rows db id body) as [-> | [_ ->]]; [|done].
    unfold devices_distinct. simpl. rewrite <- !list_fmap_compose.
    replace (_ <$> palmDevices db) with (PalmDevice.apiToken <$> palmDevices db)
      by (apply list_fmap_ext; intros i x _; symmetry;
          apply (patched_row_keeps_keys id body x)).
    replace (_ ∘ _ <$> palmDevices db) with (PalmDevice.id <$> palmDevices db)
      by (apply list_fmap_ext; intros i x _; symmetry;
          apply (patched_row_keeps_keys id body x)).
    done.
  - unfold Prisma.palmDevice_findUnique_apiToken.
    induction (palmDevices db) as [|y l IH]; intros d Hd; [by apply elem_of_nil in Hd|].
    simpl in Htok, Hid |- *. apply NoDup_cons in Htok as [Hy Htok].
    apply NoDup_cons in Hid as [_ Hid]. apply elem_of_cons in Hd as [->|Hd].
    + by rewrite bool_decide_eq_true_2.
    + rewrite bool_decide_eq_false_2; [by apply IH|].
      intros Heq. apply Hy. rewrite Heq. by apply list_elem_of_fmap_2.
Qed.

Lemma X10_device_tokens_stay_distinct_witness :
  devices_distinct shop_example
  ∧ devices_distinct
      (fst (Shared.post_api_palm_register true 800 "d3" (replicate 32 "171"%char)
              shop_example (mkDeviceBody (Some "West") None)))
  ∧ devices_distinct
      (fst (LaterRevision.patch_api_palm_devices shop_example "d1"
              (mkDeviceBody (Some "North gate") None))).
Proof.
  assert (Hd : devices_distinct shop_example).
  { split; apply (bool_decide_unpack _); vm_compute; exact I. }
  split; [exact Hd|].
  destruct (X10_device_tokens_stay_distinct true 800 "d3" "d1" (replicate 32 "171"%char)
              shop_example (mkDeviceBody (Some "North gate") None) Hd) as (_ & Hpatch & _).
  destruct (X10_device_tokens_stay_distinct true 800 "d3" "d1" (replicate 32 "171"%char)
              shop_example (mkDeviceBody (Some "West") None) Hd) as (Hreg & _ & _).
  split; [exact Hreg | exact Hpatch].
Defined.

Lemma device_createdAt_desc_total : Total Prisma.device_createdAt_desc.
Proof. intros a b. unfold Prisma.device_createdAt_desc. lia. Qed.

Lemma device_createdAt_desc_trans : Transitive Prisma.device_createdAt_desc.
Proof. intros a b c. unfold Prisma.device_createdAt_desc. lia. Qed.

#[global] Existing Instances device_createdAt_desc_total device_createdAt_desc_trans.

(** X11.  [GET /api/palm-devices] asks for no credential and lists every
    device of the store, newest first, with its [apiToken]: for each
    device of the store the reply has its row, and a request that presents
    the token of a listed row behind [Bearer] passes the authentication
    of both authenticated handlers.  [GET /api/palm/devices] lists the
    same devices in the same order, without the token. *)
Theorem X11_device_listing_exposes_tokens (db : Db) :
  ∃ listed summaries,
    Shared.get_api_palm_devices_all db = Json listed
    ∧ Shared.get_api_palm_devices db = Json summaries
    ∧ listed ≡ₚ palmDevices db
    ∧ StronglySorted Prisma.device_createdAt_desc listed
    ∧ summary_id <$> summaries = PalmDevice.id <$> listed
    ∧ ∀ d, d ∈ listed →
        (∃ next, FirstRevision.get_api_palm_next_order db
                   (Some ("Bearer " +:+ PalmDevice.apiToken d)) = Json next)
        ∧ ∀ now newId body,
            status_code (snd (LaterRevision.post_api_palm_devices_auth_log now newId db
                                (Some ("Bearer " +:+ PalmDevice.apiToken d)) body)) ≠ 401.
Proof.
  unfold Shared.get_api_palm_devices_all, Shared.get_api_palm_devices,
    Prisma.palmDevice_findMany.
  eexists _, _. split; [reflexivity|]. split; [reflexivity|].
  split; [apply merge_sort_Permutation|].
  split; [apply StronglySorted_merge_sort; apply _|].
  split; [by rewrite <- list_fmap_compose|].
  intros d Hd. rewrite merge_sort_Permutation in Hd.
  destruct (Prisma.palmDevice_findUnique_apiToken db (PalmDevice.apiToken d))
    as [d'|] eqn:Hfind.
  - exact (bearer_accepted _ _ d' Hfind).
  - rewrite findUnique_apiToken_None in Hfind. by destruct (Hfind d Hd).
Qed.

Lemma X11_device_listing_exposes_tokens_witness :
  Shared.get_api_palm_devices_all shop_example = Json [kiosk_south; kiosk_north]
  ∧ ∃ listed summaries,
      Shared.get_api_palm_devices_all shop_example = Json listed
      ∧ Shared.get_api_palm_devices shop_example = Json summaries
      ∧ listed ≡ₚ palmDevices shop_example
      ∧ StronglySorted Prisma.device_createdAt_desc listed
      ∧ summary_id <$> summaries = PalmDevice.id <$> listed
      ∧ ∀ d, d ∈ listed →
          (∃ next, FirstRevision.get_api_palm_next_order shop_example
                     (Some ("Bearer " +:+ PalmDevice.apiToken d)) = Json next)
          ∧ ∀ now newId body,
              status_code (snd (LaterRevision.post_api_palm_devices_auth_log now newId
                                  shop_example
                                  (Some ("Bearer " +:+ PalmDevice.apiToken d)) body)) ≠ 401.
Proof.
  split; [vm_compute; reflexivity|].
  apply (X11_device_listing_exposes_tokens shop_example).
Defined.

(** X12.  [PATCH /api/palm/devices/:id] changes the name and the location
    of the device and nothing the authentication rests on: afterwards every
    token resolves to a device of the same id as before, and the first
    revision's [GET /api/palm/next-order] gives every caller the answer it
    gave before.  An id that names no device is answered with 500 and
    changes nothing. *)
Theorem X12_patch_device_keeps_authentication (db : Db) (id : string) (body : DeviceBody)
    (authHeader : option string) (token : string) :
  PalmDevice.id <$> Prisma.palmDevice_findUnique_apiToken
                      (fst (LaterRevision.patch_api_palm_devices db id body)) token
  = PalmDevice.id <$> Prisma.palmDevice_findUnique_apiToken db token
  ∧ FirstRevision.get_api_palm_next_order
      (fst (LaterRevision.patch_api_palm_devices db id body)) authHeader
    = FirstRevision.get_api_palm_next_order db authHeader
  ∧ (Prisma.palmDevice_find db id = None →
     LaterRevision.patch_api_palm_devices db id body
     = (db, Fail 500 "Failed to update device"))
  ∧ (∀ d, Prisma.palmDevice_find db id = Some d →
       snd (LaterRevision.patch_api_palm_devices db id body)
       = Json (PalmDevice.mk (PalmDevice.id d)
                 (match device_name body with Some n => Some n | None => PalmDevice.name d end)
                 (match device_location body with
                  | Some l => Some l
                  | None => PalmDevice.location d
                  end)
                 (PalmDevice.apiToken d) (PalmDevice.active d) (PalmDevice.lastSeenAt d)
                 (PalmDevice.createdAt d))).
Proof.
  assert (Hfind : ∀ t,
            Prisma.palmDevice_findUnique_apiToken
              (fst (LaterRevision.patch_api_palm_devices db id body)) t
            = (λ x, if bool_decide (PalmDevice.id x = id)
                    then Prisma.apply_device_update (device_name body)
                           (device_location body) x
                    else x) <$> Prisma.palmDevice_findUnique_apiToken db t).
  { intros t. destruct (patch_device_rows db id body) as [-> | [Hnone ->]].
    - unfold Prisma.palmDevice_findUnique_apiToken. simpl.
      apply find_fmap_keeping. intros x.
      by destruct (patched_row_keeps_keys id body x) as [_ ->].
    - simpl. destruct (Prisma.palmDevice_findUnique_apiToken db t) as [d|] eqn:Hd; [|done].
      simpl. rewrite bool_decide_eq_false_2; [done|].
      apply findUnique_apiToken_Some in Hd as [Hin _]. intros Heq.
      unfold Prisma.palmDevice_find in Hnone.
      eapply find_none in Hnone; [|by apply list_elem_of_In].
      by apply bool_decide_eq_false in Hnone. }
  split; [|split; [|split]].
  - rewrite Hfind. destruct (Prisma.palmDevice_findUnique_apiToken db token) as [d|]; [|done].
    simpl. by case_bool_decide.
  - unfold FirstRevision.get_api_palm_next_order.
    destruct (negb (Js.truthy authHeader) || negb _); [done|].
    rewrite Hfind.
    destruct (Prisma.palmDevice_findUnique_apiToken db _) as [d|]; [|done]. simpl.
    destruct (patch_device_rows db id body) as [-> | [_ ->]];
      by case_bool_decide.
  - intros Hnone. unfold LaterRevision.patch_api_palm_devices, Prisma.palmDevice_update.
    by rewrite Hnone.
  - intros d Hd. unfold LaterRevision.patch_api_palm_devices, Prisma.palmDevice_update.
    by rewrite Hd.
Qed.

Lemma X12_patch_device_keeps_authentication_witness :
  snd (LaterRevision.patch_api_palm_devices shop_example "d1"
         (mkDeviceBody (Some "North gate") None))
  = Json (PalmDevice.mk "d1" (Some "North gate") None "tok-north" true None 10)
  ∧ FirstRevision.get_api_palm_next_order
      (fst (LaterRevision.patch_api_palm_devices shop_example "d1"
              (mkDeviceBody (Some "North gate") None))) (Some "Bearer tok-north")
    = FirstRevision.get_api_palm_next_order shop_example (Some "Bearer tok-north").
Proof.
  destruct (X12_patch_device_keeps_authentication shop_example "d1"
              (mkDeviceBody (Some "North gate") None) (Some "Bearer tok-north") "tok-north")
    as (_ & Hnext & _ & Hreply).
  split; [exact (Hreply kiosk_north eq_refl) | exact Hnext].
Defined.

(** ** The device logs *)

Lemma timestamp_desc_total : Total Prisma.timestamp_desc.
Proof. intros a b. unfold Prisma.timestamp_desc. lia. Qed.

Lemma timestamp_desc_trans : Transitive Prisma.timestamp_desc.
Proof. intros a b c. unfold Prisma.timestamp_desc. lia. Qed.

#[global] Existing Instances timestamp_desc_total timestamp_desc_trans.

(** X13.  [GET /api/v1/palm/device-logs] returns 1000 rows, or as many
    as the store has device logs when these are fewer, in descending
    order of their timestamp, and all the logs when the store has no more
    than 1000.  Each row is a log of the store; its
    location is the current location of the device the log names when
    that device exists and has a non-empty location, and the location
    stored in the log otherwise; its device name is that device's name. *)
Theorem X13_device_logs_newest_thousand (db : Db) :
  ∃ listed,
    LaterRevision.get_api_v1_palm_device_logs db = Json listed
    ∧ length listed = Nat.min 1000%nat (length (deviceAuthenticationLogs db))
    ∧ StronglySorted (λ a b, formatted_timestamp b ≤ formatted_timestamp a) listed
    ∧ (∀ row, row ∈ listed →
         ∃ log, log ∈ deviceAuthenticationLogs db
           ∧ formatted_id row = DeviceAuthenticationLog.id log
           ∧ formatted_timestamp row = DeviceAuthenticationLog.timestamp log
           ∧ formatted_palmDeviceId row = DeviceAuthenticationLog.palmDeviceId log
           ∧ formatted_deviceName row
             = (DeviceAuthenticationLog.palmDeviceId log ≫= Prisma.palmDevice_find db)
                 ≫= PalmDevice.name
           ∧ formatted_location row
             = match (DeviceAuthenticationLog.palmDeviceId log ≫= Prisma.palmDevice_find db)
                       ≫= PalmDevice.location with
               | Some place => if String.eqb place ""
                               then DeviceAuthenticationLog.location log else place
               | None => DeviceAuthenticationLog.location log
               end)
    ∧ ((length (deviceAuthenticationLogs db) ≤ 1000)%nat →
       ∀ log, log ∈ deviceAuthenticationLogs db →
              ∃ row, row ∈ listed ∧ formatted_id row = DeviceAuthenticationLog.id log).
Proof.
  unfold LaterRevision.get_api_v1_palm_device_logs, Prisma.deviceAuthenticationLog_findMany.
  set (sorted := merge_sort Prisma.timestamp_desc (deviceAuthenticationLogs db)).
  assert (Hperm : sorted ≡ₚ deviceAuthenticationLogs db) by apply merge_sort_Permutation.
  eexists. split; [reflexivity|]. split; [|split; [|split]].
  - rewrite !length_fmap, length_take, Hperm. done.
  - rewrite <- list_fmap_compose.
    apply (StronglySorted_fmap _ Prisma.timestamp_desc); [by intros x y|].
    eapply StronglySorted_sublist; [apply sublist_take|].
    apply StronglySorted_merge_sort; apply _.
  - intros row Hrow. apply list_elem_of_fmap in Hrow as ([log dev] & -> & Hrow).
    apply list_elem_of_fmap in Hrow as (log' & [= <- ->] & Hlog).
    exists log. split; [|by repeat split].
    rewrite <- Hperm. eapply elem_of_sublist; [done | apply sublist_take].
  - intros Hfew log Hlog.
    exists (LaterRevision.formatLog
              (log, DeviceAuthenticationLog.palmDeviceId log ≫= Prisma.palmDevice_find db)).
    split; [|reflexivity]. rewrite take_ge by (by rewrite Hperm).
    apply list_elem_of_fmap_2.
    apply (list_elem_of_fmap_2
             (λ l, (l, DeviceAuthenticationLog.palmDeviceId l ≫= Prisma.palmDevice_find db))).
    by rewrite Hperm.
Qed.

Lemma X13_device_logs_newest_thousand_witness :
  ∃ listed,
    LaterRevision.get_api_v1_palm_device_logs
      (fst (LaterRevision.post_api_palm_devices_auth_log 500 "a1" shop_example
              (Some "Bearer tok-north") (mkAuthLogBody None (Some "Lobby") (Some true) None)))
    = Json listed
    ∧ listed = [mkFormattedLog "a1" "palm" "Lobby" true "Authentication failed" 500
                  (Some "d1") (Some "North")].
Proof.
  destruct (X13_device_logs_newest_thousand
              (fst (LaterRevision.post_api_palm_devices_auth_log 500 "a1" shop_example
                      (Some "Bearer tok-north")
                      (mkAuthLogBody None (Some "Lobby") (Some true) None))))
    as (listed & Hrun & _).
  exists listed. split; [exact Hrun|]. injection Hrun as <-. vm_compute. reflexivity.
Defined.

Lemma deviceAuthenticationLog_create_Some (newId : string) (db db' : Db)
    (palmDeviceId deviceType location : string) (success : bool) (reason : string)
    (timestamp : Z) (log : DeviceAuthenticationLog.t) :
  Prisma.deviceAuthenticationLog_create newId db palmDeviceId deviceType location success
    reason timestamp = Some (db', log) →
  log = DeviceAuthenticationLog.mk newId (Some palmDeviceId) deviceType location success
          reason timestamp
  ∧ db' = set_deviceAuthenticationLogs db (deviceAuthenticationLogs db ++ [log]).
Proof.
  unfold Prisma.deviceAuthenticationLog_create. intros Hc.
  repeat match type of Hc with (if ?c then _ else _) = _ => destruct c; [done|] end.
  by injection Hc as <- <-.
Qed.

Lemma palmDevice_find_distinct (db : Db) (d : PalmDevice.t) :
  devices_distinct db → d ∈ palmDevices db →
  Prisma.palmDevice_find db (PalmDevice.id d) = Some d.
Proof.
  intros [_ Hid]. unfold Prisma.palmDevice_find.
  induction (palmDevices db) as [|y l IH]; intros Hd; [by apply elem_of_nil in Hd|].
  simpl in Hid |- *. apply NoDup_cons in Hid as [Hy Hid].
  apply elem_of_cons in Hd as [->|Hd].
  - by rewrite bool_decide_eq_true_2.
  - rewrite bool_decide_eq_false_2; [by apply IH|].
    intros Heq. apply Hy. rewrite Heq. by apply list_elem_of_fmap_2.
Qed.

(** X14.  An attempt logged through [POST /api/palm-devices/auth-log]
    shows up in [GET /api/v1/palm/device-logs] (the store holding fewer
    than 1000 logs, its devices distinct): the row has the new id, the
    time of the request, the id and the name of the authenticated device,
    the [success] of the body ([false] when the body has none), and for
    location the device's own location when the device has a non-empty
    one, whatever location the body carried; the body's location (or
    "Unknown") is shown only for a device without one. *)
Theorem X14_logged_attempt_is_listed (now : Z) (newId token : string) (db db' : Db)
    (body : AuthLogBody) (reply : bool * DeviceAuthenticationLog.t) :
  devices_distinct db →
  (length (deviceAuthenticationLogs db) < 1000)%nat →
  LaterRevision.post_api_palm_devices_auth_log now newId db (Some ("Bearer " +:+ token)) body
  = (db', Json reply) →
  ∃ device listed,
    Prisma.palmDevice_findUnique_apiToken db token = Some device
    ∧ LaterRevision.get_api_v1_palm_device_logs db' = Json listed
    ∧ mkFormattedLog newId
        (Js.or_string (log_deviceType body) "palm")
        (Js.or_string (PalmDevice.location device)
           (Js.or_string (log_location body) "Unknown"))
        (default false (log_success body))
        (Js.or_string (log_reason body) "Authentication failed")
        now (Some (PalmDevice.id device)) (PalmDevice.name device)
      ∈ listed.
Proof.
  intros Hdistinct Hfew Hrun.
  unfold LaterRevision.post_api_palm_devices_auth_log in Hrun.
  destruct (bearer_header token) as (_ & Hs & Hsub). rewrite Hs in Hrun.
  change (default "" (Some ("Bearer " +:+ token))) with ("Bearer " +:+ token) in Hrun.
  cbn [negb] in Hrun. rewrite Hsub in Hrun.
  destruct (Prisma.palmDevice_findUnique_apiToken db token) as [device|] eqn:Hdev; [|done].
  destruct (Prisma.deviceAuthenticationLog_create _ _ _ _ _ _ _ _) as [[db1 log]|] eqn:Hc;
    [|done].
  injection Hrun as -> <-.
  apply deviceAuthenticationLog_create_Some in Hc as [Hlog ->].
  apply findUnique_apiToken_Some in Hdev as Hin. destruct Hin as [Hin _].
  exists device. eexists. split; [done|]. split; [reflexivity|].
  unfold Prisma.deviceAuthenticationLog_findMany. simpl.
  rewrite take_ge.
  2:{ rewrite merge_sort_Permutation, length_app. simpl. lia. }
  apply list_elem_of_fmap. eexists (log, Some device). split.
  - rewrite Hlog. reflexivity.
  - apply list_elem_of_fmap. exists log. split.
    + apply pair_equal_spec. split; [done|]. rewrite Hlog. simpl. symmetry.
      exact (palmDevice_find_distinct db device Hdistinct Hin).
    + rewrite merge_sort_Permutation. apply elem_of_app. right. apply list_elem_of_here.
Qed.

Lemma X14_logged_attempt_is_listed_witness :
  devices_distinct shop_example
  ∧ ∃ device listed,
      Prisma.palmDevice_findUnique_apiToken shop_example "tok-north" = Some device
      ∧ LaterRevision.get_api_v1_palm_device_logs
          (set_deviceAuthenticationLogs shop_example
             [DeviceAuthenticationLog.mk "a1" (Some "d1") "palm" "Lobby" true
                "Authentication failed" 500])
        = Json listed
      ∧ mkFormattedLog "a1"
          (Js.or_string None "palm")
          (Js.or_string (PalmDevice.location device) (Js.or_string (Some "Lobby") "Unknown"))
          (default false (Some true))
          (Js.or_string None "Authentication failed")
          500 (Some (PalmDevice.id device)) (PalmDevice.name device)
        ∈ listed.
Proof.
  assert (Hd : devices_distinct shop_example).
  { split; apply (bool_decide_unpack _); vm_compute; exact I. }
  split; [exact Hd|].
  apply (X14_logged_attempt_is_listed 500 "a1" "tok-north" shop_example _
           (mkAuthLogBody None (Some "Lobby") (Some true) None)
           (true, DeviceAuthenticationLog.mk "a1" (Some "d1") "palm" "Lobby" true
                    "Authentication failed" 500) Hd);
    [simpl; lia | vm_compute; reflexivity].
Defined.

(** ** Reads after a deletion *)

Lemma filter_none {A : Type} (P : A → Prop) `{!∀ x, Decision (P x)} (l : list A) :
  (∀ x, x ∈ l → ¬ P x) → filter P l = [].
Proof.
  intros Hno. destruct (filter P l) as [|x k] eqn:Hf; [done|].
  assert (Hx : x ∈ filter P l) by (rewrite Hf; apply list_elem_of_here).
  apply list_elem_of_filter in Hx as [HP Hx]. by destruct (Hno x Hx).
Qed.

Lemma filter_other {A : Type} (key : A → string) (u other : string) (l : list A) :
  other ≠ u →
  filter (λ x, key x = other) (filter (λ x, key x ≠ u) l) = filter (λ x, key x = other) l.
Proof.
  intros Hne. rewrite list_filter_filter. apply list_filter_iff.
  intros x. split; [tauto | intros ->; tauto].
Qed.

(** The tables [DELETE /api/v1/users/:userId] leaves, whatever it answers. *)
Lemma delete_user_rows (db : Db) (userId : string) :
  let db' := fst (LaterRevision.delete_api_v1_users db userId) in
  cards db' = filter (λ c, Card.userId c ≠ userId) (cards db)
  ∧ palmTemplates db' = filter (λ t, PalmTemplate.userId t ≠ userId) (palmTemplates db)
  ∧ authenticationLogs db'
    = filter (λ l, AuthenticationLog.userId l ≠ userId) (authenticationLogs db)
  ∧ Prisma.user_find db' userId = None.
Proof.
  intros db'. unfold db', LaterRevision.delete_api_v1_users.
  set (db3 := Prisma.authenticationLog_deleteMany _ _).
  destruct (Prisma.user_delete db3 userId) as [db4|] eqn:Hd; cbn [fst];
    unfold Prisma.user_delete in Hd;
    destruct (Prisma.user_find db3 userId) as [u|] eqn:Hu; try done;
    rewrite (bool_decide_eq_false_2 _ (dependents_deleted db userId)) in Hd; [|done].
  injection Hd as <-. repeat split. apply user_find_None.
  intros (u' & Hin & Heq). simpl in Hin.
  by apply list_elem_of_filter in Hin as [Hne _].
Qed.

(** X15.  After [DELETE /api/v1/users/:userId], whatever it answered, the
    reads of that user come back empty: the user is not found (404), the
    cards are an empty list, no palm template is found (404), and the
    authentication logs and history are empty.  The cards, the template
    and the logs that the reads return for any other user are what they
    were before. *)
Theorem X15_reads_after_delete (tie_rank : AuthenticationLog.t → Z)
    (findMany_beyond_Int :
       list AuthenticationLog.t → Z → Z → option (list AuthenticationLog.t))
    (db : Db) (userId : string) :
  let db' := fst (LaterRevision.delete_api_v1_users db userId) in
  LaterRevision.get_api_v1_users_by_id db' userId = Fail 404 "User not found"
  ∧ LaterRevision.get_api_v1_users_cards db' userId = Json []
  ∧ LaterRevision.get_api_v1_palm_template db' userId = Fail 404 "Palm template not found"
  ∧ LaterRevision.get_api_v1_users_auth_logs tie_rank findMany_beyond_Int db' userId
      None None
    = Json []
  ∧ LaterRevision.get_api_v1_users_auth_history tie_rank findMany_beyond_Int db' userId
      None None
    = Json (mkAuthHistory [] 0 50 0)
  ∧ ∀ other query_limit query_offset,
      other ≠ userId →
      LaterRevision.get_api_v1_users_cards db' other
      = LaterRevision.get_api_v1_users_cards db other
      ∧ LaterRevision.get_api_v1_palm_template db' other
        = LaterRevision.get_api_v1_palm_template db other
      ∧ LaterRevision.get_api_v1_users_auth_logs tie_rank findMany_beyond_Int db' other
          query_limit query_offset
        = LaterRevision.get_api_v1_users_auth_logs tie_rank findMany_beyond_Int db other
            query_limit query_offset.
Proof.
  intros db'. destruct (delete_user_rows db userId) as (Hc & Ht & Hl & Hu). fold db' in Hc, Ht, Hl, Hu.
  assert (Hcards : Prisma.card_findMany db' userId = []).
  { unfold Prisma.card_findMany. rewrite Hc. apply filter_none.
    intros x Hx. by apply list_elem_of_filter in Hx as [Hne _]. }
  assert (Htemplates : Prisma.palmTemplate_findMany db' userId = []).
  { unfold Prisma.palmTemplate_findMany. rewrite Ht. apply filter_none.
    intros x Hx. by apply list_elem_of_filter in Hx as [Hne _]. }
  assert (Hlogs : Prisma.authenticationLog_ordered tie_rank db' userId = []).
  { unfold Prisma.authenticationLog_ordered. rewrite Hl, filter_none; [done|].
    intros x Hx. by apply list_elem_of_filter in Hx as [Hne _]. }
  split; [unfold LaterRevision.get_api_v1_users_by_id; by rewrite Hu|].
  split; [unfold LaterRevision.get_api_v1_users_cards; by rewrite Hcards|].
  split; [unfold LaterRevision.get_api_v1_palm_template, Prisma.palmTemplate_findFirst;
          by rewrite Htemplates|].
  split; [unfold LaterRevision.get_api_v1_users_auth_logs, Prisma.authenticationLog_findMany;
          by rewrite Hlogs|].
  split; [unfold LaterRevision.get_api_v1_users_auth_history,
            Prisma.authenticationLog_findMany; by rewrite Hlogs|].
  intros other ql qo Hne.
  unfold LaterRevision.get_api_v1_users_cards, LaterRevision.get_api_v1_palm_template,
    LaterRevision.get_api_v1_users_auth_logs, Prisma.palmTemplate_findFirst,
    Prisma.authenticationLog_findMany, Prisma.authenticationLog_ordered,
    Prisma.card_findMany, Prisma.palmTemplate_findMany.
  rewrite Hc, Ht, Hl.
  rewrite (filter_other Card.userId), (filter_other PalmTemplate.userId),
    (filter_other AuthenticationLog.userId) by done.
  done.
Qed.

Lemma X15_reads_after_delete_witness :
  LaterRevision.get_api_v1_users_cards shop_example "u1" = Json [Card.mk "k1" "u1"]
  ∧ LaterRevision.get_api_v1_users_cards
      (fst (LaterRevision.delete_api_v1_users shop_example "u1")) "u1" = Json []
  ∧ LaterRevision.get_api_v1_users_by_id
      (fst (LaterRevision.delete_api_v1_users shop_example "u1")) "u1"
    = Fail 404 "User not found".
Proof.
  destruct (X15_reads_after_delete no_rank beyond_Int_refused shop_example "u1") as (Huser & Hcards & _).
  split; [reflexivity|]. split; [exact Hcards | exact Huser].
Defined.

(** ** More on enrollment tokens *)

Section EnrollmentIsolation.

Context {Features : Type}.
Implicit Types (m : gmap string (Enrollment.t Features)) (token : string).

Lemma step_other_token m token (ev : @Enrollment.event Features) :
  event_token ev ≠ token → Enrollment.step m ev !! token = m !! token.
Proof.
  intros Hne. destruct ev as [tok pf n1 n2 | tok | tok now]; simpl in *.
  - by rewrite lookup_insert_ne.
  - unfold Enrollment.cleanup. by rewrite lookup_delete_ne.
  - unfold Enrollment.get_api_v1_palm_enrollment.
    destruct (m !! tok) as [e|]; [|done].
    destruct (Enrollment.expiresAt e <? now); simpl; [|done].
    by rewrite lookup_delete_ne.
Qed.

Lemma run_other_tokens (es : list (@Enrollment.event Features)) : ∀ m token,
  Forall (λ ev, event_token ev ≠ token) es → Enrollment.run m es !! token = m !! token.
Proof.
  induction es as [|ev es IH]; intros m token Hes; [done|].
  inversion_clear Hes as [|? ? Hev Hrest]. unfold Enrollment.run. simpl.
  fold (Enrollment.run (Enrollment.step m ev) es).
  rewrite IH by done. by apply step_other_token.
Qed.

End EnrollmentIsolation.

(** X16.  An enrollment stored by [POST /api/v1/palm/generate-enrollment-qr]
    is not touched by what happens to other tokens: after any sequence of
    generations, reads and timer firings that concern other tokens, a read
    of the token up to 600000 ms after the generation's second clock
    reading returns the payload and the [createdAt] of the generation
    (overwriting what the token held before), and a read later than that
    returns 410 and deletes it. *)
Theorem X16_generated_token_survives_other_traffic {Features : Type}
    (m : gmap string (Enrollment.t Features)) (token : string) (palmFeatures : Features)
    (now1 now2 : Z) (es : list (@Enrollment.event Features)) (now : Z) :
  Forall (λ ev, event_token ev ≠ token) es →
  let m' :=
    Enrollment.run
      (fst (Enrollment.post_api_v1_palm_generate_enrollment_qr token now1 now2 m palmFeatures))
      es in
  (now ≤ now2 + 600000 →
     Enrollment.get_api_v1_palm_enrollment now m' token
     = (m', Json (true, palmFeatures, now1)))
  ∧ (now2 + 600000 < now →
     Enrollment.get_api_v1_palm_enrollment now m' token
     = (delete token m', Fail 410 "Enrollment token expired")).
Proof.
  intros Hes m'.
  assert (Hm : m' !! token = Some (Enrollment.mk palmFeatures now1 (now2 + 10 * 60 * 1000))).
  { unfold m'. rewrite run_other_tokens by done. apply lookup_insert_eq. }
  split; intros Hnow.
  - by rewrite (read_live _ _ _ _ Hm).
  - by rewrite (read_expired _ _ _ _ Hm).
Qed.

Lemma X16_generated_token_survives_other_traffic_witness :
  Forall (λ ev : @Enrollment.event string, event_token ev ≠ "c3d4")
    [Enrollment.Read "a1b2" 700000; Enrollment.TimerFires "a1b2";
     Enrollment.Generate "e5f6" "other" 100000 100000]
  ∧ Enrollment.get_api_v1_palm_enrollment 700000
      (Enrollment.run
         (fst (Enrollment.post_api_v1_palm_generate_enrollment_qr "c3d4" 100000 100001
                 enrollment_example "palm"))
         [Enrollment.Read "a1b2" 700000; Enrollment.TimerFires "a1b2";
          Enrollment.Generate "e5f6" "other" 100000 100000]) "c3d4"
    = (Enrollment.run
         (fst (Enrollment.post_api_v1_palm_generate_enrollment_qr "c3d4" 100000 100001
                 enrollment_example "palm"))
         [Enrollment.Read "a1b2" 700000; Enrollment.TimerFires "a1b2";
          Enrollment.Generate "e5f6" "other" 100000 100000],
       Json (true, "palm", 100000)).
Proof.
  assert (Hes : Forall (λ ev : @Enrollment.event string, event_token ev ≠ "c3d4")
                  [Enrollment.Read "a1b2" 700000; Enrollment.TimerFires "a1b2";
                   Enrollment.Generate "e5f6" "other" 100000 100000])
    by (repeat constructor; done).
  split; [exact Hes|].
  apply (X16_generated_token_survives_other_traffic enrollment_example "c3d4" "palm"
           100000 100001 _ 700000 Hes).
  lia.
Defined.

(** ** Paging through the authentication logs *)

Lemma limit_of_number (s : string) (n : Z) :
  Js.parseInt s = Some n → n ≠ 0 → LaterRevision.limit_of (Some s) = n.
Proof.
  intros Hs Hn. unfold LaterRevision.limit_of. simpl. rewrite Hs. simpl.
  by destruct (Z.eqb_spec n 0).
Qed.

Lemma offset_of_number (s : string) (k : Z) :
  Js.parseInt s = Some k → LaterRevision.offset_of (Some s) = k.
Proof.
  intros Hs. unfold LaterRevision.offset_of. simpl. rewrite Hs. simpl.
  by destruct (Z.eqb_spec k 0).
Qed.

Lemma limit_of_nonzero (q : option string) : LaterRevision.limit_of q ≠ 0.
Proof.
  unfold LaterRevision.limit_of, Js.or_default.
  destruct (Js.parseInt_param q) as [n|]; [|done].
  by destruct (Z.eqb_spec n 0).
Qed.

Lemma is_Int_bounds (n : Z) : Prisma.is_Int n = true ↔ -2147483648 ≤ n < 2147483648.
Proof. unfold Prisma.is_Int. rewrite andb_true_iff, Z.leb_le, Z.ltb_lt. tauto. Qed.

Lemma findMany_forward (tie_rank : AuthenticationLog.t → Z)
    (findMany_beyond_Int :
       list AuthenticationLog.t → Z → Z → option (list AuthenticationLog.t))
    (db : Db) (userId : string) (n k : Z) :
  0 ≤ n < 2147483648 → 0 ≤ k < 2147483648 →
  Prisma.authenticationLog_findMany tie_rank findMany_beyond_Int db userId n k
  = Some (take (Z.to_nat n)
            (drop (Z.to_nat k) (Prisma.authenticationLog_ordered tie_rank db userId))).
Proof.
  intros Hn Hk. rewrite findMany_Int by (apply is_Int_bounds; lia). cbv zeta.
  destruct (Z.ltb_spec k 0); [lia|]. by destruct (Z.leb_spec 0 n); [|lia].
Qed.

(** Where no two logs of the user share a timestamp, every query sees the
    rows of the user in the same order. *)
Lemma ordered_rows_unique (tie_rank tie_rank' : AuthenticationLog.t → Z) (db : Db)
    (userId : string) :
  instants_distinct db userId →
  Prisma.authenticationLog_ordered tie_rank db userId
  = Prisma.authenticationLog_ordered tie_rank' db userId.
Proof.
  intros Hdistinct.
  apply (StronglySorted_unique_strong Prisma.authenticatedAt_desc);
    [|apply ordered_rows_sorted..|by rewrite !ordered_rows_Permutation].
  intros a b [Ha Hua]%ordered_rows_of_user [Hb Hub]%ordered_rows_of_user Hab Hba.
  apply Hdistinct; [done..|]. unfold Prisma.authenticatedAt_desc in *. lia.
Qed.

(** X17.  On an unchanged store in which no two logs of the user share a
    timestamp, the pages of [GET /api/v1/users/:userId/auth-logs] tile the
    user's logs, whatever order each query gives to rows of one instant:
    for a positive [limit] n and an [offset] k, all of 2n and k+n 32-bit
    integers, the page at [offset] k followed by the page at [offset] k+n
    is the page of [limit] 2n at [offset] k; no log is skipped and none is
    repeated between consecutive pages. *)
Theorem X17_consecutive_pages_tile (tie_rank tie_rank' tie_rank'' : AuthenticationLog.t → Z)
    (findMany_beyond_Int :
       list AuthenticationLog.t → Z → Z → option (list AuthenticationLog.t))
    (db : Db) (userId : string)
    (limit offset nextOffset doubleLimit : string) (n k : Z) :
  instants_distinct db userId →
  Js.parseInt limit = Some n → 0 < n →
  Js.parseInt offset = Some k → 0 ≤ k →
  Js.parseInt nextOffset = Some (k + n) →
  Js.parseInt doubleLimit = Some (2 * n) →
  Prisma.is_Int (2 * n) = true → Prisma.is_Int (k + n) = true →
  ∃ page nextPage both,
    LaterRevision.get_api_v1_users_auth_logs tie_rank findMany_beyond_Int db userId
      (Some limit) (Some offset)
    = Json page
    ∧ LaterRevision.get_api_v1_users_auth_logs tie_rank' findMany_beyond_Int db userId
        (Some limit) (Some nextOffset)
      = Json nextPage
    ∧ LaterRevision.get_api_v1_users_auth_logs tie_rank'' findMany_beyond_Int db userId
        (Some doubleLimit) (Some offset)
      = Json both
    ∧ both = page ++ nextPage.
Proof.
  intros Hdistinct Hl Hn Ho Hk Hno Hdl Hdouble%is_Int_bounds Hnext%is_Int_bounds.
  unfold LaterRevision.get_api_v1_users_auth_logs.
  rewrite (limit_of_number limit n), (limit_of_number doubleLimit (2 * n)),
    (offset_of_number offset k), (offset_of_number nextOffset (k + n)) by (done || lia).
  rewrite !findMany_forward by lia.
  rewrite (ordered_rows_unique tie_rank' tie_rank), (ordered_rows_unique tie_rank'' tie_rank)
    by done.
  eexists _, _, _. split; [reflexivity|]. split; [reflexivity|]. split; [reflexivity|].
  replace (Z.to_nat (k + n)) with (Z.to_nat k + Z.to_nat n)%nat by lia.
  replace (Z.to_nat (2 * n)) with (Z.to_nat n + Z.to_nat n)%nat by lia.
  by rewrite <- drop_drop, take_take_drop.
Qed.

Lemma instants_distinct_shop_example : instants_distinct shop_example "u1".
Proof.
  intros a b Ha Hb Hua Hub Hat. vm_compute in Ha, Hb.
  repeat (apply elem_of_cons in Ha as [->|Ha]);
    repeat (apply elem_of_cons in Hb as [->|Hb]);
    try done; by (apply elem_of_nil in Ha || apply elem_of_nil in Hb).
Defined.

Lemma X17_consecutive_pages_tile_witness :
  ∃ page nextPage both,
    LaterRevision.get_api_v1_users_auth_logs no_rank beyond_Int_refused shop_example "u1"
      (Some "1") (Some "0")
    = Json page
    ∧ LaterRevision.get_api_v1_users_auth_logs l2_first beyond_Int_refused shop_example
        "u1" (Some "1") (Some "1")
      = Json nextPage
    ∧ LaterRevision.get_api_v1_users_auth_logs no_rank beyond_Int_refused shop_example
        "u1" (Some "2") (Some "0")
      = Json both
    ∧ both = page ++ nextPage.
Proof.
  apply (X17_consecutive_pages_tile no_rank l2_first no_rank beyond_Int_refused
           shop_example "u1" "1" "0" "1" "2" 1 0);
    (exact instants_distinct_shop_example || reflexivity || lia).
Defined.

(** Where two logs share a timestamp the pages need not tile: two queries
    may give the two rows either order, and the second page may repeat the
    row the first page returned. *)
Example tied_pages_may_repeat_a_row :
  LaterRevision.get_api_v1_users_auth_logs no_rank beyond_Int_refused tied_logs "u1"
    (Some "1") (Some "0")
  = Json [AuthenticationLog.mk "l1" "u1" 300]
  ∧ LaterRevision.get_api_v1_users_auth_logs l2_first beyond_Int_refused tied_logs "u1"
      (Some "1") (Some "1")
    = Json [AuthenticationLog.mk "l1" "u1" 300].
Proof. vm_compute. done. Qed.

(** X18.  Where [limit] and [offset] are 32-bit integers, a page of
    [GET /api/v1/users/:userId/auth-logs] is empty exactly when the
    [offset] is at or beyond the number of the user's logs: the [limit]
    handed to the store is never 0, so an empty page tells a client that
    it has read everything, for a negative [limit] as well. *)
Theorem X18_empty_page_means_past_the_end (tie_rank : AuthenticationLog.t → Z)
    (findMany_beyond_Int :
       list AuthenticationLog.t → Z → Z → option (list AuthenticationLog.t))
    (db : Db) (userId : string)
    (query_limit query_offset : option string) (logs : list AuthenticationLog.t) :
  Prisma.is_Int (LaterRevision.limit_of query_limit) = true →
  Prisma.is_Int (LaterRevision.offset_of query_offset) = true →
  LaterRevision.get_api_v1_users_auth_logs tie_rank findMany_beyond_Int db userId
    query_limit query_offset
  = Json logs →
  0 ≤ LaterRevision.offset_of query_offset
  ∧ (logs = [] ↔
     (length (filter (λ l, AuthenticationLog.userId l = userId) (authenticationLogs db))
      ≤ Z.to_nat (LaterRevision.offset_of query_offset))%nat).
Proof.
  intros Hil Hio. unfold LaterRevision.get_api_v1_users_auth_logs.
  rewrite findMany_Int by done. cbv zeta.
  pose proof (limit_of_nonzero query_limit) as Hlimit.
  set (limit := LaterRevision.limit_of query_limit) in *.
  set (offset := LaterRevision.offset_of query_offset).
  rewrite <- (ordered_rows_Permutation tie_rank).
  set (rows := Prisma.authenticationLog_ordered tie_rank db userId).
  destruct (Z.ltb_spec offset 0) as [|Hoff]; [done|].
  destruct (Z.leb_spec 0 limit) as [Hpos|Hneg]; intros [= <-]; (split; [done|]).
  - split.
    + intros Hnil. apply take_nil_inv in Hnil as [Hz|Hnil]; [lia|].
      by apply drop_nil_inv.
    + intros Hle. rewrite drop_ge by done. apply take_nil.
  - split.
    + intros Hnil. apply (f_equal reverse) in Hnil. rewrite reverse_involutive in Hnil.
      change (reverse []) with (@nil AuthenticationLog.t) in Hnil.
      apply take_nil_inv in Hnil as [Hz|Hnil]; [lia|].
      apply drop_nil_inv in Hnil. by rewrite length_reverse in Hnil.
    + intros Hle. rewrite drop_ge by (by rewrite length_reverse). by rewrite take_nil.
Qed.

Lemma X18_empty_page_means_past_the_end_witness :
  LaterRevision.get_api_v1_users_auth_logs no_rank beyond_Int_refused shop_example "u1"
    (Some "-5") (Some "2")
  = Json []
  ∧ 0 ≤ LaterRevision.offset_of (Some "2")
  ∧ (@nil AuthenticationLog.t = [] ↔
     (length (filter (λ l, AuthenticationLog.userId l = "u1")
                (authenticationLogs shop_example))
      ≤ Z.to_nat (LaterRevision.offset_of (Some "2")))%nat).
Proof.
  split; [vm_compute; reflexivity|].
  apply (X18_empty_page_means_past_the_end no_rank beyond_Int_refused shop_example "u1"
           (Some "-5") (Some "2") []);
    vm_compute; reflexivity.
Defined.

(** Beyond the 32-bit integers an empty page tells nothing: an ORM that
    answers such a [limit] with an empty page does so at [offset] 0, with
    logs in the store. *)
Example empty_page_beyond_Int :
  LaterRevision.get_api_v1_users_auth_logs no_rank beyond_Int_empty shop_example "u1"
    (Some "9007199254740993") None
  = Json [].
Proof. vm_compute. reflexivity. Qed.
